(** * d13-business-prospector: maps retrieval core

    A shallow embedding of the dual-source retrieval code
    (src/core/maps: rate-limiter.ts, config.ts, google-places-client.ts,
    google-maps-scraper.ts, maps-client.ts) and the properties its
    specification states about it.

    Conventions of the embedding.
    - A JavaScript string is a [string]: its code units are below 256.
    - A JavaScript number that the code uses as a count, a delay or a size is
      a [Z]; the arithmetic of the code on such values is exact below 2^53.
      A number that is only copied (a rating, a coordinate) is the text of
      its literal.
    - A property of a JSON payload that the code only tests for truthiness
      or copies is an [option]: [null] and [undefined] behave alike there.
      Where the code tells the two apart (the coordinates of a place, tested
      with [!== undefined]), the property is a [JsonNumber].
    - An async method is a computation [M A]: it takes the world (the state
      of everything outside the method), and yields an outcome (a value or a
      thrown error), the new world and the trace of the effects it
      performed, in order.  A call to a collaborator is one event that
      carries the trace of the callee. *)

From Stdlib Require Import ZArith List String Ascii Bool Lia.
Set Warnings "-register-all".
From Equations Require Import Equations.
Import ListNotations.
Local Open Scope string_scope.
Local Open Scope Z_scope.

(** ** JavaScript strings *)

Module Js.

(** White space as [String.prototype.trim] sees it, below 256: TAB, LF, VT,
    FF, CR, SPACE and NBSP. *)
Definition is_white_space (c : ascii) : bool :=
  let n := nat_of_ascii c in
  ((9 <=? n)%nat && (n <=? 13)%nat) || (n =? 32)%nat || (n =? 160)%nat.

Fixpoint trimStart (s : string) : string :=
  match s with
  | EmptyString => EmptyString
  | String c r => if is_white_space c then trimStart r else s
  end.

Fixpoint trimEnd (s : string) : string :=
  match s with
  | EmptyString => EmptyString
  | String c r =>
      match trimEnd r with
      | EmptyString => if is_white_space c then EmptyString else String c EmptyString
      | r' => String c r'
      end
  end.

(** [s.trim()] *)
Definition trim (s : string) : string := trimEnd (trimStart s).

(** [s.startsWith(p)] *)
Definition startsWith (s p : string) : bool := String.prefix p s.

(** [s.includes(needle)] *)
Fixpoint includes (s needle : string) : bool :=
  if String.prefix needle s then true
  else match s with
       | EmptyString => false
       | String _ r => includes r needle
       end.

(** [s.split(sep)] for a one-character separator. *)
Fixpoint split (sep : ascii) (s : string) : list string :=
  match s with
  | EmptyString => [EmptyString]
  | String c r =>
      if Ascii.eqb c sep then EmptyString :: split sep r
      else match split sep r with
           | h :: t => String c h :: t
           | [] => [String c EmptyString]
           end
  end.

(** [!s] for a string: only the empty string is falsy. *)
Definition falsy (s : string) : bool := String.eqb s "".

(** [!s || s.trim() === ''], the blank test of every search operation. *)
Definition blank (s : string) : bool := falsy s || String.eqb (trim s) "".

(** White-space-only strings, stated on the characters. *)
Fixpoint whitespace_only (s : string) : bool :=
  match s with
  | EmptyString => true
  | String c r => is_white_space c && whitespace_only r
  end.

(** [a.slice(0, n)] on an array: a negative end counts from the end of the
    array, and both bounds are clamped to the array. *)
Definition slice0 {A} (l : list A) (n : Z) : list A :=
  let len := Z.of_nat (List.length l) in
  let stop := if n <? 0 then Z.max (len + n) 0 else Z.min n len in
  firstn (Z.to_nat stop) l.

(** The error objects the code throws and inspects.  The code reads them
    by duck typing: [error?.response?.status], [error?.code],
    [error?.message] and axios's [isAxiosError] mark. *)
Record Error := mkError {
  message : option string;
  code : option string;
  response_status : option Z;
  isAxiosError : bool
}.

(** [new Error(msg)] *)
Definition newError (msg : string) : Error :=
  {| message := Some msg; code := None; response_status := None;
     isAxiosError := false |}.

(** What a template literal prints for an optional string. *)
Definition display (o : option string) : string :=
  match o with Some s => s | None => "undefined" end.

End Js.

(** ** Effects *)

(** What a method does to the outside, in order.  [EvCall callee arg sub]:
    the method called [callee] with [arg], and the callee did [sub]. *)
Inductive Event :=
| EvCall (callee : string) (arg : string) (sub : list Event)
| EvDelay (ms : Z)
| EvWarn (msg : string).

Inductive Outcome (A : Type) :=
| Returned (a : A)
| Threw (e : Js.Error).
Arguments Returned {A} a.
Arguments Threw {A} e.

(** Handles of the browser automation library. *)
Definition Browser := nat.
Definition Page := nat.

Section Effects.

(** The state of the collaborators (transports, browser library). *)
Context {E : Type}.

(** The world: the lazily created browser session of the scraper
    instance, and the collaborators. *)
Record World := mkWorld {
  browser : option Browser;
  ext : E
}.

Record Run (A : Type) := mkRun {
  outcome : Outcome A;
  world : World;
  trace : list Event
}.
Arguments mkRun {A}.
Arguments outcome {A}.
Arguments world {A}.
Arguments trace {A}.

Definition M (A : Type) := World -> Run A.

Definition ret {A} (a : A) : M A := fun w => mkRun (Returned a) w [].

Definition throw {A} (e : Js.Error) : M A := fun w => mkRun (Threw e) w [].

(** Run [r], then put [t] in front of what it did. *)
Definition after {A} (t : list Event) (r : Run A) : Run A :=
  mkRun (outcome r) (world r) (t ++ trace r).

Definition bind {A B} (m : M A) (k : A -> M B) : M B :=
  fun w =>
    let r := m w in
    match outcome r with
    | Returned a => after (trace r) (k a (world r))
    | Threw e => mkRun (Threw e) (world r) (trace r)
    end.

(** [try { m } catch (error) { h error }] *)
Definition try_catch {A} (m : M A) (h : Js.Error -> M A) : M A :=
  fun w =>
    let r := m w in
    match outcome r with
    | Returned a => r
    | Threw e => after (trace r) (h e (world r))
    end.

(** [try { m } finally { f }]: [f] runs in both cases, and an error of [f]
    replaces the outcome of [m]. *)
Definition try_finally {A} (m : M A) (f : M unit) : M A :=
  fun w =>
    let r := m w in
    let r' := f (world r) in
    match outcome r' with
    | Returned _ => mkRun (outcome r) (world r') (trace r ++ trace r')
    | Threw e => mkRun (Threw e) (world r') (trace r ++ trace r')
    end.

Definition emit (e : Event) : M unit := fun w => mkRun (Returned tt) w [e].

(** A call to a collaborator: one event around what the callee did. *)
Definition call {A} (callee arg : string) (m : M A) : M A :=
  fun w =>
    let r := m w in
    mkRun (outcome r) (world r) [EvCall callee arg (trace r)].

(** [await this.delay(ms)]: a timer, which always fires. *)
Definition delay (ms : Z) : M unit := emit (EvDelay ms).

(** [console.warn(msg, ...)] *)
Definition warn (msg : string) : M unit := emit (EvWarn msg).

Definition getBrowser : M (option Browser) :=
  fun w => mkRun (Returned (browser w)) w [].

Definition setBrowser (b : option Browser) : M unit :=
  fun w => mkRun (Returned tt) (mkWorld b (ext w)) [].

End Effects.

Arguments World : clear implicits.
Arguments Run : clear implicits.
Arguments M : clear implicits.
Arguments mkRun {E A}.
Arguments outcome {E A}.
Arguments world {E A}.
Arguments trace {E A}.

Declare Scope js_scope.
Delimit Scope js_scope with js.
Notation "x <- m ;; k" := (bind m (fun x => k))
  (at level 61, m at next level, right associativity) : js_scope.
Notation "m ;;; k" := (bind m (fun _ => k))
  (at level 61, right associativity) : js_scope.
Open Scope js_scope.

(** The calls to [callee] in a trace, at any depth. *)
Fixpoint calls_in (callee : string) (e : Event) : nat :=
  match e with
  | EvCall c _ sub =>
      ((if String.eqb c callee then 1 else 0) +
       (fix go (l : list Event) : nat :=
          match l with
          | [] => 0
          | x :: r => calls_in callee x + go r
          end) sub)%nat
  | _ => 0%nat
  end.

Definition calls_to (callee : string) (t : list Event) : nat :=
  fold_right (fun e n => (calls_in callee e + n)%nat) 0%nat t.

(** The delays of a trace, top level only, in order. *)
Definition delays_of (t : list Event) : list Z :=
  flat_map (fun e => match e with EvDelay ms => [ms] | _ => [] end) t.

(** The top-level calls to [callee] of a trace. *)
Definition invocations (callee : string) (t : list Event) : nat :=
  List.length
    (filter (fun e => match e with
                      | EvCall c _ _ => String.eqb c callee
                      | _ => false
                      end) t).

(** ** rate-limiter.ts: ExponentialBackoffRateLimiter *)

Record RateLimiterConfig := mkRateLimiterConfig {
  cfg_requestsPerSecond : option Z;
  cfg_maxRetries : option Z;
  cfg_baseDelay : option Z;
  cfg_maxDelay : option Z;
  cfg_backoffMultiplier : option Z
}.

(** The parameters of an instance; the queue and the [processing] flag are
    the state of the pacing machine, further down. *)
Record ExponentialBackoffRateLimiter := mkRateLimiter {
  requestsPerSecond : Z;
  maxRetries : Z;
  baseDelay : Z;
  maxDelay : Z;
  backoffMultiplier : Z
}.

(** [v || d] on an optional number: [undefined] and [0] give [d]. *)
Definition or_default (v : option Z) (d : Z) : Z :=
  match v with
  | Some n => if n =? 0 then d else n
  | None => d
  end.

Definition newRateLimiter (config : RateLimiterConfig) : ExponentialBackoffRateLimiter :=
  {| requestsPerSecond := or_default (cfg_requestsPerSecond config) 10;
     maxRetries := or_default (cfg_maxRetries config) 3;
     baseDelay := or_default (cfg_baseDelay config) 1000;
     maxDelay := or_default (cfg_maxDelay config) 30000;
     backoffMultiplier := or_default (cfg_backoffMultiplier config) 2 |}.

Definition opt_eqb (o : option string) (s : string) : bool :=
  match o with Some x => String.eqb x s | None => false end.

Definition status_is (o : option Z) (n : Z) : bool :=
  match o with Some x => x =? n | None => false end.

Definition message_includes (o : option string) (needle : string) : bool :=
  match o with Some m => Js.includes m needle | None => false end.

Definition isRetryableError (error : Js.Error) : bool :=
  if status_is (Js.response_status error) 429 then true
  else if status_is (Js.response_status error) 503 then true
  else if status_is (Js.response_status error) 504 then true
  else if opt_eqb (Js.code error) "ECONNRESET" then true
  else if opt_eqb (Js.code error) "ETIMEDOUT" then true
  else if message_includes (Js.message error) "timeout" then true
  else if message_includes (Js.message error) "network" then true
  else false.

(** The delay before the retry that follows attempt [retryCount]. *)
Definition backoffDelay (rl : ExponentialBackoffRateLimiter) (retryCount : Z) : Z :=
  Z.min (baseDelay rl * Z.pow (backoffMultiplier rl) retryCount) (maxDelay rl).

Section RetryWithBackoff.

Context {E : Type} {T : Type}.

Equations? retryWithBackoff (rl : ExponentialBackoffRateLimiter)
    (operation : M E T) (retryCount : Z) (w : World E) : Run E T
    by wf (Z.to_nat (maxRetries rl - retryCount)) lt :=
  retryWithBackoff rl operation retryCount w
    with call "operation" "" operation w := {
    | mkRun (Returned a) w1 t1 => mkRun (Returned a) w1 t1
    | mkRun (Threw error) w1 t1
        with Z_ge_lt_dec retryCount (maxRetries rl) := {
        | left _ => mkRun (Threw error) w1 t1
        | right _ with isRetryableError error := {
            | true =>
                after (t1 ++ [EvDelay (backoffDelay rl retryCount)])
                  (retryWithBackoff rl operation (retryCount + 1) w1)
            | false => mkRun (Threw error) w1 t1 } } }.
Proof. lia. Qed.

End RetryWithBackoff.


(** ** config.ts: MapsConfig and MapsConfigManager *)

Record Viewport := mkViewport { width : Z; height : Z }.

Record ScrapingConfig := mkScrapingConfig {
  enabled : bool;
  headless : bool;
  timeout : Z;
  scraping_maxRetries : Z;
  respectRobots : bool;
  userAgent : string;
  viewport : Viewport
}.

Record RateLimitingConfig := mkRateLimitingConfig {
  rl_requestsPerSecond : Z;
  rl_maxRetries : Z;
  rl_baseDelay : Z;
  rl_maxDelay : Z;
  rl_backoffMultiplier : Z
}.

Record MapsConfig := mkMapsConfig {
  googlePlacesApiKey : option string;
  useApiFirst : bool;
  scraping : ScrapingConfig;
  rateLimiting : RateLimitingConfig
}.

(** [Partial<MapsConfig>]: each top-level key is present or not; a present
    [googlePlacesApiKey] may hold [undefined]. *)
Record PartialMapsConfig := mkPartialMapsConfig {
  p_googlePlacesApiKey : option (option string);
  p_useApiFirst : option bool;
  p_scraping : option ScrapingConfig;
  p_rateLimiting : option RateLimitingConfig
}.

(** [{ ...base, ...updates }]: a shallow merge, key by key. *)
Definition spread (base : MapsConfig) (updates : PartialMapsConfig) : MapsConfig :=
  {| googlePlacesApiKey :=
       match p_googlePlacesApiKey updates with
       | Some k => k
       | None => googlePlacesApiKey base
       end;
     useApiFirst :=
       match p_useApiFirst updates with Some b => b | None => useApiFirst base end;
     scraping :=
       match p_scraping updates with Some s => s | None => scraping base end;
     rateLimiting :=
       match p_rateLimiting updates with
       | Some r => r
       | None => rateLimiting base
       end |}.

(** Truthiness of an optional string: present and not empty. *)
Definition truthy (o : option string) : bool :=
  match o with Some s => negb (Js.falsy s) | None => false end.

Definition push_if (c : bool) (msg : string) (errors : list string) : list string :=
  if c then errors ++ [msg] else errors.

(** [validateConfig()] of the manager whose configuration is [config]: the
    error messages, in the order the code pushes them. *)
Definition validateConfig_errors (config : MapsConfig) : list string :=
  let rl := rateLimiting config in
  let sc := scraping config in
  let errors := [] in
  let errors :=
    push_if (negb (truthy (googlePlacesApiKey config)) && negb (enabled sc))
      "Either Google Places API key or web scraping must be enabled" errors in
  let errors :=
    push_if (rl_requestsPerSecond rl <=? 0)
      "Rate limiting requests per second must be positive" errors in
  let errors :=
    push_if (rl_maxRetries rl <? 0)
      "Rate limiting max retries must be non-negative" errors in
  let errors :=
    push_if (rl_baseDelay rl <=? 0)
      "Rate limiting base delay must be positive" errors in
  let errors :=
    push_if (rl_maxDelay rl <=? 0)
      "Rate limiting max delay must be positive" errors in
  let errors :=
    push_if (rl_backoffMultiplier rl <=? 1)
      "Rate limiting backoff multiplier must be greater than 1" errors in
  if enabled sc then
    let errors :=
      push_if (timeout sc <=? 0) "Scraping timeout must be positive" errors in
    let errors :=
      push_if (scraping_maxRetries sc <? 0)
        "Scraping max retries must be non-negative" errors in
    let errors :=
      push_if (Js.blank (userAgent sc)) "Scraping user agent is required" errors in
    let errors :=
      push_if ((width (viewport sc) <=? 0) || (height (viewport sc) <=? 0))
        "Scraping viewport dimensions must be positive" errors in
    errors
  else errors.

Record Validation := mkValidation { isValid : bool; errors : list string }.

Definition validateConfig (config : MapsConfig) : Validation :=
  let errors := validateConfig_errors config in
  {| isValid := (List.length errors =? 0)%nat; errors := errors |}.

(** ** google-places-client.ts *)

(** A number the code only copies: the text of its JSON literal. *)
Definition JsNumber := string.

(** A number of the JSON payload as the code meets it: the property is
    absent ([undefined]), or holds [null], or holds a number. *)
Inductive JsonNumber :=
| JsonUndefined
| JsonNull
| JsonNumberOf (n : JsNumber).

(** [v !== undefined]: [null] passes. *)
Definition not_undefined (v : JsonNumber) : bool :=
  match v with
  | JsonUndefined => false
  | JsonNull | JsonNumberOf _ => true
  end.

Record LatLng := mkLatLng { lat : JsonNumber; lng : JsonNumber }.

(** An entry of [response.data.results], in the source's field names;
    [geometry_location] is [geometry?.location]. *)
Record RawPlace := mkRawPlace {
  place_id : option string;
  raw_name : option string;
  formatted_address : option string;
  geometry_location : option LatLng;
  raw_rating : option JsNumber;
  user_ratings_total : option JsNumber;
  raw_types : option (list string);
  business_status : option string;
  price_level : option JsNumber
}.

Record PlacesData := mkPlacesData {
  status : option string;
  error_message : option string;
  results : option (list RawPlace)
}.

Record Location := mkLocation {
  latitude : JsonNumber;
  longitude : JsonNumber
}.

(** The fields the source types as [string] are copied unchecked from the
    payload of the structured source, hence optional here. *)
Record BusinessSearchResult := mkBusinessSearchResult {
  bs_id : option string;
  bs_name : option string;
  bs_address : option string;
  bs_location : Location;
  bs_rating : option JsNumber;
  bs_reviewCount : option JsNumber;
  bs_types : option (list string);
  bs_businessStatus : option string;
  bs_priceLevel : option JsNumber
}.

Definition defined {A} (o : option A) : bool :=
  match o with Some _ => true | None => false end.

Definition isValidSearchResult (result : RawPlace) : bool :=
  truthy (place_id result) && truthy (raw_name result) &&
  truthy (formatted_address result) &&
  match geometry_location result with
  | Some loc => not_undefined (lat loc) && not_undefined (lng loc)
  | None => false
  end.

Definition mapSearchResults (results : list RawPlace) : list BusinessSearchResult :=
  map (fun result =>
         {| bs_id := place_id result;
            bs_name := raw_name result;
            bs_address := formatted_address result;
            bs_location :=
              match geometry_location result with
              | Some loc => {| latitude := lat loc; longitude := lng loc |}
              | None => {| latitude := JsonUndefined; longitude := JsonUndefined |}
              end;
            bs_rating := raw_rating result;
            bs_reviewCount := user_ratings_total result;
            bs_types := raw_types result;
            bs_businessStatus := business_status result;
            bs_priceLevel := price_level result |})
      (filter isValidSearchResult results).

Definition textsearch_url : string :=
  "https://maps.googleapis.com/maps/api/place/textsearch/json".

Definition robots_url : string := "https://www.google.com/robots.txt".

(** ** google-maps-scraper.ts: data *)

(** What [page.evaluate] hands back for one result element. *)
Record RawScraped := mkRawScraped {
  rs_name : option string;
  rs_address : option string;
  rs_rating : option string;
  rs_reviewCount : option string;
  rs_phone : option string;
  rs_website : option string;
  rs_businessUrl : option string
}.

Record ScrapedBusinessResult := mkScrapedBusinessResult {
  sb_name : option string;
  sb_address : option string;
  sb_rating : option JsNumber;
  sb_reviewCount : option JsNumber;
  sb_phone : option string;
  sb_website : option string;
  sb_businessUrl : option string
}.

Record ScraperConfig := mkScraperConfig {
  o_headless : option bool;
  o_timeout : option Z;
  o_maxRetries : option Z;
  o_respectRobots : option bool;
  o_userAgent : option string;
  o_viewport : option Viewport
}.

(** [Required<ScraperConfig>] *)
Record GoogleMapsScraper := mkGoogleMapsScraper {
  gs_headless : bool;
  gs_timeout : Z;
  gs_maxRetries : Z;
  gs_respectRobots : bool;
  gs_userAgent : string;
  gs_viewport : Viewport
}.

(** [v ?? d] *)
Definition nullish {A} (v : option A) (d : A) : A :=
  match v with Some x => x | None => d end.

Definition default_userAgent : string :=
  "Mozilla/5.0 (Macintosh; Intel Mac OS X 10_15_7) AppleWebKit/537.36 (KHTML, like Gecko) Chrome/120.0.0.0 Safari/537.36".

Definition newGoogleMapsScraper (config : ScraperConfig) : GoogleMapsScraper :=
  {| gs_headless := nullish (o_headless config) true;
     gs_timeout := nullish (o_timeout config) 30000;
     gs_maxRetries := nullish (o_maxRetries config) 3;
     gs_respectRobots := nullish (o_respectRobots config) true;
     gs_userAgent := nullish (o_userAgent config) default_userAgent;
     gs_viewport := nullish (o_viewport config) (mkViewport 1920 1080) |}.

(** [v || undefined] on an optional string. *)
Definition or_undefined (v : option string) : option string :=
  if truthy v then v else None.

Definition isValidScrapedResult (result : RawScraped) : bool :=
  truthy (rs_name result) && truthy (rs_address result).

(** [text ? parse(text) : undefined] *)
Definition parse_if_truthy (parse : string -> JsNumber) (text : option string)
  : option JsNumber :=
  match text with
  | Some s => if Js.falsy s then None else Some (parse s)
  | None => None
  end.

(** The policy document, line by line: the loop of [respectRobotsTxt],
    with its flag [isOurSection]; [false] is the early [return false]. *)
Definition field1 (trimmedLine : string) : option string :=
  option_map Js.trim (nth_error (Js.split ":" trimmedLine) 1).

Definition is_user_agent_line (line : string) : bool :=
  Js.startsWith (Js.trim line) "User-agent:".

Definition names_us (line : string) : bool :=
  opt_eqb (field1 (Js.trim line)) "*" || opt_eqb (field1 (Js.trim line)) "GoogleBot".

Definition is_blocking_disallow (line : string) : bool :=
  Js.startsWith (Js.trim line) "Disallow:" &&
  (opt_eqb (field1 (Js.trim line)) "/maps" || opt_eqb (field1 (Js.trim line)) "/").

Fixpoint scan_lines (lines : list string) (isOurSection : bool) : bool :=
  match lines with
  | [] => true
  | line :: rest =>
      let isOurSection :=
        if is_user_agent_line line then names_us line else isOurSection in
      if isOurSection && is_blocking_disallow line then false
      else scan_lines rest isOurSection
  end.

(** The body of the [try] of [respectRobotsTxt], on the fetched text. *)
Definition robots_allows (robotsTxt : string) : bool :=
  if Js.includes robotsTxt "Disallow: /maps" then false
  else scan_lines (Js.split "010" robotsTxt) false.

(** [encodeURIComponent]: the unreserved characters stay, every other
    character becomes the [%XX] escapes of its UTF-8 bytes (one byte below
    128, two bytes from 128 to 255). *)
Definition is_unreserved (c : ascii) : bool :=
  let n := nat_of_ascii c in
  ((48 <=? n) && (n <=? 57) || (65 <=? n) && (n <=? 90) ||
   (97 <=? n) && (n <=? 122))%nat ||
  Js.includes "-_.!~*'()" (String c EmptyString).

Definition hex_digit (n : nat) : ascii :=
  ascii_of_nat (if (n <? 10)%nat then 48 + n else 55 + n).

Definition percent_byte (n : nat) (rest : string) : string :=
  String "%" (String (hex_digit (n / 16)) (String (hex_digit (n mod 16)) rest)).

Fixpoint encodeURIComponent (s : string) : string :=
  match s with
  | EmptyString => EmptyString
  | String c r =>
      let n := nat_of_ascii c in
      if is_unreserved c then String c (encodeURIComponent r)
      else if (n <? 128)%nat then percent_byte n (encodeURIComponent r)
      else percent_byte (192 + n / 64)
             (percent_byte (128 + n mod 64) (encodeURIComponent r))
  end.

(** [.replace(/%20/g, '+')] *)
Fixpoint replace_pct20 (s : string) : string :=
  match s with
  | String "%" (String "2" (String "0" r)) => String "+" (replace_pct20 r)
  | String c r => String c (replace_pct20 r)
  | EmptyString => EmptyString
  end.

(** The selector [[data-value="Search results"]]. *)
Definition results_selector : string :=
  "[data-value=" ++ String (ascii_of_nat 34) "Search results" ++
  String (ascii_of_nat 34) "]".

Definition buildSearchUrl (query location : string) : string :=
  "https://www.google.com/maps/search/" ++
  replace_pct20 (encodeURIComponent (query ++ " " ++ location)).

(** ** The collaborators *)

Section Clients.

Context {E : Type}.

(** What the code reaches outside itself: the HTTP client, the browser
    automation library and two number parsers of the language.  Each may do
    anything to its own state and may throw. *)
Record Env := mkEnv {
  (** [axios.get(textsearch, { params: { query, key, type } })], giving
      [response.data] *)
  axios_get_textsearch : string -> string -> M E PlacesData;
  (** [axios.get(robots.txt, { timeout: 5000 })], giving [response.data] *)
  axios_get_robots : M E string;
  (** [chromium.launch({ headless, args })] *)
  chromium_launch : bool -> M E Browser;
  (** [browser.newPage()] *)
  browser_newPage : Browser -> M E Page;
  (** a method of a page, by name, with its argument *)
  page_method : Page -> string -> string -> M E unit;
  (** [page.evaluate(...)] of the result extraction *)
  page_evaluate : Page -> M E (list RawScraped);
  parseFloat : string -> JsNumber;
  parseInt : string -> JsNumber
}.

Variable env : Env.

(** The [RateLimiter] interface of the structured client. *)
Record RateLimiter := mkRateLimiterI {
  waitForNextRequest : M E unit
}.

(** ** google-places-client.ts: GooglePlacesClient *)

Record GooglePlacesClient := mkGooglePlacesClient {
  apiKey : string;
  pc_rateLimiter : RateLimiter
}.

(** The constructor; [defaultLimiter] is the [new DefaultRateLimiter()] it
    falls back to, which paces on the wall clock. *)
Definition newGooglePlacesClient (key : option string)
    (rateLimiter : option RateLimiter) (defaultLimiter : RateLimiter)
  : Outcome GooglePlacesClient :=
  match key with
  | None => Threw (Js.newError "API key is required")
  | Some k =>
      if Js.blank k then Threw (Js.newError "API key is required")
      else Returned {| apiKey := k;
                       pc_rateLimiter := nullish rateLimiter defaultLimiter |}
  end.

(** [error_message || status] inside a template literal. *)
Definition message_or_status (data : PlacesData) : string :=
  if truthy (error_message data) then Js.display (error_message data)
  else Js.display (status data).

Definition rate_limit_message : string :=
  "Rate limit exceeded. Please try again later.".

Definition places_searchBusinesses (client : GooglePlacesClient)
    (query location : string) : M E (list BusinessSearchResult) :=
  if Js.blank query then throw (Js.newError "Query is required")
  else if Js.blank location then throw (Js.newError "Location is required")
  else
    call "rateLimiter.waitForNextRequest" ""
      (waitForNextRequest (pc_rateLimiter client)) ;;;
    try_catch
      (data <- call "axios.get" textsearch_url
                 (axios_get_textsearch env (query ++ " in " ++ location)
                    (apiKey client)) ;;
       if opt_eqb (status data) "REQUEST_DENIED" then
         throw (Js.newError
                  ("Google Places API error: " ++ Js.display (error_message data)))
       else if opt_eqb (status data) "ZERO_RESULTS" then ret []
       else if negb (opt_eqb (status data) "OK") then
         throw (Js.newError ("Google Places API error: " ++ message_or_status data))
       else ret (mapSearchResults (nullish (results data) [])))
      (fun error =>
         if Js.isAxiosError error && status_is (Js.response_status error) 429
         then throw (Js.newError rate_limit_message)
         else throw error).

(** ** google-maps-scraper.ts: GoogleMapsScraper *)

Definition mapScrapedResults (results : list RawScraped)
  : list ScrapedBusinessResult :=
  map (fun result =>
         {| sb_name := rs_name result;
            sb_address := rs_address result;
            sb_rating := parse_if_truthy (parseFloat env) (rs_rating result);
            sb_reviewCount := parse_if_truthy (parseInt env) (rs_reviewCount result);
            sb_phone := or_undefined (rs_phone result);
            sb_website := or_undefined (rs_website result);
            sb_businessUrl := or_undefined (rs_businessUrl result) |})
      (filter isValidScrapedResult results).

Definition respectRobotsTxt : M E bool :=
  try_catch
    (robotsTxt <- call "axios.get" robots_url (axios_get_robots env) ;;
     ret (robots_allows robotsTxt))
    (fun _ => warn "Could not fetch robots.txt:" ;;; ret true).

Definition launchBrowser (sc : GoogleMapsScraper) : M E Browser :=
  current <- getBrowser ;;
  match current with
  | Some b => ret b
  | None =>
      b <- call "chromium.launch" "" (chromium_launch env (gs_headless sc)) ;;
      setBrowser (Some b) ;;;
      ret b
  end.

Definition page_call (page : Page) (method arg : string) : M E unit :=
  call ("page." ++ method) arg (page_method env page method arg).

Definition setupPage (sc : GoogleMapsScraper) (page : Page) : M E unit :=
  page_call page "setUserAgent" (gs_userAgent sc) ;;;
  page_call page "setViewportSize" "" ;;;
  page_call page "setDefaultTimeout" "" ;;;
  page_call page "setDefaultNavigationTimeout" "" ;;;
  page_call page "route" "**/*".

Definition policy_denial : Js.Error :=
  Js.newError "Scraping not allowed by robots.txt".

(** [searchBusinesses] from [launchBrowser] on: the browser session. *)
Definition scrape (sc : GoogleMapsScraper) (query location : string)
  : M E (list ScrapedBusinessResult) :=
  b <- launchBrowser sc ;;
  page <- call "browser.newPage" "" (browser_newPage env b) ;;
  try_finally
    (setupPage sc page ;;;
     page_call page "goto" (buildSearchUrl query location) ;;;
     page_call page "waitForSelector" results_selector ;;;
     businesses <- call "page.evaluate" "" (page_evaluate env page) ;;
     ret (mapScrapedResults businesses))
    (page_call page "close" "").

Definition scraper_searchBusinesses (sc : GoogleMapsScraper)
    (query location : string) : M E (list ScrapedBusinessResult) :=
  if Js.blank query then throw (Js.newError "Query is required")
  else if Js.blank location then throw (Js.newError "Location is required")
  else
    (if gs_respectRobots sc then
       allowed <- respectRobotsTxt ;;
       if negb allowed then throw policy_denial else ret tt
     else ret tt) ;;;
    scrape sc query location.

(** ** maps-client.ts: MapsClient *)

Inductive Source := api | scraper.

Record UnifiedBusinessResult := mkUnifiedBusinessResult {
  id : option string;
  name : option string;
  address : option string;
  location : option Location;
  rating : option JsNumber;
  reviewCount : option JsNumber;
  phone : option string;
  website : option string;
  types : option (list string);
  businessStatus : option string;
  priceLevel : option JsNumber;
  source : Source
}.

Record MapsClient := mkMapsClient {
  config : MapsConfig;
  rateLimiter : ExponentialBackoffRateLimiter;
  placesClient : option GooglePlacesClient;
  scraperClient : option GoogleMapsScraper
}.

(** The shared limiter as the structured client sees it: one caller in the
    pacing queue, resumed when the drain releases it (the queue itself is
    the pacing machine below). *)
Definition shared_limiter (rl : ExponentialBackoffRateLimiter) : RateLimiter :=
  {| waitForNextRequest := ret tt |}.

Definition as_limiter_config (r : RateLimitingConfig) : RateLimiterConfig :=
  {| cfg_requestsPerSecond := Some (rl_requestsPerSecond r);
     cfg_maxRetries := Some (rl_maxRetries r);
     cfg_baseDelay := Some (rl_baseDelay r);
     cfg_maxDelay := Some (rl_maxDelay r);
     cfg_backoffMultiplier := Some (rl_backoffMultiplier r) |}.

Definition scraper_options (s : ScrapingConfig) : ScraperConfig :=
  {| o_headless := Some (headless s);
     o_timeout := Some (timeout s);
     o_maxRetries := Some (scraping_maxRetries s);
     o_respectRobots := Some (respectRobots s);
     o_userAgent := Some (userAgent s);
     o_viewport := Some (viewport s) |}.

Definition invalid_configuration (errors : list string) : Js.Error :=
  Js.newError ("Invalid configuration: " ++ String.concat ", " errors).

(** The constructor.  [singleton] is the configuration the global
    [mapsConfig] holds when the constructor runs. *)
Definition newMapsClient (singleton : MapsConfig)
    (override : option PartialMapsConfig) : Outcome MapsClient :=
  let config :=
    match override with
    | Some c => spread singleton c
    | None => singleton
    end in
  let validation := validateConfig singleton in
  if negb (isValid validation) then
    Threw (invalid_configuration (errors validation))
  else
    let rateLimiter := newRateLimiter (as_limiter_config (rateLimiting config)) in
    let scraperClient :=
      if enabled (scraping config)
      then Some (newGoogleMapsScraper (scraper_options (scraping config)))
      else None in
    if truthy (googlePlacesApiKey config) then
      match newGooglePlacesClient (googlePlacesApiKey config)
              (Some (shared_limiter rateLimiter)) (shared_limiter rateLimiter) with
      | Threw e => Threw e
      | Returned pc =>
          Returned {| config := config; rateLimiter := rateLimiter;
                      placesClient := Some pc; scraperClient := scraperClient |}
      end
    else
      Returned {| config := config; rateLimiter := rateLimiter;
                  placesClient := None; scraperClient := scraperClient |}.

Record SearchOptions := mkSearchOptions {
  maxResults : option Z;
  preferApi : option bool
}.

Definition mapApiResults (results : list BusinessSearchResult)
  : list UnifiedBusinessResult :=
  map (fun result =>
         {| id := bs_id result;
            name := bs_name result;
            address := bs_address result;
            location := Some (bs_location result);
            rating := bs_rating result;
            reviewCount := bs_reviewCount result;
            phone := None;
            website := None;
            types := bs_types result;
            businessStatus := bs_businessStatus result;
            priceLevel := bs_priceLevel result;
            source := api |}) results.

Definition mapScraperResults (results : list ScrapedBusinessResult)
  : list UnifiedBusinessResult :=
  map (fun result =>
         {| id := None;
            name := sb_name result;
            address := sb_address result;
            location := None;
            rating := sb_rating result;
            reviewCount := sb_reviewCount result;
            phone := sb_phone result;
            website := sb_website result;
            types := None;
            businessStatus := None;
            priceLevel := None;
            source := scraper |}) results.

Definition searchWithApi (mc : MapsClient) (query location : string)
  : M E (list BusinessSearchResult) :=
  match placesClient mc with
  | None => throw (Js.newError "Places API client not available")
  | Some pc =>
      retryWithBackoff (rateLimiter mc)
        (call "placesClient.searchBusinesses" query
           (places_searchBusinesses pc query location)) 0
  end.

Definition searchWithScraper (mc : MapsClient) (query location : string)
  : M E (list ScrapedBusinessResult) :=
  match scraperClient mc with
  | None => throw (Js.newError "Scraper not available")
  | Some sc =>
      retryWithBackoff (rateLimiter mc)
        (call "scraper.searchBusinesses" query
           (scraper_searchBusinesses sc query location)) 0
  end.

Definition no_search_methods : Js.Error :=
  Js.newError
    "No search methods available. Please configure API key or enable scraping.".

(** The first block of [searchBusinesses]: [Some] is its [return], [None]
    falls through to the scraper block. *)
Definition api_first (mc : MapsClient) (query location : string)
    (maxResults : Z) (preferApi : bool)
  : M E (option (list UnifiedBusinessResult)) :=
  if preferApi && defined (placesClient mc) then
    try_catch
      (apiResults <- searchWithApi mc query location ;;
       let unifiedResults := mapApiResults apiResults in
       if (0 <? Z.of_nat (List.length unifiedResults)) then
         ret (Some (Js.slice0 unifiedResults maxResults))
       else ret None)
      (fun _ => warn "API search failed, falling back to scraper:" ;;; ret None)
  else ret None.

(** The second block and the final [throw]. *)
Definition scraper_then_api (mc : MapsClient) (query location : string)
    (maxResults : Z) (preferApi : bool) : M E (list UnifiedBusinessResult) :=
  if defined (scraperClient mc) then
    try_catch
      (scraperResults <- searchWithScraper mc query location ;;
       let unifiedResults := mapScraperResults scraperResults in
       ret (Js.slice0 unifiedResults maxResults))
      (fun error =>
         if negb preferApi && defined (placesClient mc) then
           warn "Scraper search failed, falling back to API:" ;;;
           apiResults <- searchWithApi mc query location ;;
           let unifiedResults := mapApiResults apiResults in
           ret (Js.slice0 unifiedResults maxResults)
         else throw error)
  else throw no_search_methods.

Definition searchBusinesses (mc : MapsClient) (query location : string)
    (options : SearchOptions) : M E (list UnifiedBusinessResult) :=
  let maxResults := nullish (maxResults options) 20 in
  let preferApi := nullish (preferApi options) (useApiFirst (config mc)) in
  if Js.blank query then throw (Js.newError "Query is required")
  else if Js.blank location then throw (Js.newError "Location is required")
  else
    early <- api_first mc query location maxResults preferApi ;;
    match early with
    | Some unifiedResults => ret unifiedResults
    | None => scraper_then_api mc query location maxResults preferApi
    end.

End Clients.

(** ** config.ts: the configuration manager

    The state of the manager is the configuration it holds. *)

(** [updateConfig(updates)]: the configuration held afterwards. *)
Definition updateConfig (config : MapsConfig) (updates : PartialMapsConfig)
  : MapsConfig :=
  spread config updates.

(** [hasApiKey()] *)
Definition hasApiKey (config : MapsConfig) : bool :=
  truthy (googlePlacesApiKey config).

Definition api_key_not_found : Js.Error :=
  Js.newError
    "Google Places API key not found. Please set GOOGLE_PLACES_API_KEY environment variable.".

(** [getApiKey()] *)
Definition getApiKey (config : MapsConfig) : Outcome string :=
  match googlePlacesApiKey config with
  | Some k => if Js.falsy k then Threw api_key_not_found else Returned k
  | None => Threw api_key_not_found
  end.

(** ** Business details: data *)

Record Review := mkReview {
  review_rating : option JsNumber;
  review_text : option string;
  review_time : option JsNumber
}.

(** [response.data.result] of a details lookup, in the source's field
    names; [weekday_text] is [opening_hours?.weekday_text]. *)
Record RawPlaceDetails := mkRawPlaceDetails {
  pd_place_id : option string;
  pd_name : option string;
  pd_formatted_address : option string;
  pd_formatted_phone_number : option string;
  pd_website : option string;
  pd_weekday_text : option (list string);
  pd_rating : option JsNumber;
  pd_user_ratings_total : option JsNumber;
  pd_reviews : option (list Review)
}.

Record DetailsData := mkDetailsData {
  details_status : option string;
  details_error_message : option string;
  details_result : option RawPlaceDetails
}.

Record BusinessDetails := mkBusinessDetails {
  bd_id : option string;
  bd_name : option string;
  bd_address : option string;
  bd_phone : option string;
  bd_website : option string;
  bd_openingHours : option (list string);
  bd_rating : option JsNumber;
  bd_reviewCount : option JsNumber;
  bd_reviews : option (list Review)
}.

Definition mapBusinessDetails (result : RawPlaceDetails) : BusinessDetails :=
  {| bd_id := pd_place_id result;
     bd_name := pd_name result;
     bd_address := pd_formatted_address result;
     bd_phone := pd_formatted_phone_number result;
     bd_website := pd_website result;
     bd_openingHours := pd_weekday_text result;
     bd_rating := pd_rating result;
     bd_reviewCount := pd_user_ratings_total result;
     bd_reviews :=
       option_map
         (map (fun review =>
                 {| review_rating := review_rating review;
                    review_text := review_text review;
                    review_time := review_time review |}))
         (pd_reviews result) |}.

(** What [page.evaluate] hands back on a details page. *)
Record RawDetails := mkRawDetails {
  rd_name : option string;
  rd_address : option string;
  rd_phone : option string;
  rd_website : option string;
  rd_rating : option string;
  rd_reviewCount : option string;
  rd_hours : option (list string);
  rd_priceLevel : option string;
  rd_photos : option (list string)
}.

Record ScrapedBusinessDetails := mkScrapedBusinessDetails {
  sd_name : option string;
  sd_address : option string;
  sd_phone : option string;
  sd_website : option string;
  sd_hours : option (list string);
  sd_rating : option JsNumber;
  sd_reviewCount : option JsNumber;
  sd_priceLevel : option string;
  sd_photos : option (list string)
}.

Definition details_url : string :=
  "https://maps.googleapis.com/maps/api/place/details/json".

(** The selector [[data-value="Business name"]]. *)
Definition name_selector : string :=
  "[data-value=" ++ String (ascii_of_nat 34) "Business name" ++
  String (ascii_of_nat 34) "]".

(** What [mapBusinessDetails] throws on a response without [result]: the
    first property it reads of [undefined] is [place_id]. *)
Definition type_error : Js.Error :=
  Js.newError "Cannot read properties of undefined (reading 'place_id')".

Section Details.

Context {E : Type}.

(** The collaborators of the details operations and of the teardown. *)
Record DetailsEnv := mkDetailsEnv {
  (** [axios.get(details, { params: { place_id, key, fields } })], giving
      [response.data] *)
  axios_get_details : string -> string -> M E DetailsData;
  (** [page.evaluate(...)] of the details extraction: an object or [null] *)
  page_evaluate_details : Page -> M E (option RawDetails);
  (** [browser.close()] *)
  browser_close : Browser -> M E unit
}.

Variable env : Env (E := E).
Variable denv : DetailsEnv.

Definition details_message_or_status (data : DetailsData) : string :=
  if truthy (details_error_message data) then Js.display (details_error_message data)
  else Js.display (details_status data).

(** google-places-client.ts: [getBusinessDetails] *)
Definition places_getBusinessDetails (client : GooglePlacesClient)
    (placeId : string) : M E BusinessDetails :=
  if Js.blank placeId then throw (Js.newError "Place ID is required")
  else
    call "rateLimiter.waitForNextRequest" ""
      (waitForNextRequest (pc_rateLimiter client)) ;;;
    try_catch
      (data <- call "axios.get" details_url
                 (axios_get_details denv placeId (apiKey client)) ;;
       if opt_eqb (details_status data) "NOT_FOUND" then
         throw (Js.newError "Business not found")
       else if opt_eqb (details_status data) "REQUEST_DENIED" then
         throw (Js.newError
                  ("Google Places API error: " ++
                   Js.display (details_error_message data)))
       else if negb (opt_eqb (details_status data) "OK") then
         throw (Js.newError
                  ("Google Places API error: " ++ details_message_or_status data))
       else
         match details_result data with
         | Some result => ret (mapBusinessDetails result)
         | None => throw type_error
         end)
      (fun error =>
         if Js.isAxiosError error && status_is (Js.response_status error) 429
         then throw (Js.newError rate_limit_message)
         else throw error).

(** google-maps-scraper.ts: [mapScrapedDetails] *)
Definition mapScrapedDetails (details : RawDetails) : ScrapedBusinessDetails :=
  {| sd_name := rd_name details;
     sd_address := rd_address details;
     sd_phone := or_undefined (rd_phone details);
     sd_website := or_undefined (rd_website details);
     sd_hours := rd_hours details;
     sd_rating := parse_if_truthy (parseFloat env) (rd_rating details);
     sd_reviewCount := parse_if_truthy (parseInt env) (rd_reviewCount details);
     sd_priceLevel := or_undefined (rd_priceLevel details);
     sd_photos := rd_photos details |}.

(** google-maps-scraper.ts: [getBusinessDetails] *)
Definition scraper_getBusinessDetails (sc : GoogleMapsScraper)
    (businessUrl : string) : M E ScrapedBusinessDetails :=
  if Js.blank businessUrl then throw (Js.newError "Business URL is required")
  else
    b <- launchBrowser env sc ;;
    page <- call "browser.newPage" "" (browser_newPage env b) ;;
    try_finally
      (setupPage env sc page ;;;
       page_call env page "goto" businessUrl ;;;
       page_call env page "waitForSelector" name_selector ;;;
       details <- call "page.evaluate" "" (page_evaluate_details denv page) ;;
       match details with
       | None => throw (Js.newError "Business details not found")
       | Some d => ret (mapScrapedDetails d)
       end)
      (page_call env page "close" "").

(** google-maps-scraper.ts: [cleanup] *)
Definition scraper_cleanup : M E unit :=
  current <- getBrowser ;;
  match current with
  | Some b =>
      call "browser.close" "" (browser_close denv b) ;;;
      setBrowser None
  | None => ret tt
  end.

(** maps-client.ts: the details of a business *)
Record UnifiedBusinessDetails := mkUnifiedBusinessDetails {
  ud_id : option string;
  ud_name : option string;
  ud_address : option string;
  ud_phone : option string;
  ud_website : option string;
  ud_openingHours : option (list string);
  ud_rating : option JsNumber;
  ud_reviewCount : option JsNumber;
  ud_reviews : option (list Review);
  ud_priceLevel : option string;
  ud_photos : option (list string);
  ud_source : Source
}.

Definition mapApiDetails (details : BusinessDetails) : UnifiedBusinessDetails :=
  {| ud_id := bd_id details;
     ud_name := bd_name details;
     ud_address := bd_address details;
     ud_phone := bd_phone details;
     ud_website := bd_website details;
     ud_openingHours := bd_openingHours details;
     ud_rating := bd_rating details;
     ud_reviewCount := bd_reviewCount details;
     ud_reviews := bd_reviews details;
     ud_priceLevel := None;
     ud_photos := None;
     ud_source := api |}.

Definition mapScraperDetails (details : ScrapedBusinessDetails)
  : UnifiedBusinessDetails :=
  {| ud_id := None;
     ud_name := sd_name details;
     ud_address := sd_address details;
     ud_phone := sd_phone details;
     ud_website := sd_website details;
     ud_openingHours := sd_hours details;
     ud_rating := sd_rating details;
     ud_reviewCount := sd_reviewCount details;
     ud_reviews := None;
     ud_priceLevel := sd_priceLevel details;
     ud_photos := sd_photos details;
     ud_source := scraper |}.

Definition unable_to_fetch : Js.Error :=
  Js.newError
    "Unable to fetch business details. No valid business ID or URL provided.".

(** The first block of [getBusinessDetails]: [Some] is its [return],
    [None] falls through to the scraper block. *)
Definition details_api_first (mc : MapsClient (E := E)) (businessId : string)
  : M E (option UnifiedBusinessDetails) :=
  match placesClient mc with
  | Some pc =>
      if negb (Js.falsy businessId) then
        try_catch
          (apiDetails <- call "placesClient.getBusinessDetails" businessId
                           (places_getBusinessDetails pc businessId) ;;
           ret (Some (mapApiDetails apiDetails)))
          (fun _ => warn "API details fetch failed, trying scraper:" ;;; ret None)
      else ret None
  | None => ret None
  end.

(** The second block and the final [throw]. *)
Definition details_scraper (mc : MapsClient (E := E)) (businessUrl : option string)
  : M E UnifiedBusinessDetails :=
  match scraperClient mc with
  | Some sc =>
      if truthy businessUrl then
        try_catch
          (scraperDetails <- call "scraper.getBusinessDetails"
                               (Js.display businessUrl)
                               (scraper_getBusinessDetails sc (Js.display businessUrl)) ;;
           ret (mapScraperDetails scraperDetails))
          (fun error => warn "Scraper details fetch failed:" ;;; throw error)
      else throw unable_to_fetch
  | None => throw unable_to_fetch
  end.

(** maps-client.ts: [getBusinessDetails(businessId, businessUrl?)] *)
Definition getBusinessDetails (mc : MapsClient (E := E)) (businessId : string)
    (businessUrl : option string) : M E UnifiedBusinessDetails :=
  early <- details_api_first mc businessId ;;
  match early with
  | Some details => ret details
  | None => details_scraper mc businessUrl
  end.

(** maps-client.ts: [cleanup] *)
Definition cleanup (mc : MapsClient (E := E)) : M E unit :=
  match scraperClient mc with
  | Some _ => call "scraper.cleanup" "" scraper_cleanup
  | None => ret tt
  end.

End Details.

(** ** rate-limiter.ts: the pacing queue

    [waitForNextRequest] and [processQueue] run on one thread and give up
    control only at [await this.delay(interval)].  Between two such points
    the code runs to completion, so the behaviours of one instance are the
    interleavings of two kinds of step: a caller enters
    [waitForNextRequest], or the timer of a suspended [processQueue]
    fires. *)

Module Pacing.

(** A caller is the [resolve] function of its promise. *)
Definition Caller := nat.

Record QueueEntry := mkQueueEntry {
  resolve : Caller;
  timestamp : Z
}.

Record State := mkState {
  requestQueue : list QueueEntry;
  processing : bool;
  (** the callers resolved so far, in the order of the [resolve()] calls *)
  released : list Caller;
  (** the activations of [processQueue] that wait on their timer *)
  suspended : nat
}.

Definition initial : State :=
  {| requestQueue := []; processing := false; released := []; suspended := 0 |}.

(** [processQueue] from the test of its [while] to its next [await], or to
    its end. *)
Definition loop (s : State) : State :=
  match requestQueue s with
  | request :: rest =>
      {| requestQueue := rest;
         processing := processing s;
         released := released s ++ [resolve request];
         suspended := S (suspended s) |}
  | [] =>
      {| requestQueue := [];
         processing := false;
         released := released s;
         suspended := suspended s |}
  end.

(** [processQueue()] up to its first [await]. *)
Definition processQueue (s : State) : State :=
  loop {| requestQueue := requestQueue s;
          processing := true;
          released := released s;
          suspended := suspended s |}.

(** [waitForNextRequest()], for the caller [resolve] at time [now]. *)
Definition waitForNextRequest (resolve : Caller) (now : Z) (s : State) : State :=
  let s1 := {| requestQueue := requestQueue s ++ [mkQueueEntry resolve now];
               processing := processing s;
               released := released s;
               suspended := suspended s |} in
  if negb (processing s1) then processQueue s1 else s1.

Inductive Action :=
| Enter (resolve : Caller) (now : Z)
| TimerFires.

(** One step; a timer fires only for an activation that waits on it. *)
Definition step (a : Action) (s : State) : option State :=
  match a with
  | Enter resolve now => Some (waitForNextRequest resolve now s)
  | TimerFires =>
      match suspended s with
      | O => None
      | S n =>
          Some (loop {| requestQueue := requestQueue s;
                        processing := processing s;
                        released := released s;
                        suspended := n |})
      end
  end.

Fixpoint run (schedule : list Action) (s : State) : option State :=
  match schedule with
  | [] => Some s
  | a :: rest =>
      match step a s with
      | Some s' => run rest s'
      | None => None
      end
  end.

(** The callers a schedule enqueues, in order. *)
Definition entered (schedule : list Action) : list Caller :=
  flat_map (fun a => match a with Enter r _ => [r] | TimerFires => [] end) schedule.

Definition waiting (s : State) : list Caller := map resolve (requestQueue s).

(** [getQueueStatus()] *)
Definition getQueueStatus (rps : Z) (s : State) : nat * bool * Z :=
  (List.length (requestQueue s), processing s, rps).

End Pacing.

(** * Observations and scenarios *)

(** ** Reading traces *)

(** A trace without what the callees did: the calls and delays of the
    method itself, in order. *)
Definition skeleton (t : list Event) : list Event :=
  map (fun e => match e with
                | EvCall callee arg _ => EvCall callee arg []
                | _ => e
                end) t.

(** What the retry wrapper does when every attempt fails and is retried:
    attempt, delay, attempt, ..., attempt; [k] is the retry count of the
    first attempt and [n] the number of retries. *)
Fixpoint exhausted_retries (rl : ExponentialBackoffRateLimiter) (k : Z) (n : nat)
  : list Event :=
  match n with
  | O => [EvCall "operation" "" []]
  | S n' =>
      EvCall "operation" "" [] ::
      EvDelay (Z.min (baseDelay rl * backoffMultiplier rl ^ k) (maxDelay rl)) ::
      exhausted_retries rl (k + 1) n'
  end.

(** ** Errors *)

(** "Not retryable", mark by mark. *)
Definition not_retryable (error : Js.Error) : Prop :=
  Js.response_status error <> Some 429 /\
  Js.response_status error <> Some 503 /\
  Js.response_status error <> Some 504 /\
  Js.code error <> Some "ECONNRESET" /\
  Js.code error <> Some "ETIMEDOUT" /\
  (forall m, Js.message error = Some m -> Js.includes m "timeout" = false) /\
  (forall m, Js.message error = Some m -> Js.includes m "network" = false).

(** The failure of a search operation on a blank argument: it names the
    first blank field. *)
Definition missing_field (query location : string) : Js.Error :=
  if Js.blank query then Js.newError "Query is required"
  else Js.newError "Location is required".

Definition denied_message (data : PlacesData) : string :=
  "Google Places API error: " ++ Js.display (error_message data).

(** ** The crawling policy, as the specification words it *)

(** A document disallows [/maps] or [/] within a matching section: some
    [User-agent:] line names [*] or [GoogleBot], and a [Disallow:] line for
    [/maps] or [/] follows it before any other [User-agent:] line. *)
Definition closed_disallow (lines : list string) : Prop :=
  exists before ua between dis rest,
    lines = (before ++ ua :: between ++ dis :: rest)%list /\
    is_user_agent_line ua = true /\
    names_us ua = true /\
    Forall (fun l => is_user_agent_line l = false) between /\
    is_blocking_disallow dis = true.

Definition section_disallows (robotsTxt : string) : Prop :=
  closed_disallow (Js.split "010" robotsTxt).

(** The same inside a section that is already open and matches: a blocking
    line follows, with no [User-agent:] line before it. *)
Definition open_disallow (lines : list string) : Prop :=
  exists between dis rest,
    lines = (between ++ dis :: rest)%list /\
    Forall (fun l => is_user_agent_line l = false) between /\
    is_blocking_disallow dis = true.

(** What the gate of the code refuses: the text [Disallow: /maps] anywhere
    in the document, or a disallow within a matching section. *)
Definition gate_refuses (robotsTxt : string) : Prop :=
  Js.includes robotsTxt "Disallow: /maps" = true \/ section_disallows robotsTxt.

(** ** The pacing queue between two steps *)

(** The callers released so far, then the callers that wait, are the
    callers that entered, in order; and the [processing] flag is set exactly
    while one activation of [processQueue] is suspended, none otherwise. *)
Definition pacing_invariant (order : list Pacing.Caller) (s : Pacing.State) : Prop :=
  (Pacing.released s ++ Pacing.waiting s)%list = order /\
  Pacing.suspended s = (if Pacing.processing s then 1 else 0)%nat.

(** ** Scripted collaborators

    Collaborators without state, as the unit tests mock them: the transport
    of the structured source answers [places], the policy fetch answers
    [robots], the page yields [scraped], and the browser never fails. *)
Definition scripted_env (places : Outcome PlacesData) (robots : Outcome string)
    (scraped : list RawScraped) : Env (E := unit) :=
  {| axios_get_textsearch := fun _ _ w => mkRun places w [];
     axios_get_robots := fun w => mkRun robots w [];
     chromium_launch := fun _ => ret 1%nat;
     browser_newPage := fun _ => ret 1%nat;
     page_method := fun _ _ _ => ret tt;
     page_evaluate := fun _ => ret scraped;
     parseFloat := fun s => s;
     parseInt := fun s => s |}.

Definition fresh_world : World unit := mkWorld None tt.

Definition line_feed : string := String (ascii_of_nat 10) EmptyString.

(** A configuration as the unit tests build it, and the client the
    constructor makes of it. *)
Definition test_config : MapsConfig :=
  {| googlePlacesApiKey := Some "test-key";
     useApiFirst := true;
     scraping := mkScrapingConfig true true 30000 3 true "Test Agent"
                   (mkViewport 1920 1080);
     rateLimiting := mkRateLimitingConfig 10 3 1000 30000 2 |}.

Definition test_places_client : GooglePlacesClient (E := unit) :=
  {| apiKey := "test-key";
     pc_rateLimiter := shared_limiter (mkRateLimiter 10 3 1000 30000 2) |}.

Definition test_client : MapsClient (E := unit) :=
  {| config := test_config;
     rateLimiter := mkRateLimiter 10 3 1000 30000 2;
     placesClient := Some test_places_client;
     scraperClient :=
       Some (mkGoogleMapsScraper true 30000 3 true "Test Agent"
               (mkViewport 1920 1080)) |}.

Definition default_scraper : GoogleMapsScraper :=
  newGoogleMapsScraper (mkScraperConfig None None None None None None).

Definition test_place (place name : string) : RawPlace :=
  {| place_id := Some place;
     raw_name := Some name;
     formatted_address := Some "123 Main St, Tampa, FL";
     geometry_location :=
       Some (mkLatLng (JsonNumberOf "27.9506") (JsonNumberOf "-82.4572"));
     raw_rating := Some "4.5";
     user_ratings_total := Some "127";
     raw_types := Some ["establishment"];
     business_status := Some "OPERATIONAL";
     price_level := Some "2" |}.

Definition test_scraped : RawScraped :=
  {| rs_name := Some "Clean Pro Tampa";
     rs_address := Some "456 Oak Ave, Tampa, FL";
     rs_rating := Some "4.2";
     rs_reviewCount := Some "89";
     rs_phone := Some "+1-813-555-0124";
     rs_website := Some "https://cleanpro.com";
     rs_businessUrl := Some "https://maps.google.com/place/456" |}.

(** The same place with [null] for both coordinates, and without
    [geometry]. *)
Definition uncharted_place (place name : string) : RawPlace :=
  {| place_id := Some place;
     raw_name := Some name;
     formatted_address := Some "123 Main St, Tampa, FL";
     geometry_location := Some (mkLatLng JsonNull JsonNull);
     raw_rating := None;
     user_ratings_total := None;
     raw_types := None;
     business_status := None;
     price_level := None |}.

Definition unlocated_place (place name : string) : RawPlace :=
  {| place_id := Some place;
     raw_name := Some name;
     formatted_address := Some "123 Main St, Tampa, FL";
     geometry_location := None;
     raw_rating := None;
     user_ratings_total := None;
     raw_types := None;
     business_status := None;
     price_level := None |}.

Definition zero_results : PlacesData :=
  {| status := Some "ZERO_RESULTS"; error_message := None; results := Some [] |}.

Definition ok_results (places : list RawPlace) : PlacesData :=
  {| status := Some "OK"; error_message := None; results := Some places |}.

(** "should handle API errors gracefully": a denied request; and two
    other statuses, one with an error message and one without. *)
Definition denied_results : PlacesData :=
  {| status := Some "REQUEST_DENIED"; error_message := Some "Invalid API key";
     results := None |}.

Definition invalid_request_results : PlacesData :=
  {| status := Some "INVALID_REQUEST"; error_message := Some "Missing query";
     results := None |}.

Definition over_limit_results : PlacesData :=
  {| status := Some "OVER_QUERY_LIMIT"; error_message := None; results := None |}.

(** What axios throws on an HTTP error response with status [n]. *)
Definition axios_http_error (n : Z) : Js.Error :=
  {| Js.message := Some "Request failed with status code";
     Js.code := Some "ERR_BAD_RESPONSE";
     Js.response_status := Some n;
     Js.isAxiosError := true |}.

(** "should not retry non-retryable errors": a 400 response. *)
Definition bad_request : Js.Error :=
  {| Js.message := None; Js.code := None; Js.response_status := Some 400;
     Js.isAxiosError := false |}.

(** The structured source finds one business; the page shows another. *)
Definition one_place_env : Env (E := unit) :=
  scripted_env (Returned (ok_results [test_place "place123" "Tampa Cleaning Services"]))
    (Returned EmptyString) [test_scraped].

(** The structured source answers ZERO_RESULTS and the page shows one
    business. *)
Definition zero_results_env : Env (E := unit) :=
  scripted_env (Returned zero_results) (Returned EmptyString) [test_scraped].

Definition three_places_env : Env (E := unit) :=
  scripted_env
    (Returned (ok_results [test_place "place0" "Business 0";
                           test_place "place1" "Business 1";
                           test_place "place2" "Business 2"]))
    (Returned EmptyString) [].

(** The structured source answers [data]. *)
Definition answering_env (data : PlacesData) : Env (E := unit) :=
  scripted_env (Returned data) (Returned EmptyString) [test_scraped].

(** The structured source finds three places: one with coordinates, one
    with [null] coordinates and one without geometry. *)
Definition mixed_places_env : Env (E := unit) :=
  answering_env (ok_results [test_place "place123" "Tampa Cleaning Services";
                             uncharted_place "place456" "Uncharted Cleaners";
                             unlocated_place "place789" "Nowhere Cleaners"]).

(** The transport of the structured source answers every request with
    HTTP status [n]. *)
Definition http_status_env (n : Z) : Env (E := unit) :=
  scripted_env (Threw (axios_http_error n)) (Returned EmptyString) [test_scraped].

(** The policy fetch answers [robots]. *)
Definition policy_env (robots : Outcome string) : Env (E := unit) :=
  scripted_env (Returned zero_results) robots [test_scraped].

(** A document whose only section names another crawler. *)
Definition other_crawler_policy : string :=
  "User-agent: BadBot" ++ line_feed ++ "Disallow: /maps".

(** The same section with the site root as its rule. *)
Definition other_crawler_root_policy : string :=
  "User-agent: BadBot" ++ line_feed ++ "Disallow: /".

Definition root_disallowed_policy : string :=
  "User-agent: *" ++ line_feed ++ "Disallow: /".

(** What a configuration asks for: the number it gives, or the default of
    the constructor where it gives none. *)
Definition configured (setting : option Z) (default : Z) : Z :=
  match setting with
  | Some n => n
  | None => default
  end.

(** A configuration with a negative number of retries, as in
    [bad_pacing_override]. *)
Definition negative_retries_config : RateLimiterConfig :=
  mkRateLimiterConfig None (Some (-1)) None None None.

Definition capped_config : RateLimiterConfig :=
  mkRateLimiterConfig None (Some 5) (Some 1000) (Some 3000) (Some 2).

(** "should respect max delay limit": base delay 1000, multiplier 2, cap
    3000 and five retries. *)
Definition capped_limiter : ExponentialBackoffRateLimiter :=
  newRateLimiter (mkRateLimiterConfig None (Some 5) (Some 1000) (Some 3000) (Some 2)).

(** [vi.fn().mockRejectedValue(error)] *)
Definition always_rejects (error : Js.Error) : M unit string := throw error.

(** A singleton configuration with no source at all, an override that
    supplies a key, and an override whose pacing parameters are invalid. *)
Definition no_source_config : MapsConfig :=
  {| googlePlacesApiKey := None;
     useApiFirst := true;
     scraping := mkScrapingConfig false true 30000 3 true "Test Agent"
                   (mkViewport 1920 1080);
     rateLimiting := mkRateLimitingConfig 10 3 1000 30000 2 |}.

Definition key_override : PartialMapsConfig :=
  {| p_googlePlacesApiKey := Some (Some "test-key");
     p_useApiFirst := None;
     p_scraping := None;
     p_rateLimiting := None |}.

Definition bad_pacing_override : PartialMapsConfig :=
  {| p_googlePlacesApiKey := None;
     p_useApiFirst := None;
     p_scraping := None;
     p_rateLimiting := Some (mkRateLimitingConfig (-5) (-1) (-1000) (-1) 1) |}.

(** Three callers enter together; the timer then fires three times. *)
Definition three_callers : list Pacing.Action :=
  [Pacing.Enter 0%nat 0; Pacing.Enter 1%nat 0; Pacing.Enter 2%nat 0;
   Pacing.TimerFires; Pacing.TimerFires; Pacing.TimerFires].

Definition drained : Pacing.State :=
  {| Pacing.requestQueue := []; Pacing.processing := false;
     Pacing.released := [0; 1; 2]%nat; Pacing.suspended := 0 |}.

(** An operation that fails with a 503 response until the collaborators
    have seen [failures] attempts, and answers "success" from then on: the
    rejected-once mocks of "should retry on retryable errors". *)
Definition fails_first (failures : nat) : M nat string :=
  fun w =>
    if (ext w <? failures)%nat
    then mkRun (Threw (axios_http_error 503)) (mkWorld (browser w) (S (ext w))) []
    else mkRun (Returned "success") w [].

Definition counting_world : World nat := mkWorld None 0%nat.

(** The details of one business, from the structured source and on its
    page, and scripted collaborators for them: the transport answers
    [details], the page yields [shown], the browser closes. *)
Definition test_place_details : RawPlaceDetails :=
  {| pd_place_id := Some "place123";
     pd_name := Some "Tampa Cleaning Services";
     pd_formatted_address := Some "123 Main St, Tampa, FL";
     pd_formatted_phone_number := Some "+1 813-555-0123";
     pd_website := Some "https://tampacleaning.com";
     pd_weekday_text := Some ["Monday: 8:00 AM - 6:00 PM"];
     pd_rating := Some "4.5";
     pd_user_ratings_total := Some "127";
     pd_reviews := Some [mkReview (Some "5") (Some "Great service!")
                           (Some "1640995200")] |}.

Definition ok_details : DetailsData :=
  {| details_status := Some "OK"; details_error_message := None;
     details_result := Some test_place_details |}.

Definition test_raw_details : RawDetails :=
  {| rd_name := Some "Clean Pro Tampa";
     rd_address := Some "456 Oak Ave, Tampa, FL";
     rd_phone := Some "+1-813-555-0124";
     rd_website := Some "https://cleanpro.com";
     rd_rating := Some "4.2";
     rd_reviewCount := Some "89";
     rd_hours := Some ["Monday: 9:00 AM - 5:00 PM"];
     rd_priceLevel := Some "$$";
     rd_photos := Some ["https://example.com/photo1.jpg"] |}.

Definition scripted_details_env (details : Outcome DetailsData)
    (shown : option RawDetails) : DetailsEnv (E := unit) :=
  {| axios_get_details := fun _ _ w => mkRun details w [];
     page_evaluate_details := fun _ => ret shown;
     browser_close := fun _ => ret tt |}.

Definition details_env : DetailsEnv (E := unit) :=
  scripted_details_env (Returned ok_details) (Some test_raw_details).






(** The scraper of the test client, and a client without one. *)
Definition test_scraper : GoogleMapsScraper :=
  mkGoogleMapsScraper true 30000 3 true "Test Agent" (mkViewport 1920 1080).

Definition api_only_client : MapsClient (E := unit) :=
  {| config := test_config;
     rateLimiter := mkRateLimiter 10 3 1000 30000 2;
     placesClient := Some test_places_client;
     scraperClient := None |}.

(** A world in which the scraper has its browser session. *)
Definition browsing_world : World unit := mkWorld (Some 1%nat) tt.

(** Three callers enter together: the first is released, two wait. *)
Definition three_enter : list Pacing.Action :=
  [Pacing.Enter 0%nat 0; Pacing.Enter 1%nat 0; Pacing.Enter 2%nat 0].

Definition busy : Pacing.State :=
  {| Pacing.requestQueue := [Pacing.mkQueueEntry 1%nat 0; Pacing.mkQueueEntry 2%nat 0];
     Pacing.processing := true;
     Pacing.released := [0%nat]; Pacing.suspended := 1%nat |}.

(** ** More observations *)

(** The world in which attempt [k] (counted from 0) of an operation runs,
    when the attempts start in [w]: delays leave the world alone. *)
Fixpoint world_of_attempt {E T} (operation : M E T) (k : nat) (w : World E)
  : World E :=
  match k with
  | O => w
  | S k' => world_of_attempt operation k' (world (operation w))
  end.

(** The sum of the delays of a trace. *)
Definition total_delay (t : list Event) : Z :=
  fold_right Z.add 0 (delays_of t).

(** What [validateConfig] asks of a configuration, condition by condition. *)
Definition well_configured (config : MapsConfig) : Prop :=
  let rl := rateLimiting config in
  let sc := scraping config in
  (truthy (googlePlacesApiKey config) = true \/ enabled sc = true) /\
  0 < rl_requestsPerSecond rl /\
  0 <= rl_maxRetries rl /\
  0 < rl_baseDelay rl /\
  0 < rl_maxDelay rl /\
  1 < rl_backoffMultiplier rl /\
  (enabled sc = true ->
   0 < timeout sc /\
   0 <= scraping_maxRetries sc /\
   Js.blank (userAgent sc) = false /\
   0 < width (viewport sc) /\
   0 < height (viewport sc)).

(** An entry of a structured search result that carries the minimum the
    client asks for: identifier, name and address that are not empty, and
    a latitude and a longitude that are not [undefined]; either may be
    [null]. *)
Definition complete_result (r : BusinessSearchResult) : Prop :=
  truthy (bs_id r) = true /\
  truthy (bs_name r) = true /\
  truthy (bs_address r) = true /\
  latitude (bs_location r) <> JsonUndefined /\
  longitude (bs_location r) <> JsonUndefined.

(** An optional string that is absent or not empty. *)
Definition absent_or_filled (o : option string) : Prop :=
  o = None \/ truthy o = true.

(** A scraped entry as the scraper hands it on: name and address filled,
    and no empty string among the optional fields. *)
Definition usable_scraped (r : ScrapedBusinessResult) : Prop :=
  truthy (sb_name r) = true /\
  truthy (sb_address r) = true /\
  absent_or_filled (sb_phone r) /\
  absent_or_filled (sb_website r) /\
  absent_or_filled (sb_businessUrl r).

(** An event of a method that is no call to [page.close]. *)
Definition not_page_close (e : Event) : bool :=
  match e with
  | EvCall callee _ _ => negb (String.eqb callee "page.close")
  | _ => true
  end.

(** A trace that ends with the one call to [page.close] it holds. *)
Definition closes_page_last (t : list Event) : Prop :=
  exists front sub,
    t = (front ++ [EvCall "page.close" "" sub])%list /\
    forallb not_page_close front = true.

(** A result as the orchestrator hands it on: name and address filled,
    and, when it comes from the structured source, an identifier that is
    not empty and a location whose latitude and longitude are not
    [undefined]; either may be [null]. *)
Definition well_formed_result (u : UnifiedBusinessResult) : Prop :=
  truthy (name u) = true /\
  truthy (address u) = true /\
  (source u = api ->
   truthy (id u) = true /\
   exists loc, location u = Some loc /\
               latitude loc <> JsonUndefined /\ longitude loc <> JsonUndefined).

(** Every character of a string passes a test. *)
Fixpoint all_chars (p : ascii -> bool) (s : string) : bool :=
  match s with
  | EmptyString => true
  | String c r => p c && all_chars p r
  end.

(** The characters a URL path may hold as they are: the unreserved ones,
    the escape sign and the plus sign. *)
Definition url_safe (c : ascii) : bool :=
  is_unreserved c || Ascii.eqb c "%" || Ascii.eqb c "+".

(** The pacing timer fires [n] times in a row. *)
Definition timer_fires (n : nat) : list Pacing.Action := repeat Pacing.TimerFires n.

(** ** Sentences of the specification, as it states them *)

(** Every limiter invokes an operation that always fails with a retryable
    error exactly [maxRetries + 1] times. *)
Definition retry_claim_as_stated : Prop :=
  forall (rl : ExponentialBackoffRateLimiter) (operation : M unit string)
         (w : World unit),
    (forall w0, exists error,
        outcome (operation w0) = Threw error /\ isRetryableError error = true) ->
    Z.of_nat (invocations "operation"
                (trace (retryWithBackoff rl operation 0 w)))
    = maxRetries rl + 1.

(** Whenever the structured path returns, also the empty list, the search
    returns its mapped results and does nothing else. *)
Definition structured_success_claim_as_stated : Prop :=
  forall (env : Env (E := unit)) (mc : MapsClient) (pc : GooglePlacesClient)
         (query location : string) (options : SearchOptions) (w : World unit)
         (apiResults : list BusinessSearchResult),
    Js.blank query = false ->
    Js.blank location = false ->
    nullish (preferApi options) (useApiFirst (config mc)) = true ->
    placesClient mc = Some pc ->
    outcome (searchWithApi env mc query location w) = Returned apiResults ->
    searchBusinesses env mc query location options w =
    mkRun (Returned (Js.slice0 (mapApiResults apiResults)
                       (nullish (maxResults options) 20)))
      (world (searchWithApi env mc query location w))
      (trace (searchWithApi env mc query location w)).

(** At most [maxResults] results, whatever number the caller asked for. *)
Definition truncation_claim_as_stated : Prop :=
  forall (env : Env (E := unit)) (mc : MapsClient) (query location : string)
         (options : SearchOptions) (w : World unit)
         (found : list UnifiedBusinessResult),
    outcome (searchBusinesses env mc query location options w) = Returned found ->
    Z.of_nat (List.length found) <= nullish (maxResults options) 20.

(** * Properties *)

(** ** Strings *)

Lemma trimStart_whitespace_only s :
  Js.whitespace_only s = true -> Js.trimStart s = EmptyString.
Proof.
  induction s as [|c r IH]; cbn; [reflexivity|].
  destruct (Js.is_white_space c); cbn; [exact IH | discriminate].
Qed.

Lemma whitespace_only_trimStart s :
  Js.whitespace_only (Js.trimStart s) = true -> Js.whitespace_only s = true.
Proof.
  induction s as [|c r IH]; cbn; [reflexivity|].
  destruct (Js.is_white_space c) eqn:Hc; cbn; [exact IH|].
  rewrite Hc. discriminate.
Qed.

Lemma whitespace_only_trimEnd s :
  Js.trimEnd s = EmptyString -> Js.whitespace_only s = true.
Proof.
  induction s as [|c r IH]; cbn; [reflexivity|].
  destruct (Js.trimEnd r); [|discriminate].
  destruct (Js.is_white_space c); [|discriminate].
  intros _. apply IH. reflexivity.
Qed.

(** The blank test of the code is "empty or white space only". *)
Lemma blank_whitespace_only s :
  Js.blank s = true <-> Js.whitespace_only s = true.
Proof.
  unfold Js.blank, Js.falsy, Js.trim. rewrite orb_true_iff, !String.eqb_eq.
  split.
  - intros [-> | H]; [reflexivity|].
    apply whitespace_only_trimStart, whitespace_only_trimEnd, H.
  - intro H. right. rewrite (trimStart_whitespace_only _ H). reflexivity.
Qed.

Lemma prefix_refl s : String.prefix s s = true.
Proof.
  induction s as [|c r IH]; cbn; [reflexivity|].
  destruct (ascii_dec c c); [exact IH | congruence].
Qed.

Lemma includes_suffix p s : Js.includes (p ++ s) s = true.
Proof.
  induction p as [|c p IH]; cbn [append].
  - destruct s; cbn; [reflexivity|].
    destruct (ascii_dec a a); [|congruence]. rewrite prefix_refl. reflexivity.
  - cbn [Js.includes]. rewrite IH.
    destruct (String.prefix s (String c (p ++ s))); reflexivity.
Qed.

Lemma slice0_length {A} (l : list A) (n : Z) :
  0 <= n -> Z.of_nat (List.length (Js.slice0 l n)) <= n.
Proof.
  intro Hn. unfold Js.slice0.
  destruct (Z.ltb_spec n 0); [lia|].
  rewrite length_firstn. lia.
Qed.

(** ** Traces *)

Lemma invocations_app callee (t1 t2 : list Event) :
  invocations callee (t1 ++ t2) = (invocations callee t1 + invocations callee t2)%nat.
Proof.
  unfold invocations. rewrite filter_app, length_app. reflexivity.
Qed.

Lemma delays_of_app (t1 t2 : list Event) :
  delays_of (t1 ++ t2) = (delays_of t1 ++ delays_of t2)%list.
Proof. unfold delays_of. apply flat_map_app. Qed.

Lemma skeleton_app (t1 t2 : list Event) :
  skeleton (t1 ++ t2) = (skeleton t1 ++ skeleton t2)%list.
Proof. unfold skeleton. apply map_app. Qed.

Lemma invocations_skeleton callee (t : list Event) :
  invocations callee (skeleton t) = invocations callee t.
Proof.
  unfold invocations, skeleton.
  induction t as [|e t IH]; [reflexivity|].
  destruct e; cbn; try destruct (String.eqb _ _); cbn; rewrite ?IH; reflexivity.
Qed.

Lemma delays_of_skeleton (t : list Event) :
  delays_of (skeleton t) = delays_of t.
Proof.
  unfold delays_of, skeleton.
  induction t as [|e t IH]; [reflexivity|].
  destruct e; cbn; rewrite ?IH; reflexivity.
Qed.

Lemma invocations_exhausted rl k n :
  invocations "operation" (exhausted_retries rl k n) = S n.
Proof.
  revert k. induction n as [|n IH]; intro k; [reflexivity|].
  cbn [exhausted_retries].
  change (invocations "operation" (?a :: ?b :: ?t))
    with (invocations "operation" ([a; b] ++ t)).
  rewrite invocations_app, IH. reflexivity.
Qed.

Lemma delays_of_exhausted rl k n :
  delays_of (exhausted_retries rl k n) =
  map (fun i => Z.min (baseDelay rl * backoffMultiplier rl ^ (k + Z.of_nat i))
                      (maxDelay rl)) (seq 0 n).
Proof.
  revert k. induction n as [|n IH]; intro k; [reflexivity|].
  cbn [exhausted_retries seq map].
  change (delays_of (?a :: ?b :: ?t)) with (delays_of ([a; b] ++ t)).
  rewrite delays_of_app, IH. cbn.
  rewrite Z.add_0_r. f_equal.
  rewrite <- seq_shift, map_map.
  apply map_ext. intro i. do 3 f_equal. lia.
Qed.

(** ** The effect monad *)

Section MonadFacts.

Context {E : Type}.

Lemma outcome_call {A} callee arg (m : M E A) w :
  outcome (call callee arg m w) = outcome (m w).
Proof. reflexivity. Qed.

Lemma world_call {A} callee arg (m : M E A) w :
  world (call callee arg m w) = world (m w).
Proof. reflexivity. Qed.

Lemma trace_call {A} callee arg (m : M E A) w :
  trace (call callee arg m w) = [EvCall callee arg (trace (m w))].
Proof. reflexivity. Qed.

Lemma bind_returned {A B} (m : M E A) (k : A -> M E B) w a :
  outcome (m w) = Returned a ->
  bind m k w = after (trace (m w)) (k a (world (m w))).
Proof. intro H. unfold bind. rewrite H. reflexivity. Qed.

Lemma bind_threw {A B} (m : M E A) (k : A -> M E B) w e :
  outcome (m w) = Threw e ->
  bind m k w = mkRun (Threw e) (world (m w)) (trace (m w)).
Proof. intro H. unfold bind. rewrite H. reflexivity. Qed.

Lemma try_catch_returned {A} (m : M E A) h w a :
  outcome (m w) = Returned a -> try_catch m h w = m w.
Proof. intro H. unfold try_catch. rewrite H. reflexivity. Qed.

Lemma try_catch_threw {A} (m : M E A) h w e :
  outcome (m w) = Threw e ->
  try_catch m h w = after (trace (m w)) (h e (world (m w))).
Proof. intro H. unfold try_catch. rewrite H. reflexivity. Qed.

Lemma outcome_bind {A B} (m : M E A) (k : A -> M E B) w :
  outcome (bind m k w) =
  match outcome (m w) with
  | Returned a => outcome (k a (world (m w)))
  | Threw e => Threw e
  end.
Proof. unfold bind. destruct (outcome (m w)); reflexivity. Qed.

Lemma outcome_try_catch {A} (m : M E A) h w :
  outcome (try_catch m h w) =
  match outcome (m w) with
  | Returned a => Returned a
  | Threw e => outcome (h e (world (m w)))
  end.
Proof.
  unfold try_catch. destruct (outcome (m w)) eqn:H; [exact H | reflexivity].
Qed.

(** A method starts with what its first step does. *)
Lemma trace_bind_starts {A B} (m : M E A) (k : A -> M E B) w :
  exists rest, trace (bind m k w) = (trace (m w) ++ rest)%list.
Proof.
  unfold bind. destruct (outcome (m w)); cbn; eauto.
  exists []. rewrite app_nil_r. reflexivity.
Qed.

Lemma trace_try_catch_starts {A} (m : M E A) h w :
  exists rest, trace (try_catch m h w) = (trace (m w) ++ rest)%list.
Proof.
  unfold try_catch. destruct (outcome (m w)); cbn; eauto.
  exists []. rewrite app_nil_r. reflexivity.
Qed.

End MonadFacts.

(** ** The retry wrapper *)

Section RetryProperties.

Context {E T : Type}.
Variable rl : ExponentialBackoffRateLimiter.
Variable operation : M E T.

(** The wrapper, unfolded once. *)
Lemma retryWithBackoff_once retryCount (w : World E) :
  retryWithBackoff rl operation retryCount w =
  let r := call "operation" "" operation w in
  match outcome r with
  | Returned _ => r
  | Threw error =>
      if retryCount >=? maxRetries rl then r
      else if isRetryableError error then
        after (trace r ++ [EvDelay (backoffDelay rl retryCount)])
          (retryWithBackoff rl operation (retryCount + 1) (world r))
      else r
  end.
Proof.
  simp retryWithBackoff.
  cbv zeta.
  destruct (call "operation" "" operation w) as [[a|error] w1 t1]; cbn.
  - reflexivity.
  - destruct (Z_ge_lt_dec retryCount (maxRetries rl)) as [Hge|Hlt]; cbn.
    + destruct (Z.geb_spec retryCount (maxRetries rl)); [reflexivity | lia].
    + destruct (Z.geb_spec retryCount (maxRetries rl)); [lia |].
      destruct (isRetryableError error); reflexivity.
Qed.

(** The wrapper starts with an attempt. *)
Lemma retryWithBackoff_starts retryCount (w : World E) :
  exists rest,
    trace (retryWithBackoff rl operation retryCount w)
    = EvCall "operation" "" (trace (operation w)) :: rest.
Proof.
  rewrite retryWithBackoff_once. cbv zeta.
  destruct (outcome (call "operation" "" operation w)) as [a|error];
    [exists []; apply trace_call|].
  destruct (retryCount >=? maxRetries rl); [exists []; apply trace_call|].
  destruct (isRetryableError error); [|exists []; apply trace_call].
  cbn [after trace]. rewrite trace_call. cbn. eauto.
Qed.

(** An error that is not classified retryable ends the wrapper at once. *)
Lemma retryWithBackoff_gives_up retryCount (w : World E) error :
  outcome (operation w) = Threw error ->
  isRetryableError error = false ->
  retryWithBackoff rl operation retryCount w = call "operation" "" operation w.
Proof.
  intros Hout Hclass.
  rewrite retryWithBackoff_once. cbv zeta.
  rewrite outcome_call, Hout, Hclass.
  destruct (retryCount >=? maxRetries rl); reflexivity.
Qed.

Lemma status_is_false o n : o <> Some n -> status_is o n = false.
Proof.
  destruct o as [x|]; cbn; [|reflexivity].
  intro H. apply Z.eqb_neq. congruence.
Qed.

Lemma opt_eqb_false o s : o <> Some s -> opt_eqb o s = false.
Proof.
  destruct o as [x|]; cbn; [|reflexivity].
  intro H. apply String.eqb_neq. congruence.
Qed.

Lemma message_includes_false o needle :
  (forall m, o = Some m -> Js.includes m needle = false) ->
  message_includes o needle = false.
Proof. destruct o as [m|]; cbn; auto. Qed.

Lemma not_retryable_classified error :
  not_retryable error -> isRetryableError error = false.
Proof.
  intros (H1 & H2 & H3 & H4 & H5 & H6 & H7). unfold isRetryableError.
  rewrite !status_is_false, !opt_eqb_false, !message_includes_false by assumption.
  reflexivity.
Qed.

Lemma retry_exhausted_shape :
  (forall w0, exists error,
      outcome (operation w0) = Threw error /\ isRetryableError error = true) ->
  forall n retryCount (w : World E),
    retryCount <= maxRetries rl ->
    n = Z.to_nat (maxRetries rl - retryCount) ->
    let r := retryWithBackoff rl operation retryCount w in
    skeleton (trace r) = exhausted_retries rl retryCount n /\
    exists error, outcome r = Threw error /\ isRetryableError error = true.
Proof.
  intros Hfail n. induction n as [|n IH]; intros retryCount w Hle Hn r; subst r;
    rewrite retryWithBackoff_once; cbv zeta;
    destruct (Hfail w) as (error & Hout & Hretry);
    rewrite outcome_call, Hout.
  - destruct (Z.geb_spec retryCount (maxRetries rl)); [|lia].
    rewrite outcome_call, trace_call.
    split; [reflexivity|]. exists error. auto.
  - destruct (Z.geb_spec retryCount (maxRetries rl)); [lia|].
    rewrite Hretry.
    destruct (IH (retryCount + 1) (world (call "operation" "" operation w)))
      as (Hsk & Herr); [lia | lia |].
    cbn [after trace outcome]. split.
    + rewrite !skeleton_app, Hsk, trace_call. unfold backoffDelay. reflexivity.
    + exact Herr.
Qed.

(** The same for any [maxRetries]: a negative one leaves the single first
    attempt. *)
Lemma retry_exhausted_any (w : World E) :
  (forall w0, exists error,
      outcome (operation w0) = Threw error /\ isRetryableError error = true) ->
  let r := retryWithBackoff rl operation 0 w in
  skeleton (trace r) = exhausted_retries rl 0 (Z.to_nat (maxRetries rl)) /\
  exists error, outcome r = Threw error /\ isRetryableError error = true.
Proof.
  intros Hfail r. subst r.
  destruct (Z.le_gt_cases 0 (maxRetries rl)) as [Hle | Hneg].
  - apply (retry_exhausted_shape Hfail); [exact Hle | f_equal; lia].
  - rewrite retryWithBackoff_once. cbv zeta.
    destruct (Hfail w) as (error & Hout & Hretry).
    rewrite outcome_call, Hout.
    destruct (Z.geb_spec 0 (maxRetries rl)); [|lia].
    rewrite trace_call, outcome_call, Hout.
    replace (Z.to_nat (maxRetries rl)) with 0%nat by lia.
    split; [reflexivity|]. exists error. auto.
Qed.

(** C4. An operation whose failure is not retryable (no status 429, 503 or
    504, no code ECONNRESET or ETIMEDOUT, no "timeout" and no "network" in
    its message) is invoked exactly once, nothing is waited for, and the
    caller gets that very error. *)
Theorem C4_non_retryable_propagates (w : World E) (error : Js.Error) :
  outcome (operation w) = Threw error ->
  not_retryable error ->
  let r := retryWithBackoff rl operation 0 w in
  outcome r = Threw error /\
  invocations "operation" (trace r) = 1%nat /\
  trace r = [EvCall "operation" "" (trace (operation w))] /\
  world r = world (operation w).
Proof.
  intros Hout Hnot r. subst r.
  rewrite (retryWithBackoff_gives_up 0 w error Hout
             (not_retryable_classified _ Hnot)).
  rewrite outcome_call, trace_call, world_call.
  repeat split; assumption || reflexivity.
Qed.

End RetryProperties.

(** C3, as the code has it.  Take a limiter built by the constructor from
    a configuration that gives no retry parameter as 0, and let
    [maxRetries], [baseDelay], [maxDelay] and [backoffMultiplier] be what
    the configuration gives, or 3, 1000, 30000 and 2 where it gives
    nothing.  When every attempt fails with a retryable error, the wrapper
    invokes the operation exactly [maxRetries + 1] times if [maxRetries] is
    not negative and exactly once, without waiting, if it is negative; the
    delay before retry [k] (counted from 0) is
    [min (baseDelay * backoffMultiplier ^ k) maxDelay]; attempts and delays
    alternate, and the caller gets the last failure. *)
Theorem C3_retry_until_exhausted {E T : Type} (config : RateLimiterConfig)
    (operation : M E T) (w : World E) :
  (forall w0, exists error,
      outcome (operation w0) = Threw error /\ isRetryableError error = true) ->
  cfg_maxRetries config <> Some 0 ->
  cfg_baseDelay config <> Some 0 ->
  cfg_maxDelay config <> Some 0 ->
  cfg_backoffMultiplier config <> Some 0 ->
  let retries := configured (cfg_maxRetries config) 3 in
  let base := configured (cfg_baseDelay config) 1000 in
  let cap := configured (cfg_maxDelay config) 30000 in
  let mult := configured (cfg_backoffMultiplier config) 2 in
  let r := retryWithBackoff (newRateLimiter config) operation 0 w in
  (0 <= retries -> Z.of_nat (invocations "operation" (trace r)) = retries + 1) /\
  (retries < 0 ->
   invocations "operation" (trace r) = 1%nat /\ delays_of (trace r) = []) /\
  delays_of (trace r) =
    map (fun k => Z.min (base * mult ^ Z.of_nat k) cap) (seq 0 (Z.to_nat retries)) /\
  skeleton (trace r) =
    exhausted_retries (newRateLimiter config) 0 (Z.to_nat retries) /\
  exists error, outcome r = Threw error /\ isRetryableError error = true.
Proof.
  intros Hfail Hretries Hbase Hcap Hmult retries base cap mult r.
  assert (Hdefault : forall o d, o <> Some 0 -> or_default o d = configured o d).
  { intros [n|] d Hn; cbn; [|reflexivity].
    destruct (Z.eqb_spec n 0); [congruence | reflexivity]. }
  destruct (retry_exhausted_any (newRateLimiter config) operation w Hfail)
    as (Hsk & Herr).
  fold r in Hsk, Herr.
  cbn [newRateLimiter maxRetries] in Hsk.
  rewrite (Hdefault _ 3 Hretries) in Hsk. fold retries in Hsk.
  assert (Hcount : invocations "operation" (trace r) = S (Z.to_nat retries))
    by (rewrite <- invocations_skeleton, Hsk; apply invocations_exhausted).
  assert (Hdelays : delays_of (trace r) =
            map (fun k => Z.min (base * mult ^ Z.of_nat k) cap)
                (seq 0 (Z.to_nat retries))).
  { rewrite <- delays_of_skeleton, Hsk, delays_of_exhausted.
    cbn [newRateLimiter baseDelay maxDelay backoffMultiplier].
    rewrite (Hdefault _ 1000 Hbase), (Hdefault _ 30000 Hcap), (Hdefault _ 2 Hmult).
    reflexivity. }
  split; [intro Hle; rewrite Hcount; lia|].
  split.
  - intro Hneg. rewrite Hdelays, Hcount.
    replace (Z.to_nat retries) with 0%nat by lia. split; reflexivity.
  - split; [exact Hdelays|]. split; [exact Hsk | exact Herr].
Qed.

(** A limiter whose [maxRetries] is -1 invokes the operation once, where
    [maxRetries + 1] is 0. *)
Lemma C3_counterexample : ~ retry_claim_as_stated.
Proof.
  intro H.
  specialize (H (newRateLimiter negative_retries_config)
                (always_rejects (axios_http_error 429)) fresh_world).
  assert (Hfail : forall w0 : World unit, exists error,
             outcome (always_rejects (axios_http_error 429) w0) = Threw error /\
             isRetryableError error = true)
    by (intro w0; exists (axios_http_error 429); split; reflexivity).
  specialize (H Hfail). vm_compute in H. discriminate.
Qed.

(** ** Input validation and status handling *)

Section SearchProperties.

Context {E : Type}.
Variable env : Env (E := E).

(** C8. A search operation given an empty or white-space-only query or
    location fails at once with the error that names the missing field:
    the world is untouched and nothing was done (no rate-limiter wait, no
    request, no browser activity).  This holds for the orchestrator, the
    structured client and the scraper alike. *)
Theorem C8_blank_argument_fails_first
    (mc : MapsClient) (pc : GooglePlacesClient) (sc : GoogleMapsScraper)
    (options : SearchOptions) (query location : string) (w : World E) :
  Js.whitespace_only query = true \/ Js.whitespace_only location = true ->
  let error := missing_field query location in
  searchBusinesses env mc query location options w = mkRun (Threw error) w [] /\
  places_searchBusinesses env pc query location w = mkRun (Threw error) w [] /\
  scraper_searchBusinesses env sc query location w = mkRun (Threw error) w [] /\
  (Js.message error = Some "Query is required" \/
   Js.message error = Some "Location is required").
Proof.
  intros H error. subst error.
  unfold searchBusinesses, places_searchBusinesses, scraper_searchBusinesses,
    missing_field.
  destruct (Js.blank query) eqn:Hq.
  - repeat split; try reflexivity. left. reflexivity.
  - destruct (Js.blank location) eqn:Hl.
    + repeat split; try reflexivity. right. reflexivity.
    + exfalso. destruct H as [H|H]; apply blank_whitespace_only in H; congruence.
Qed.

(** C9. Once the limiter has let the call through and the transport has
    answered: a zero-results status gives the empty list; a request-denied
    status fails with an error whose message contains the error message of
    the source; any other status than OK fails with an error whose message
    is "Google Places API error: " followed by the error message of the
    source when it has one that is not empty, and otherwise by the status
    itself ("undefined" when the response has no status). *)
Theorem C9_status_handling (pc : GooglePlacesClient) (query location : string)
    (w : World E) (data : PlacesData) :
  Js.blank query = false ->
  Js.blank location = false ->
  let waited :=
    call "rateLimiter.waitForNextRequest" ""
      (waitForNextRequest (pc_rateLimiter pc)) w in
  outcome waited = Returned tt ->
  outcome (axios_get_textsearch env (query ++ " in " ++ location) (apiKey pc)
             (world waited)) = Returned data ->
  let r := places_searchBusinesses env pc query location w in
  (status data = Some "ZERO_RESULTS" -> outcome r = Returned []) /\
  (status data = Some "REQUEST_DENIED" ->
   outcome r = Threw (Js.newError (denied_message data)) /\
   forall m, error_message data = Some m ->
             Js.includes (denied_message data) m = true) /\
  (status data <> Some "OK" -> status data <> Some "ZERO_RESULTS" ->
   status data <> Some "REQUEST_DENIED" ->
   (forall m, error_message data = Some m -> m <> "" ->
      outcome r = Threw (Js.newError ("Google Places API error: " ++ m))) /\
   (error_message data = None \/ error_message data = Some "" ->
      (forall s, status data = Some s ->
         outcome r = Threw (Js.newError ("Google Places API error: " ++ s))) /\
      (status data = None ->
         outcome r = Threw (Js.newError "Google Places API error: undefined")))).
Proof.
  intros Hq Hl waited Hwait Hget r. subst r waited.
  unfold places_searchBusinesses. rewrite Hq, Hl.
  rewrite outcome_bind, Hwait, outcome_try_catch, outcome_bind, outcome_call, Hget.
  split; [|split].
  - intro Hs. rewrite Hs. reflexivity.
  - intro Hs. rewrite Hs. split; [reflexivity|].
    intros m Hm. unfold denied_message. rewrite Hm. apply includes_suffix.
  - intros Hok Hzero Hdenied.
    rewrite !opt_eqb_false by assumption. unfold message_or_status.
    split.
    + intros m Hm Hfilled. rewrite Hm. cbn.
      destruct m as [|c m']; [congruence | reflexivity].
    + intros Hnone. split.
      * intros s0 Hs. rewrite Hs.
        destruct Hnone as [-> | ->]; reflexivity.
      * intros Hs. rewrite Hs.
        destruct Hnone as [-> | ->]; reflexivity.
Qed.

(** What the structured client throws when the transport answers 429. *)
Lemma places_translates_429 (pc : GooglePlacesClient) query location
    (w : World E) (error : Js.Error) :
  Js.blank query = false ->
  Js.blank location = false ->
  let waited :=
    call "rateLimiter.waitForNextRequest" ""
      (waitForNextRequest (pc_rateLimiter pc)) w in
  outcome waited = Returned tt ->
  outcome (axios_get_textsearch env (query ++ " in " ++ location) (apiKey pc)
             (world waited)) = Threw error ->
  Js.isAxiosError error = true ->
  Js.response_status error = Some 429 ->
  outcome (places_searchBusinesses env pc query location w)
  = Threw (Js.newError rate_limit_message).
Proof.
  intros Hq Hl waited Hwait Hget Haxios Hstatus. subst waited.
  unfold places_searchBusinesses. rewrite Hq, Hl.
  rewrite outcome_bind, Hwait.
  rewrite outcome_try_catch, outcome_bind, outcome_call, Hget.
  rewrite Haxios, Hstatus. reflexivity.
Qed.

End SearchProperties.

(** ** The policy gate of the scraper *)

Lemma user_agent_line_not_disallow l :
  is_user_agent_line l = true -> is_blocking_disallow l = false.
Proof.
  unfold is_user_agent_line, is_blocking_disallow, Js.startsWith.
  destruct (Js.trim l) as [|c t]; cbn [String.prefix]; [discriminate|].
  destruct (ascii_dec "U" c) as [<-|]; [|discriminate].
  intros _. destruct (ascii_dec "D" "U"); [discriminate | reflexivity].
Qed.

Lemma scan_lines_sound lines :
  forall b, scan_lines lines b = false ->
            (b = true /\ open_disallow lines) \/ closed_disallow lines.
Proof.
  induction lines as [|line rest IH]; intros b; cbn [scan_lines]; [discriminate|].
  destruct (is_user_agent_line line) eqn:Hua.
  - rewrite (user_agent_line_not_disallow _ Hua), andb_false_r.
    intro H. right. destruct (IH _ H) as [[Hn (bt & d & r & -> & Hbt & Hd)] | Hc].
    + exists [], line, bt, d, r. auto.
    + destruct Hc as (bf & ua & bt & d & r & -> & H1 & H2 & H3 & H4).
      exists (line :: bf), ua, bt, d, r. auto.
  - destruct (b && is_blocking_disallow line) eqn:Hb.
    + apply andb_true_iff in Hb as [-> Hd]. intros _. left. split; [reflexivity|].
      exists [], line, rest. auto.
    + intro H. destruct (IH _ H) as [[-> (bt & d & r & -> & Hbt & Hd)] | Hc].
      * left. split; [reflexivity|]. exists (line :: bt), d, r. auto.
      * right. destruct Hc as (bf & ua & bt & d & r & -> & H1 & H2 & H3 & H4).
        exists (line :: bf), ua, bt, d, r. auto.
Qed.

Lemma scan_lines_open lines :
  open_disallow lines -> scan_lines lines true = false.
Proof.
  intros (bt & d & r & -> & Hbt & Hd).
  induction Hbt as [|l bt Hl Hbt IH]; cbn [app scan_lines].
  - destruct (is_user_agent_line d) eqn:Hua.
    + rewrite (user_agent_line_not_disallow _ Hua) in Hd. discriminate.
    + rewrite Hd. reflexivity.
  - rewrite Hl. cbn [andb]. rewrite IH. destruct (is_blocking_disallow l); reflexivity.
Qed.

Lemma scan_lines_closed lines :
  closed_disallow lines -> forall b, scan_lines lines b = false.
Proof.
  intros (bf & ua & bt & d & r & -> & Hua & Hus & Hbt & Hd).
  induction bf as [|l bf IH]; intro b; cbn [app scan_lines].
  - rewrite Hua, Hus, (user_agent_line_not_disallow _ Hua). cbn [andb].
    apply scan_lines_open. exists bt, d, r. auto.
  - rewrite IH. destruct (_ && _); reflexivity.
Qed.

(** The loop of the code refuses exactly the documents that disallow
    within a matching section. *)
Lemma scan_lines_section robotsTxt :
  scan_lines (Js.split "010" robotsTxt) false = false <-> section_disallows robotsTxt.
Proof.
  unfold section_disallows. split.
  - intro H. apply scan_lines_sound in H as [[Hf _] | H]; [discriminate | exact H].
  - intro H. apply scan_lines_closed. exact H.
Qed.

Lemma robots_allows_false robotsTxt :
  robots_allows robotsTxt = false <-> gate_refuses robotsTxt.
Proof.
  unfold robots_allows, gate_refuses.
  destruct (Js.includes robotsTxt "Disallow: /maps").
  - split; auto.
  - rewrite scan_lines_section. split; [auto | intros [H|H]; [discriminate | exact H]].
Qed.

Section PolicyGate.

Context {E : Type}.
Variable env : Env (E := E).

(** The browser part of a search always does something. *)
Lemma scrape_acts (sc : GoogleMapsScraper) query location (w : World E) :
  trace (scrape env sc query location w) <> [].
Proof.
  unfold scrape, launchBrowser, bind, getBrowser. cbn [outcome world trace after].
  destruct (browser w) as [b|]; cbn [ret outcome world trace app after].
  - destruct (outcome (call "browser.newPage" "" (browser_newPage env b) w));
      cbn [trace call after app]; discriminate.
  - destruct (outcome (call "chromium.launch" "" (chromium_launch env (gs_headless sc)) w));
      cbn [trace call after app]; discriminate.
Qed.

Lemma respectRobotsTxt_fetched (w : World E) robotsTxt :
  let fetch := call "axios.get" robots_url (axios_get_robots env) w in
  outcome fetch = Returned robotsTxt ->
  respectRobotsTxt env w =
  mkRun (Returned (robots_allows robotsTxt)) (world fetch) (trace fetch).
Proof.
  intros fetch H. unfold respectRobotsTxt.
  erewrite try_catch_returned; rewrite (bind_returned _ _ _ _ H); fold fetch;
    cbn; rewrite ?app_nil_r; reflexivity.
Qed.

Lemma respectRobotsTxt_unreachable (w : World E) e :
  let fetch := call "axios.get" robots_url (axios_get_robots env) w in
  outcome fetch = Threw e ->
  respectRobotsTxt env w =
  mkRun (Returned true) (world fetch)
    (trace fetch ++ [EvWarn "Could not fetch robots.txt:"]).
Proof.
  intros fetch H. unfold respectRobotsTxt.
  erewrite try_catch_threw; rewrite (bind_threw _ _ _ _ H); fold fetch;
    reflexivity.
Qed.

(** The gate as the code has it.  With [respectRobots] on and the policy
    document fetched, the search fails with the policy-denial error, before
    any browser activity, exactly when the document holds the text
    [Disallow: /maps] anywhere or disallows [/maps] or [/] within a matching
    section; otherwise it goes on to the browser.  When the document cannot
    be fetched, the search warns and goes on to the browser. *)
Lemma policy_gate_of_the_code (sc : GoogleMapsScraper) (query location : string)
    (w : World E) :
  Js.blank query = false ->
  Js.blank location = false ->
  gs_respectRobots sc = true ->
  let fetch := call "axios.get" robots_url (axios_get_robots env) w in
  let r := scraper_searchBusinesses env sc query location w in
  (forall robotsTxt,
      outcome fetch = Returned robotsTxt ->
      (r = mkRun (Threw policy_denial) (world fetch) (trace fetch) <->
       gate_refuses robotsTxt) /\
      (~ gate_refuses robotsTxt ->
       r = after (trace fetch) (scrape env sc query location (world fetch)))) /\
  (forall e,
      outcome fetch = Threw e ->
      r = after (trace fetch ++ [EvWarn "Could not fetch robots.txt:"])
            (scrape env sc query location (world fetch))).
Proof.
  intros Hq Hl Hrobots fetch r. subst r.
  unfold scraper_searchBusinesses. rewrite Hq, Hl, Hrobots.
  split.
  - intros robotsTxt Hfetch.
    pose proof (respectRobotsTxt_fetched w robotsTxt Hfetch) as Hgate.
    fold fetch in Hgate.
    assert (Hrun :
      bind (bind (respectRobotsTxt env)
                 (fun allowed => if negb allowed then throw policy_denial else ret tt))
           (fun _ => scrape env sc query location) w =
      if robots_allows robotsTxt
      then after (trace fetch) (scrape env sc query location (world fetch))
      else mkRun (Threw policy_denial) (world fetch) (trace fetch)).
    { unfold bind at 1 2. rewrite Hgate. cbn [outcome world trace].
      destruct (robots_allows robotsTxt); cbn; rewrite ?app_nil_r; reflexivity. }
    rewrite Hrun.
    destruct (robots_allows robotsTxt) eqn:Hallow.
    + assert (Hno : ~ gate_refuses robotsTxt)
        by (rewrite <- robots_allows_false; congruence).
      split; [|reflexivity].
      split; [|contradiction].
      intro Heq. exfalso.
      apply (f_equal trace) in Heq. cbn [after trace] in Heq.
      rewrite <- (app_nil_r (trace fetch)) in Heq at 2.
      apply app_inv_head in Heq.
      exact (scrape_acts _ _ _ _ Heq).
    + apply robots_allows_false in Hallow.
      split; [|contradiction]. split; auto.
  - intros e Hfetch.
    pose proof (respectRobotsTxt_unreachable w e Hfetch) as Hgate.
    fold fetch in Hgate.
    unfold bind at 1 2. rewrite Hgate. cbn [outcome world trace negb].
    cbn. rewrite ?app_nil_r. reflexivity.
Qed.

End PolicyGate.

(** C5 on the code.  The policy document holds one section, for the
    crawler BadBot, with the rule [Disallow: /maps]; no section of it is
    for [*] or for [GoogleBot].  The search is refused all the same, with
    the policy denial and before any browser activity: the first test of
    the gate looks for the text [Disallow: /maps] anywhere in the document,
    whatever the section.  With the rule [Disallow: /] in the same section
    the search is not refused and goes on to the browser: the loop of the
    gate that reads sections leaves the rules of other crawlers alone. *)
Lemma C5_rule_of_other_crawler_refuses :
  let refused :=
    scraper_searchBusinesses (policy_env (Returned other_crawler_policy))
      default_scraper "plumbers" "Tampa" fresh_world in
  let sibling :=
    scraper_searchBusinesses (policy_env (Returned other_crawler_root_policy))
      default_scraper "plumbers" "Tampa" fresh_world in
  gs_respectRobots default_scraper = true /\
  Js.split "010" other_crawler_policy = ["User-agent: BadBot"; "Disallow: /maps"] /\
  refused = mkRun (Threw policy_denial) fresh_world [EvCall "axios.get" robots_url []] /\
  Js.split "010" other_crawler_root_policy = ["User-agent: BadBot"; "Disallow: /"] /\
  (exists found, outcome sibling = Returned found /\ List.length found = 1%nat) /\
  calls_to "browser.newPage" (trace sibling) = 1%nat /\
  calls_to "page.goto" (trace sibling) = 1%nat.
Proof.
  vm_compute. repeat split; try reflexivity.
  eexists. split; reflexivity.
Qed.

(** ** The orchestrator *)

Lemma mapApiResults_nil {E} (env : Env (E := E)) (l : list BusinessSearchResult) :
  mapApiResults l = [] <-> l = [].
Proof.
  unfold mapApiResults. split; [apply map_eq_nil | intros ->; reflexivity].
Qed.

Section Orchestrator.

Context {E : Type}.
Variable env : Env (E := E).
Variable mc : MapsClient (E := E).
Variables query location : string.
Variable options : SearchOptions.

Let limit : Z := nullish (maxResults options) 20.
Let prefer : bool := nullish (preferApi options) (useApiFirst (config mc)).

Hypothesis query_given : Js.blank query = false.
Hypothesis location_given : Js.blank location = false.

Lemma searchBusinesses_blocks (w : World E) :
  searchBusinesses env mc query location options w =
  bind (api_first env mc query location limit prefer)
       (fun early =>
          match early with
          | Some unifiedResults => ret unifiedResults
          | None => scraper_then_api env mc query location limit prefer
          end) w.
Proof.
  unfold searchBusinesses. rewrite query_given, location_given. reflexivity.
Qed.

(** Every list the first block returns has been cut by [slice]. *)
Lemma api_first_sliced (w : World E) unifiedResults :
  outcome (api_first env mc query location limit prefer w)
    = Returned (Some unifiedResults) ->
  exists l, unifiedResults = Js.slice0 l limit.
Proof.
  unfold api_first. destruct (prefer && defined (placesClient mc)).
  - rewrite outcome_try_catch, outcome_bind.
    destruct (outcome (searchWithApi env mc query location w)) as [apiResults|e].
    + destruct (0 <? _); cbn; intro H; inversion H. eauto.
    + rewrite outcome_bind. cbn. discriminate.
  - cbn. discriminate.
Qed.

(** Every list the second block returns has been cut by [slice]. *)
Lemma scraper_then_api_sliced (w : World E) unifiedResults :
  outcome (scraper_then_api env mc query location limit prefer w)
    = Returned unifiedResults ->
  exists l, unifiedResults = Js.slice0 l limit.
Proof.
  unfold scraper_then_api. destruct (defined (scraperClient mc)).
  - rewrite outcome_try_catch, outcome_bind.
    destruct (outcome (searchWithScraper env mc query location w)) as [found|e].
    + cbn. intro H; inversion H. eauto.
    + destruct (negb prefer && defined (placesClient mc)).
      * rewrite outcome_bind. cbn [warn emit outcome world].
        rewrite outcome_bind.
        destruct (outcome (searchWithApi env mc query location _)) as [apiResults|e'].
        -- cbn. intro H; inversion H. eauto.
        -- discriminate.
      * cbn. discriminate.
  - cbn. discriminate.
Qed.

Lemma results_sliced (w : World E) (found : list UnifiedBusinessResult) :
  outcome (searchBusinesses env mc query location options w) = Returned found ->
  exists l, found = Js.slice0 l limit.
Proof.
  rewrite searchBusinesses_blocks, outcome_bind.
  destruct (outcome (api_first env mc query location limit prefer w))
    as [[early|]|e] eqn:Hfirst.
  - cbn. intro H; inversion H; subst. exact (api_first_sliced _ _ Hfirst).
  - apply scraper_then_api_sliced.
  - discriminate.
Qed.

(** With a scraping client, the second block starts by invoking the
    scraping path, under the retry wrapper. *)
Lemma scraper_block_invokes_scraper (sc : GoogleMapsScraper) (p : bool)
    (w : World E) :
  scraperClient mc = Some sc ->
  exists sub rest,
    trace (scraper_then_api env mc query location limit p w)
    = EvCall "operation" "" [EvCall "scraper.searchBusinesses" query sub] :: rest.
Proof.
  intro Hsc. unfold scraper_then_api. rewrite Hsc. cbn [defined].
  match goal with
  | |- context [try_catch ?m ?h w] =>
      destruct (trace_try_catch_starts m h w) as (rest1 & ->)
  end.
  match goal with
  | |- context [bind ?m ?k w] =>
      destruct (trace_bind_starts m k w) as (rest2 & ->)
  end.
  unfold searchWithScraper. rewrite Hsc.
  match goal with
  | |- context [retryWithBackoff ?rl ?op 0 w] =>
      destruct (retryWithBackoff_starts rl op 0 w) as (rest3 & ->)
  end.
  rewrite trace_call. cbn. eauto.
Qed.

(** C1, as the code has it.  With [preferApi] true and a structured client,
    the structured path runs first.  When it returns a list that is not
    empty, the search returns that list, mapped and cut, and does nothing
    else: the scraping path is not invoked.  When it returns the empty list
    or fails, the search goes on to its second block, which, with a scraping
    client, starts by invoking the scraping path. *)
Theorem C1_structured_path_first (pc : GooglePlacesClient) (w : World E) :
  prefer = true ->
  placesClient mc = Some pc ->
  let apiRun := searchWithApi env mc query location w in
  let r := searchBusinesses env mc query location options w in
  (exists rest, trace r = (trace apiRun ++ rest)%list) /\
  (forall apiResults,
      outcome apiRun = Returned apiResults ->
      apiResults <> [] ->
      r = mkRun (Returned (Js.slice0 (mapApiResults apiResults) limit))
            (world apiRun) (trace apiRun)) /\
  (outcome apiRun = Returned [] ->
   r = after (trace apiRun)
         (scraper_then_api env mc query location limit true (world apiRun))) /\
  (forall e,
      outcome apiRun = Threw e ->
      r = after (trace apiRun ++ [EvWarn "API search failed, falling back to scraper:"])
            (scraper_then_api env mc query location limit true (world apiRun))) /\
  (forall sc w',
      scraperClient mc = Some sc ->
      exists sub rest,
        trace (scraper_then_api env mc query location limit true w')
        = EvCall "operation" "" [EvCall "scraper.searchBusinesses" query sub] :: rest).
Proof.
  intros Hprefer Hpc apiRun r.
  assert (Hnonempty : forall apiResults,
      outcome apiRun = Returned apiResults ->
      apiResults <> [] ->
      r = mkRun (Returned (Js.slice0 (mapApiResults apiResults) limit))
            (world apiRun) (trace apiRun)).
  { intros apiResults Hout Hne. subst r.
    rewrite searchBusinesses_blocks. unfold api_first.
    rewrite Hprefer, Hpc. cbn [defined andb].
    unfold bind at 1, try_catch. rewrite (bind_returned _ _ _ _ Hout).
    fold apiRun.
    destruct (mapApiResults apiResults) as [|u us] eqn:Hmap;
      [apply (mapApiResults_nil env) in Hmap; contradiction|].
    cbn -[Js.slice0]. unfold after, ret. cbn -[Js.slice0].
    rewrite ?app_nil_r. reflexivity. }
  assert (Hempty : outcome apiRun = Returned [] ->
      r = after (trace apiRun)
            (scraper_then_api env mc query location limit true (world apiRun))).
  { intros Hout. subst r.
    rewrite searchBusinesses_blocks. unfold api_first.
    rewrite Hprefer, Hpc. cbn [defined andb].
    unfold bind at 1, try_catch. rewrite (bind_returned _ _ _ _ Hout).
    fold apiRun. cbn. rewrite ?app_nil_r. reflexivity. }
  assert (Hfailed : forall e,
      outcome apiRun = Threw e ->
      r = after (trace apiRun ++ [EvWarn "API search failed, falling back to scraper:"])
            (scraper_then_api env mc query location limit true (world apiRun))).
  { intros e Hout. subst r.
    rewrite searchBusinesses_blocks. unfold api_first.
    rewrite Hprefer, Hpc. cbn [defined andb].
    unfold bind at 1, try_catch. rewrite (bind_threw _ _ _ _ Hout).
    fold apiRun. cbn. rewrite ?app_nil_r. reflexivity. }
  split; [|split; [exact Hnonempty | split; [exact Hempty | split; [exact Hfailed|]]]].
  - destruct (outcome apiRun) as [[|b bs]|e] eqn:Hout.
    + rewrite (Hempty eq_refl). cbn. eauto.
    + rewrite (Hnonempty _ eq_refl ltac:(discriminate)). cbn.
      exists []. rewrite app_nil_r. reflexivity.
    + rewrite (Hfailed _ eq_refl). cbn. rewrite <- app_assoc. eauto.
  - intros sc w' Hsc.
    exact (scraper_block_invokes_scraper sc true w' Hsc).
Qed.

End Orchestrator.

(** C7, as the code has it.  For a requested maximum that is not negative
    (20 when none is given), a successful search returns at most that many
    results, whichever source produced them. *)
Theorem C7_results_truncated {E} (env : Env (E := E)) (mc : MapsClient)
    (query location : string) (options : SearchOptions) (w : World E)
    (found : list UnifiedBusinessResult) :
  0 <= nullish (maxResults options) 20 ->
  outcome (searchBusinesses env mc query location options w) = Returned found ->
  Z.of_nat (List.length found) <= nullish (maxResults options) 20.
Proof.
  intros Hmax Hout.
  destruct (Js.blank query) eqn:Hq;
    [unfold searchBusinesses in Hout; rewrite Hq in Hout; discriminate|].
  destruct (Js.blank location) eqn:Hl;
    [unfold searchBusinesses in Hout; rewrite Hq, Hl in Hout; discriminate|].
  destruct (results_sliced env mc query location options Hq Hl w found Hout)
    as (l & ->).
  apply slice0_length, Hmax.
Qed.

(** On a zero-results answer the search goes on to the scraper and returns
    what the scraper found. *)
Lemma C1_counterexample : ~ structured_success_claim_as_stated.
Proof.
  intro H.
  specialize (H zero_results_env test_client test_places_client
                "cleaning services" "Tampa, FL" (mkSearchOptions None None)
                fresh_world [] eq_refl eq_refl eq_refl eq_refl eq_refl).
  apply (f_equal (fun r => calls_to "scraper.searchBusinesses" (trace r))) in H.
  vm_compute in H. discriminate.
Qed.

(** With [maxResults: -1] and three results from the structured source,
    the search returns two results. *)
Lemma C7_counterexample : ~ truncation_claim_as_stated.
Proof.
  intro H.
  pose (r := searchBusinesses three_places_env test_client "cleaning services"
               "Tampa, FL" (mkSearchOptions (Some (-1)) None) fresh_world).
  assert (Hlen : exists found,
             outcome r = Returned found /\ List.length found = 2%nat).
  { vm_compute. eexists. split; reflexivity. }
  destruct Hlen as (found & Hout & Hlen).
  specialize (H _ _ _ _ _ _ _ Hout). rewrite Hlen in H. cbn in H. lia.
Qed.

(** ** Rate-limit responses on the structured path *)

(** What the structured client throws when the transport answers 429 is
    an error the retry classification does not know. *)
Lemma rate_limit_error_not_retryable :
  isRetryableError (Js.newError rate_limit_message) = false.
Proof. reflexivity. Qed.

(** Hence the structured path of the orchestrator gives up on the first
    429: one invocation, no delay. *)
Lemma structured_path_gives_up_on_429 {E} (env : Env (E := E)) (mc : MapsClient)
    (pc : GooglePlacesClient) (query location : string) (w : World E)
    (error : Js.Error) :
  Js.blank query = false ->
  Js.blank location = false ->
  placesClient mc = Some pc ->
  let waited :=
    call "rateLimiter.waitForNextRequest" ""
      (waitForNextRequest (pc_rateLimiter pc)) w in
  outcome waited = Returned tt ->
  outcome (axios_get_textsearch env (query ++ " in " ++ location) (apiKey pc)
             (world waited)) = Threw error ->
  Js.isAxiosError error = true ->
  Js.response_status error = Some 429 ->
  let r := searchWithApi env mc query location w in
  outcome r = Threw (Js.newError rate_limit_message) /\
  invocations "operation" (trace r) = 1%nat /\
  delays_of (trace r) = [].
Proof.
  intros Hq Hl Hpc waited Hwait Hget Haxios Hstatus r. subst r.
  unfold searchWithApi. rewrite Hpc.
  pose proof (places_translates_429 env pc query location w error
                Hq Hl Hwait Hget Haxios Hstatus) as Hthrown.
  rewrite (retryWithBackoff_gives_up _ _ 0 w (Js.newError rate_limit_message));
    [| rewrite outcome_call; exact Hthrown | reflexivity].
  rewrite outcome_call, outcome_call, trace_call.
  repeat split. exact Hthrown.
Qed.

(** C2 on the code: with the transport answering 429 to every request and
    [maxRetries] at 3, the structured path invokes the operation once,
    waits for nothing and fails with the translated error; the search then
    falls back to the scraper at once. *)
Lemma C2_rate_limit_response_not_retried :
  let r := searchWithApi (http_status_env 429) test_client "cleaning services"
             "Tampa, FL" fresh_world in
  let s := searchBusinesses (http_status_env 429) test_client "cleaning services"
             "Tampa, FL" (mkSearchOptions None None) fresh_world in
  maxRetries (rateLimiter test_client) = 3 /\
  outcome r = Threw (Js.newError rate_limit_message) /\
  invocations "operation" (trace r) = 1%nat /\
  delays_of (trace r) = [] /\
  calls_to "placesClient.searchBusinesses" (trace s) = 1%nat /\
  calls_to "scraper.searchBusinesses" (trace s) = 1%nat.
Proof. vm_compute. repeat split; reflexivity. Qed.

(** The sibling statuses are retried: with 503 on every request, four
    invocations and the delays 1000, 2000, 4000. *)
Example service_unavailable_is_retried :
  let r := searchWithApi (http_status_env 503) test_client "cleaning services"
             "Tampa, FL" fresh_world in
  outcome r = Threw (axios_http_error 503) /\
  invocations "operation" (trace r) = 4%nat /\
  delays_of (trace r) = [1000; 2000; 4000].
Proof. vm_compute. repeat split; reflexivity. Qed.

(** ** Construction of the orchestrator *)

Section Construction.

Context {E : Type}.

(** C10. The constructor validates the configuration of the global
    singleton and never the merged one.  When the singleton is invalid the
    constructor throws its validation errors, whatever the override; when
    the singleton is valid no override is refused as an invalid
    configuration: the client is built on the merged configuration, unless
    the merged key is a non-empty blank string, which the constructor of
    the structured client refuses.  Both cases occur: an override that
    makes the merged configuration invalid is accepted over a valid
    singleton, and an override that makes it valid is refused over an
    invalid singleton. *)
Theorem C10_validation_reads_singleton
    (singleton : MapsConfig) (override : PartialMapsConfig) :
  let merged := spread singleton override in
  let built : Outcome (MapsClient (E := E)) :=
    newMapsClient singleton (Some override) in
  (isValid (validateConfig singleton) = false ->
   built = Threw (invalid_configuration (errors (validateConfig singleton)))) /\
  (isValid (validateConfig singleton) = true ->
   (exists mc, built = Returned mc /\ config mc = merged) \/
   (built = Threw (Js.newError "API key is required") /\
    exists k, googlePlacesApiKey merged = Some k /\
              Js.falsy k = false /\ Js.blank k = true)) /\
  (exists mc : MapsClient (E := E),
      isValid (validateConfig test_config) = true /\
      isValid (validateConfig (spread test_config bad_pacing_override)) = false /\
      newMapsClient test_config (Some bad_pacing_override) = Returned mc) /\
  (isValid (validateConfig no_source_config) = false /\
   isValid (validateConfig (spread no_source_config key_override)) = true /\
   newMapsClient (E := E) no_source_config (Some key_override)
   = Threw (invalid_configuration (errors (validateConfig no_source_config)))).
Proof.
  intros merged built.
  split; [|split; [|split]].
  - intro Hinvalid. subst built. unfold newMapsClient. rewrite Hinvalid. reflexivity.
  - intro Hvalid. subst built. unfold newMapsClient. rewrite Hvalid.
    cbn [negb]. fold merged.
    destruct (truthy (googlePlacesApiKey merged)) eqn:Hkey.
    + unfold newGooglePlacesClient.
      destruct (googlePlacesApiKey merged) as [k|] eqn:Hk; [|discriminate].
      destruct (Js.blank k) eqn:Hblank.
      * right. split; [reflexivity|]. exists k. repeat split; auto.
        cbn in Hkey. destruct (Js.falsy k); [discriminate | reflexivity].
      * left. eexists. split; reflexivity.
    + left. eexists. split; reflexivity.
  - eexists. repeat split; reflexivity.
  - repeat split; reflexivity.
Qed.

End Construction.

(** ** The pacing queue *)

Lemma pacing_invariant_initial : pacing_invariant [] Pacing.initial.
Proof. split; reflexivity. Qed.

Lemma pacing_invariant_step order a s s' :
  pacing_invariant order s ->
  Pacing.step a s = Some s' ->
  pacing_invariant (order ++ Pacing.entered [a]) s'.
Proof.
  intros [Hfifo Hdrain] Hstep. subst order.
  destruct s as [queue flag out n].
  unfold pacing_invariant, Pacing.waiting in *. cbn in *.
  destruct a as [caller now|]; cbn in Hstep.
  - inversion Hstep; subst; clear Hstep.
    unfold Pacing.waitForNextRequest; cbn.
    destruct flag; cbn.
    + split; [|reflexivity].
      rewrite map_app, <- app_assoc. reflexivity.
    + unfold Pacing.processQueue, Pacing.loop; cbn.
      destruct queue as [|q queue]; cbn; (split; [|reflexivity]).
      * rewrite !app_nil_r. reflexivity.
      * rewrite map_app, <- !app_assoc. reflexivity.
  - destruct n as [|n]; [discriminate|].
    inversion Hstep; subst; clear Hstep.
    rewrite app_nil_r.
    destruct flag; [|discriminate]. injection Hdrain as ->.
    unfold Pacing.loop; cbn.
    destruct queue as [|q queue]; cbn; (split; [|reflexivity]).
    + reflexivity.
    + rewrite <- app_assoc. reflexivity.
Qed.

Lemma entered_app s1 s2 :
  Pacing.entered (s1 ++ s2) = (Pacing.entered s1 ++ Pacing.entered s2)%list.
Proof. unfold Pacing.entered. apply flat_map_app. Qed.

Lemma pacing_invariant_run schedule :
  forall order s s',
    pacing_invariant order s ->
    Pacing.run schedule s = Some s' ->
    pacing_invariant (order ++ Pacing.entered schedule) s'.
Proof.
  induction schedule as [|a schedule IH]; intros order s s' Hinv Hrun; cbn in Hrun.
  - inversion Hrun; subst. cbn. rewrite app_nil_r. exact Hinv.
  - destruct (Pacing.step a s) as [s1|] eqn:Hstep; [|discriminate].
    change (a :: schedule) with ([a] ++ schedule)%list.
    rewrite entered_app, app_assoc.
    eapply IH; [|exact Hrun].
    eapply pacing_invariant_step; eassumption.
Qed.

(** The flag falls only in a step that finds the queue empty, and rises
    only in a step that starts an activation. *)
Lemma flag_changes a s s' :
  Pacing.step a s = Some s' ->
  (Pacing.processing s = true -> Pacing.processing s' = false ->
   a = Pacing.TimerFires /\ Pacing.requestQueue s = [] /\
   Pacing.requestQueue s' = []) /\
  (Pacing.processing s = false -> Pacing.processing s' = true ->
   (exists caller now, a = Pacing.Enter caller now) /\
   Pacing.suspended s' = S (Pacing.suspended s)).
Proof.
  destruct s as [queue flag out n]. intro Hstep.
  destruct a as [caller now|]; cbn in Hstep.
  - inversion Hstep; subst; clear Hstep. unfold Pacing.waitForNextRequest; cbn.
    destruct flag; cbn.
    + split; [discriminate 2 | discriminate 1].
    + split; [discriminate 1|]. intros _ _. split; [eauto|].
      unfold Pacing.processQueue, Pacing.loop; cbn. destruct queue; reflexivity.
  - destruct n as [|n]; [discriminate|].
    inversion Hstep; subst; clear Hstep. unfold Pacing.loop; cbn.
    destruct queue as [|q queue]; cbn.
    + split; [auto | discriminate 2].
    + split; intros H1 H2; congruence.
Qed.

(** Every schedule runs as long as a timer fires only when one is set. *)
Lemma enter_always_runs caller now s :
  exists s', Pacing.step (Pacing.Enter caller now) s = Some s'.
Proof. cbn. eauto. Qed.

(** C6. After any schedule of callers entering [waitForNextRequest] and
    timers firing on one instance: the callers released so far, followed by
    the callers still queued, are the callers that entered, in the order
    they entered, so no caller is released before an earlier one; at most
    one activation of [processQueue] exists, and the [processing] flag is
    set exactly while it does.  In the step that follows, the flag falls
    only when the timer fires on an empty queue, and rises only when a
    caller enters and starts the activation. *)
Theorem C6_fifo_single_drain (schedule : list Pacing.Action) (s : Pacing.State) :
  Pacing.run schedule Pacing.initial = Some s ->
  (Pacing.released s ++ Pacing.waiting s)%list = Pacing.entered schedule /\
  (Pacing.suspended s <= 1)%nat /\
  (Pacing.processing s = true <-> Pacing.suspended s = 1%nat) /\
  forall a s',
    Pacing.step a s = Some s' ->
    (Pacing.processing s = true -> Pacing.processing s' = false ->
     a = Pacing.TimerFires /\ Pacing.requestQueue s = [] /\
     Pacing.requestQueue s' = []) /\
    (Pacing.processing s = false -> Pacing.processing s' = true ->
     (exists caller now, a = Pacing.Enter caller now) /\
     Pacing.suspended s' = 1%nat).
Proof.
  intro Hrun.
  destruct (pacing_invariant_run schedule [] _ _ pacing_invariant_initial Hrun)
    as [Hfifo Hdrain].
  cbn in Hfifo.
  split; [exact Hfifo|].
  split; [rewrite Hdrain; destruct (Pacing.processing s); lia|].
  split.
  - rewrite Hdrain. destruct (Pacing.processing s); split; congruence.
  - intros a s' Hstep.
    destruct (flag_changes a s s' Hstep) as [Hfall Hrise].
    split; [exact Hfall|].
    intros Hoff Hon. destruct (Hrise Hoff Hon) as [Henter Hsusp].
    split; [exact Henter|].
    rewrite Hsusp, Hdrain, Hoff. reflexivity.
Qed.

(** ** The model on the scenarios of the unit tests *)

Example policy_root_disallowed :
  robots_allows root_disallowed_policy = false.
Proof. reflexivity. Qed.

Example policy_other_path_allowed :
  robots_allows ("User-agent: *" ++ line_feed ++ "Disallow: /search") = true.
Proof. reflexivity. Qed.

Example policy_other_crawler_root_allowed :
  robots_allows ("User-agent: BadBot" ++ line_feed ++ "Disallow: /") = true.
Proof. reflexivity. Qed.

Example policy_lines :
  Js.split "010" other_crawler_policy = ["User-agent: BadBot"; "Disallow: /maps"].
Proof. reflexivity. Qed.

Example constructor_on_test_config :
  newMapsClient test_config None = Returned test_client.
Proof. reflexivity. Qed.

(** The limiter reads a configured 0 as "not given", although
    [validateConfig] accepts 0 retries: the operation is then invoked four
    times, not once. *)
Example zero_retries_configured :
  let config := mkRateLimiterConfig None (Some 0) None None None in
  maxRetries (newRateLimiter config) = 3 /\
  invocations "operation"
    (trace (retryWithBackoff (newRateLimiter config)
              (always_rejects (axios_http_error 429)) 0 fresh_world)) = 4%nat.
Proof. vm_compute. split; reflexivity. Qed.

Example search_url :
  buildSearchUrl "cleaning services" "Tampa, FL"
  = "https://www.google.com/maps/search/cleaning+services+Tampa%2C+FL".
Proof. reflexivity. Qed.

(** "should rate limit multiple requests", "should return correct queue
    status": three callers, then the queue drains. *)
Example three_callers_in_turn :
  option_map (Pacing.getQueueStatus 1)
    (Pacing.run (firstn 3 three_callers) Pacing.initial) = Some (2%nat, true, 1) /\
  option_map Pacing.released
    (Pacing.run (firstn 3 three_callers) Pacing.initial) = Some [0%nat] /\
  option_map Pacing.released
    (Pacing.run (firstn 5 three_callers) Pacing.initial) = Some [0; 1; 2]%nat /\
  option_map (Pacing.getQueueStatus 1)
    (Pacing.run three_callers Pacing.initial) = Some (0%nat, false, 1).
Proof. repeat split; reflexivity. Qed.

(** "should search using API first when preferred" *)
Example api_first_when_preferred :
  let r := searchBusinesses one_place_env test_client "cleaning services" "Tampa, FL"
             (mkSearchOptions None None) fresh_world in
  option_map (map source) (match outcome r with Returned l => Some l | Threw _ => None end)
    = Some [api] /\
  calls_to "placesClient.searchBusinesses" (trace r) = 1%nat /\
  calls_to "scraper.searchBusinesses" (trace r) = 0%nat.
Proof. vm_compute. auto. Qed.

(** "should fallback to scraper when API fails" *)
Example scraper_when_api_fails :
  let env := scripted_env (Threw (Js.newError "API Error"))
               (Returned EmptyString) [test_scraped] in
  let r := searchBusinesses env test_client "cleaning services" "Tampa, FL"
             (mkSearchOptions None None) fresh_world in
  option_map (map source) (match outcome r with Returned l => Some l | Threw _ => None end)
    = Some [scraper] /\
  calls_to "placesClient.searchBusinesses" (trace r) = 1%nat /\
  calls_to "scraper.searchBusinesses" (trace r) = 1%nat.
Proof. vm_compute. auto. Qed.

(** "should use scraper first when preferApi is false" *)
Example scraper_first_when_asked :
  let r := searchBusinesses one_place_env test_client "cleaning services" "Tampa, FL"
             (mkSearchOptions None (Some false)) fresh_world in
  option_map (map source) (match outcome r with Returned l => Some l | Threw _ => None end)
    = Some [scraper] /\
  calls_to "placesClient.searchBusinesses" (trace r) = 0%nat.
Proof. vm_compute. auto. Qed.

(** The structured source answers ZERO_RESULTS: the structured path
    returns the empty list, and the search returns what the scraper
    found. *)
Example zero_results_reaches_scraper :
  let r := searchBusinesses zero_results_env test_client "cleaning services"
             "Tampa, FL" (mkSearchOptions None None) fresh_world in
  outcome (searchWithApi zero_results_env test_client "cleaning services"
             "Tampa, FL" fresh_world) = Returned [] /\
  option_map (map source) (match outcome r with Returned l => Some l | Threw _ => None end)
    = Some [scraper] /\
  calls_to "scraper.searchBusinesses" (trace r) = 1%nat.
Proof. vm_compute. auto. Qed.

(** ** The theorems at work *)

Lemma C3_witness :
  let capped := retryWithBackoff (newRateLimiter capped_config)
                  (always_rejects (axios_http_error 429)) 0 fresh_world in
  let negative := retryWithBackoff (newRateLimiter negative_retries_config)
                    (always_rejects (axios_http_error 429)) 0 fresh_world in
  invocations "operation" (trace capped) = 6%nat /\
  delays_of (trace capped) = [1000; 2000; 3000; 3000; 3000] /\
  invocations "operation" (trace negative) = 1%nat /\
  delays_of (trace negative) = [].
Proof.
  assert (Hfail : forall w0 : World unit, exists error,
             outcome (always_rejects (axios_http_error 429) w0) = Threw error /\
             isRetryableError error = true)
    by (intro w0; exists (axios_http_error 429); split; reflexivity).
  destruct (C3_retry_until_exhausted capped_config
              (always_rejects (axios_http_error 429)) fresh_world Hfail)
    as (Hcount & _ & Hdelays & _); try discriminate.
  destruct (C3_retry_until_exhausted negative_retries_config
              (always_rejects (axios_http_error 429)) fresh_world Hfail)
    as (_ & Hnegative & _); try discriminate.
  cbv zeta in *.
  split; [apply Nat2Z.inj; rewrite Hcount; [reflexivity | cbn; lia]|].
  split; [exact Hdelays|].
  apply Hnegative. cbn. lia.
Defined.

Lemma C4_witness :
  not_retryable bad_request /\
  let r := retryWithBackoff capped_limiter (always_rejects bad_request) 0 fresh_world in
  outcome r = Threw bad_request /\
  invocations "operation" (trace r) = 1%nat /\
  trace r = [EvCall "operation" "" []] /\
  world r = fresh_world.
Proof.
  assert (H : not_retryable bad_request).
  { unfold not_retryable, bad_request; cbn.
    repeat split; try discriminate. }
  split; [exact H|].
  apply (C4_non_retryable_propagates capped_limiter (always_rejects bad_request)
           fresh_world bad_request eq_refl H).
Defined.

Lemma C6_witness :
  Pacing.run three_callers Pacing.initial = Some drained /\
  (Pacing.released drained ++ Pacing.waiting drained)%list
    = Pacing.entered three_callers /\
  (Pacing.suspended drained <= 1)%nat /\
  (Pacing.processing drained = true <-> Pacing.suspended drained = 1%nat) /\
  forall a s',
    Pacing.step a drained = Some s' ->
    (Pacing.processing drained = true -> Pacing.processing s' = false ->
     a = Pacing.TimerFires /\ Pacing.requestQueue drained = [] /\
     Pacing.requestQueue s' = []) /\
    (Pacing.processing drained = false -> Pacing.processing s' = true ->
     (exists caller now, a = Pacing.Enter caller now) /\
     Pacing.suspended s' = 1%nat).
Proof.
  split; [reflexivity|].
  exact (C6_fifo_single_drain three_callers drained eq_refl).
Defined.

Lemma C7_witness :
  let options := mkSearchOptions (Some 2) None in
  let r := searchBusinesses three_places_env test_client "cleaning services"
             "Tampa, FL" options fresh_world in
  exists found,
    outcome r = Returned found /\
    List.length found = 2%nat /\
    Z.of_nat (List.length found) <= nullish (maxResults options) 20.
Proof.
  eexists. split; [vm_compute; reflexivity|]. split; [reflexivity|].
  apply (C7_results_truncated three_places_env test_client "cleaning services"
           "Tampa, FL" (mkSearchOptions (Some 2) None) fresh_world).
  - cbn. lia.
  - vm_compute. reflexivity.
Defined.

Lemma C8_witness :
  let error := missing_field "  " "Tampa, FL" in
  Js.whitespace_only "  " = true /\
  searchBusinesses three_places_env test_client "  " "Tampa, FL"
    (mkSearchOptions None None) fresh_world = mkRun (Threw error) fresh_world [] /\
  places_searchBusinesses three_places_env test_places_client "  " "Tampa, FL"
    fresh_world = mkRun (Threw error) fresh_world [] /\
  scraper_searchBusinesses three_places_env default_scraper "  " "Tampa, FL" fresh_world
    = mkRun (Threw error) fresh_world [] /\
  (Js.message error = Some "Query is required" \/
   Js.message error = Some "Location is required").
Proof.
  split; [reflexivity|].
  apply (C8_blank_argument_fails_first three_places_env test_client
           test_places_client default_scraper (mkSearchOptions None None)
           "  " "Tampa, FL" fresh_world).
  left. reflexivity.
Defined.

Lemma C9_witness :
  let search := fun data =>
    outcome (places_searchBusinesses (answering_env data) test_places_client
               "cleaning services" "Tampa, FL" fresh_world) in
  search zero_results = Returned [] /\
  search denied_results
    = Threw (Js.newError "Google Places API error: Invalid API key") /\
  search invalid_request_results
    = Threw (Js.newError "Google Places API error: Missing query") /\
  search over_limit_results
    = Threw (Js.newError "Google Places API error: OVER_QUERY_LIMIT").
Proof.
  pose proof (fun data =>
    C9_status_handling (answering_env data) test_places_client
      "cleaning services" "Tampa, FL" fresh_world data
      eq_refl eq_refl eq_refl eq_refl) as H.
  cbv zeta in H |- *.
  split; [|split; [|split]].
  - exact (proj1 (H zero_results) eq_refl).
  - exact (proj1 (proj1 (proj2 (H denied_results)) eq_refl)).
  - destruct (H invalid_request_results) as (_ & _ & Hother).
    destruct Hother as [Hmessage _]; try discriminate.
    apply (Hmessage "Missing query"); [reflexivity | discriminate].
  - destruct (H over_limit_results) as (_ & _ & Hother).
    destruct Hother as [_ Hstatus]; try discriminate.
    destruct (Hstatus (or_introl eq_refl)) as [Hs _].
    exact (Hs "OVER_QUERY_LIMIT" eq_refl).
Defined.

Lemma C1_witness :
  let options := mkSearchOptions None None in
  let apiRun := searchWithApi one_place_env test_client "cleaning services"
                  "Tampa, FL" fresh_world in
  let r := searchBusinesses one_place_env test_client "cleaning services"
             "Tampa, FL" options fresh_world in
  (exists rest, trace r = (trace apiRun ++ rest)%list) /\
  (forall apiResults,
      outcome apiRun = Returned apiResults ->
      apiResults <> [] ->
      r = mkRun (Returned (Js.slice0 (mapApiResults apiResults) 20))
            (world apiRun) (trace apiRun)) /\
  (outcome apiRun = Returned [] ->
   r = after (trace apiRun)
         (scraper_then_api one_place_env test_client "cleaning services" "Tampa, FL"
            20 true (world apiRun))) /\
  (forall e,
      outcome apiRun = Threw e ->
      r = after (trace apiRun ++ [EvWarn "API search failed, falling back to scraper:"])
            (scraper_then_api one_place_env test_client "cleaning services" "Tampa, FL"
               20 true (world apiRun))) /\
  (forall sc w',
      scraperClient test_client = Some sc ->
      exists sub rest,
        trace (scraper_then_api one_place_env test_client "cleaning services"
                 "Tampa, FL" 20 true w')
        = EvCall "operation" ""
            [EvCall "scraper.searchBusinesses" "cleaning services" sub] :: rest).
Proof.
  exact (C1_structured_path_first one_place_env test_client "cleaning services"
           "Tampa, FL" (mkSearchOptions None None) eq_refl eq_refl
           test_places_client fresh_world eq_refl eq_refl).
Defined.

Lemma C10_witness :
  isValid (validateConfig no_source_config) = false /\
  newMapsClient (E := unit) no_source_config (Some key_override)
  = Threw (invalid_configuration (errors (validateConfig no_source_config))).
Proof.
  split; [reflexivity|].
  exact (proj1 (C10_validation_reads_singleton (E := unit) no_source_config key_override)
           eq_refl).
Defined.

(** * Further properties of the code *)

(** ** The retry wrapper on any operation *)

Section RetryInGeneral.

Context {E T : Type}.
Variable rl : ExponentialBackoffRateLimiter.
Variable operation : M E T.

Lemma retry_shape_from retries :
  forall retryCount (w : World E),
    retries = Z.to_nat (maxRetries rl - retryCount) ->
    exists n, (n <= retries)%nat /\
              skeleton (trace (retryWithBackoff rl operation retryCount w))
              = exhausted_retries rl retryCount n.
Proof.
  induction retries as [|m IH]; intros retryCount w Hm;
    rewrite retryWithBackoff_once; cbv zeta.
  - exists 0%nat. split; [lia|].
    destruct (outcome (call "operation" "" operation w)); [reflexivity|].
    destruct (Z.geb_spec retryCount (maxRetries rl)); [reflexivity | lia].
  - destruct (outcome (call "operation" "" operation w)) as [a|error];
      [exists 0%nat; split; [lia | reflexivity]|].
    destruct (Z.geb_spec retryCount (maxRetries rl)); [lia|].
    destruct (isRetryableError error);
      [|exists 0%nat; split; [lia | reflexivity]].
    destruct (IH (retryCount + 1) (world (call "operation" "" operation w)))
      as (n & Hn & Hsk); [lia|].
    exists (S n). split; [lia|].
    cbn [after trace]. rewrite !skeleton_app, Hsk, trace_call.
    unfold backoffDelay. reflexivity.
Qed.


Lemma total_delay_bound (n : nat) (k : Z) :
  0 <= maxDelay rl ->
  total_delay (exhausted_retries rl k n) <= Z.of_nat n * maxDelay rl.
Proof.
  intro Hmax. revert k. induction n as [|n IH]; intro k.
  - cbn. lia.
  - unfold total_delay in *. cbn [exhausted_retries].
    change (delays_of (?a :: ?b :: ?t)) with (delays_of ([a; b] ++ t)).
    rewrite delays_of_app, fold_right_app. cbn [delays_of flat_map app fold_right].
    specialize (IH (k + 1)).
    pose proof (Z.le_min_r (baseDelay rl * backoffMultiplier rl ^ k) (maxDelay rl)).
    lia.
Qed.

(** X2. The time one call of the wrapper spends waiting is at most
    [maxRetries * maxDelay], whatever the operation does. *)
Theorem X2_total_backoff_bounded (w : World E) :
  0 <= maxRetries rl ->
  0 <= maxDelay rl ->
  total_delay (trace (retryWithBackoff rl operation 0 w))
  <= maxRetries rl * maxDelay rl.
Proof.
  intros Hretries Hmax.
  destruct (retry_shape_from (Z.to_nat (maxRetries rl)) 0 w) as (n & Hn & Hsk);
    [f_equal; lia|].
  unfold total_delay. rewrite <- delays_of_skeleton, Hsk.
  pose proof (total_delay_bound n 0 Hmax) as Hbound. unfold total_delay in Hbound.
  nia.
Qed.

Lemma retryable_failure_shape retries :
  forall retryCount (w : World E) error,
    retries = Z.to_nat (maxRetries rl - retryCount) ->
    outcome (retryWithBackoff rl operation retryCount w) = Threw error ->
    isRetryableError error = true ->
    skeleton (trace (retryWithBackoff rl operation retryCount w))
    = exhausted_retries rl retryCount retries.
Proof.
  induction retries as [|m IH]; intros retryCount w error Hm;
    rewrite retryWithBackoff_once; cbv zeta.
  - destruct (outcome (call "operation" "" operation w)) as [a|e] eqn:Hcall;
      [intro Hout; rewrite Hcall in Hout; discriminate|].
    destruct (Z.geb_spec retryCount (maxRetries rl)); [reflexivity | lia].
  - destruct (outcome (call "operation" "" operation w)) as [a|e] eqn:Hcall;
      [intro Hout; rewrite Hcall in Hout; discriminate|].
    destruct (Z.geb_spec retryCount (maxRetries rl)); [lia|].
    destruct (isRetryableError e) eqn:Hclass.
    + cbn [after outcome trace]. intros Hout Hretry.
      rewrite !skeleton_app, trace_call.
      rewrite (IH (retryCount + 1) _ error ltac:(lia) Hout Hretry).
      unfold backoffDelay. reflexivity.
    + intros Hout Hretry. rewrite Hcall in Hout. congruence.
Qed.

(** X3. A failure that the classification calls retryable reaches the
    caller only when the retries are used up: the operation was then
    invoked exactly [maxRetries + 1] times (once when [maxRetries] is
    negative). *)
Theorem X3_retryable_failure_means_exhausted (w : World E) (error : Js.Error) :
  outcome (retryWithBackoff rl operation 0 w) = Threw error ->
  isRetryableError error = true ->
  invocations "operation" (trace (retryWithBackoff rl operation 0 w))
  = S (Z.to_nat (maxRetries rl)).
Proof.
  intros Hout Hretry.
  rewrite <- invocations_skeleton.
  rewrite (retryable_failure_shape (Z.to_nat (maxRetries rl)) 0 w error
             ltac:(f_equal; lia) Hout Hretry).
  apply invocations_exhausted.
Qed.

Lemma retry_recovers_from k :
  forall retryCount (w : World E) (a : T),
    retryCount + Z.of_nat k <= maxRetries rl ->
    (forall i, (i < k)%nat ->
       exists error,
         outcome (operation (world_of_attempt operation i w)) = Threw error /\
         isRetryableError error = true) ->
    outcome (operation (world_of_attempt operation k w)) = Returned a ->
    let r := retryWithBackoff rl operation retryCount w in
    outcome r = Returned a /\
    world r = world (operation (world_of_attempt operation k w)) /\
    skeleton (trace r) = exhausted_retries rl retryCount k.
Proof.
  induction k as [|k IH]; intros retryCount w a Hle Hfail Hok r; subst r;
    rewrite retryWithBackoff_once; cbv zeta; rewrite outcome_call.
  - cbn [world_of_attempt] in Hok. rewrite Hok.
    rewrite outcome_call, world_call, trace_call. repeat split. exact Hok.
  - destruct (Hfail 0%nat ltac:(lia)) as (error & Hout & Hretry).
    cbn [world_of_attempt] in Hout. rewrite Hout.
    destruct (Z.geb_spec retryCount (maxRetries rl)); [lia|].
    rewrite Hretry. cbn [after outcome world trace].
    rewrite world_call.
    destruct (IH (retryCount + 1) (world (operation w)) a) as (H1 & H2 & H3).
    + lia.
    + intros i Hi. exact (Hfail (S i) ltac:(lia)).
    + exact Hok.
    + repeat split; [exact H1 | exact H2 |].
      rewrite !skeleton_app, H3, trace_call. unfold backoffDelay. reflexivity.
Qed.

(** X4. When the operation fails with retryable errors [k] times and then
    succeeds, with [k] at most [maxRetries], the wrapper returns that
    success after [k + 1] invocations and [k] delays. *)
Theorem X4_retry_recovers (k : nat) (w : World E) (a : T) :
  Z.of_nat k <= maxRetries rl ->
  (forall i, (i < k)%nat ->
     exists error,
       outcome (operation (world_of_attempt operation i w)) = Threw error /\
       isRetryableError error = true) ->
  outcome (operation (world_of_attempt operation k w)) = Returned a ->
  let r := retryWithBackoff rl operation 0 w in
  outcome r = Returned a /\
  world r = world (operation (world_of_attempt operation k w)) /\
  invocations "operation" (trace r) = S k /\
  skeleton (trace r) = exhausted_retries rl 0 k.
Proof.
  intros Hle Hfail Hok r.
  destruct (retry_recovers_from k 0 w a ltac:(lia) Hfail Hok) as (H1 & H2 & H3).
  fold r in H1, H2, H3.
  repeat split; try assumption.
  rewrite <- invocations_skeleton, H3. apply invocations_exhausted.
Qed.

End RetryInGeneral.

(** X5. With a base delay that is not negative and a multiplier of at
    least 1, the delays grow with the retry count, start at
    [min baseDelay maxDelay] and stay at most [maxDelay]. *)
Theorem X5_backoff_delay_monotone (rl : ExponentialBackoffRateLimiter) (k k' : Z) :
  0 <= baseDelay rl ->
  1 <= backoffMultiplier rl ->
  0 <= k <= k' ->
  backoffDelay rl 0 = Z.min (baseDelay rl) (maxDelay rl) /\
  backoffDelay rl 0 <= backoffDelay rl k /\
  backoffDelay rl k <= backoffDelay rl k' /\
  backoffDelay rl k' <= maxDelay rl.
Proof.
  intros Hbase Hmult Hk. unfold backoffDelay.
  assert (Hpow : forall a b, 0 <= a <= b ->
             backoffMultiplier rl ^ a <= backoffMultiplier rl ^ b)
    by (intros a b Hab; apply Z.pow_le_mono_r; lia).
  assert (Hmono : forall a b, 0 <= a <= b ->
             baseDelay rl * backoffMultiplier rl ^ a
             <= baseDelay rl * backoffMultiplier rl ^ b)
    by (intros a b Hab; apply Z.mul_le_mono_nonneg_l; auto).
  rewrite Z.pow_0_r, Z.mul_1_r.
  pose proof (Hmono 0 k ltac:(lia)) as H0. rewrite Z.pow_0_r, Z.mul_1_r in H0.
  pose proof (Hmono k k' ltac:(lia)) as H1.
  repeat split; lia.
Qed.

(** ** Configuration *)

Lemma push_if_nil c msg l : push_if c msg l = [] <-> c = false /\ l = [].
Proof.
  unfold push_if. destruct c.
  - split; [intro H; destruct l; discriminate | intros [H _]; discriminate].
  - split; [auto | intros [_ H]; exact H].
Qed.

Lemma length_zero_nil {A} (l : list A) : (List.length l =? 0)%nat = true <-> l = [].
Proof. destruct l; cbn; split; congruence. Qed.

(** What [validateConfig] accepts. *)
Lemma validateConfig_accepts (config : MapsConfig) :
  isValid (validateConfig config) = true <-> well_configured config.
Proof.
  unfold validateConfig, well_configured. cbn [isValid].
  rewrite length_zero_nil. unfold validateConfig_errors. cbv zeta.
  destruct (enabled (scraping config)) eqn:Hen.
  - rewrite !push_if_nil.
    rewrite !orb_false_iff, !andb_false_iff, !negb_false_iff.
    rewrite !Z.leb_gt, !Z.ltb_ge.
    intuition (try congruence).
  - rewrite !push_if_nil.
    rewrite !andb_false_iff, !negb_false_iff.
    rewrite !Z.leb_gt, !Z.ltb_ge.
    cbn [negb]. intuition (try congruence).
Qed.

(** X6. [validateConfig] accepts a configuration exactly when a source is
    available (a non-empty key, or scraping enabled), the pacing
    parameters are in range, and, with scraping enabled, so are the
    scraping parameters; with scraping disabled the scraping parameters
    are not looked at. *)
Theorem X6_validateConfig_accepts (config : MapsConfig) :
  isValid (validateConfig config) = true <-> well_configured config.
Proof. exact (validateConfig_accepts config). Qed.

Section ConstructionMore.

Context {E : Type}.

(** X7. When the constructor, called without override, returns a client,
    the singleton configuration is one [validateConfig] accepts and is the
    configuration of the client.  The client has at least one source: the
    structured client exactly when a non-empty key is configured, the
    scraper exactly when scraping is enabled.  Its limiter has the
    configured pacing parameters, except that a configured [maxRetries] of
    0 becomes 3, so that it always retries at least once. *)
Theorem X7_built_client_is_usable (singleton : MapsConfig)
    (mc : MapsClient (E := E)) :
  newMapsClient singleton None = Returned mc ->
  well_configured singleton /\
  config mc = singleton /\
  (defined (placesClient mc) = truthy (googlePlacesApiKey singleton)) /\
  (defined (scraperClient mc) = enabled (scraping singleton)) /\
  (defined (placesClient mc) = true \/ defined (scraperClient mc) = true) /\
  requestsPerSecond (rateLimiter mc) = rl_requestsPerSecond (rateLimiting singleton) /\
  baseDelay (rateLimiter mc) = rl_baseDelay (rateLimiting singleton) /\
  maxDelay (rateLimiter mc) = rl_maxDelay (rateLimiting singleton) /\
  backoffMultiplier (rateLimiter mc) = rl_backoffMultiplier (rateLimiting singleton) /\
  maxRetries (rateLimiter mc) =
    (if rl_maxRetries (rateLimiting singleton) =? 0 then 3
     else rl_maxRetries (rateLimiting singleton)) /\
  0 < requestsPerSecond (rateLimiter mc) /\
  0 < maxRetries (rateLimiter mc).
Proof.
  unfold newMapsClient.
  destruct (isValid (validateConfig singleton)) eqn:Hvalid; [|discriminate].
  apply validateConfig_accepts in Hvalid.
  pose proof Hvalid as (Hsrc & Hrps & Hretries & Hbase & Hmax & Hmult & _).
  cbn [negb].
  assert (Hlimiter :
    forall rl, rl = newRateLimiter (as_limiter_config (rateLimiting singleton)) ->
      requestsPerSecond rl = rl_requestsPerSecond (rateLimiting singleton) /\
      baseDelay rl = rl_baseDelay (rateLimiting singleton) /\
      maxDelay rl = rl_maxDelay (rateLimiting singleton) /\
      backoffMultiplier rl = rl_backoffMultiplier (rateLimiting singleton) /\
      maxRetries rl =
        (if rl_maxRetries (rateLimiting singleton) =? 0 then 3
         else rl_maxRetries (rateLimiting singleton)) /\
      0 < requestsPerSecond rl /\ 0 < maxRetries rl).
  { intros rl ->. unfold newRateLimiter, as_limiter_config, or_default.
    cbn [requestsPerSecond baseDelay maxDelay backoffMultiplier maxRetries
         cfg_requestsPerSecond cfg_maxRetries cfg_baseDelay cfg_maxDelay
         cfg_backoffMultiplier].
    destruct (Z.eqb_spec (rl_requestsPerSecond (rateLimiting singleton)) 0); [lia|].
    destruct (Z.eqb_spec (rl_baseDelay (rateLimiting singleton)) 0); [lia|].
    destruct (Z.eqb_spec (rl_maxDelay (rateLimiting singleton)) 0); [lia|].
    destruct (Z.eqb_spec (rl_backoffMultiplier (rateLimiting singleton)) 0); [lia|].
    destruct (Z.eqb_spec (rl_maxRetries (rateLimiting singleton)) 0);
      repeat split; lia. }
  destruct (truthy (googlePlacesApiKey singleton)) eqn:Hkey.
  - destruct (newGooglePlacesClient _ _ _) as [pc|e]; [|discriminate].
    intro H; inversion H; subst; clear H.
    cbn [config placesClient scraperClient rateLimiter defined].
    destruct (Hlimiter _ eq_refl) as (H1 & H2 & H3 & H4 & H5 & H6 & H7).
    refine (conj Hvalid (conj eq_refl (conj eq_refl (conj _ (conj _
             (conj H1 (conj H2 (conj H3 (conj H4 (conj H5 (conj H6 H7))))))))))).
    + destruct (enabled (scraping singleton)); reflexivity.
    + left. reflexivity.
  - intro H; inversion H; subst; clear H.
    cbn [config placesClient scraperClient rateLimiter defined].
    destruct (Hlimiter _ eq_refl) as (H1 & H2 & H3 & H4 & H5 & H6 & H7).
    refine (conj Hvalid (conj eq_refl (conj eq_refl (conj _ (conj _
             (conj H1 (conj H2 (conj H3 (conj H4 (conj H5 (conj H6 H7))))))))))).
    + destruct (enabled (scraping singleton)); reflexivity.
    + right. destruct Hsrc as [Hsrc|Hsrc]; [congruence|]. rewrite Hsrc. reflexivity.
Qed.

End ConstructionMore.

(** X8. [getApiKey] returns a key exactly when [hasApiKey] says there is
    one; the key is then the configured one and is not empty, and
    otherwise the call fails with the key-not-found error.  After
    [updateConfig] with a non-empty key, both see the new key. *)
Theorem X8_api_key_access (config : MapsConfig) :
  (hasApiKey config = true <-> exists k, getApiKey config = Returned k) /\
  (forall k, getApiKey config = Returned k ->
             googlePlacesApiKey config = Some k /\ Js.falsy k = false) /\
  (hasApiKey config = false -> getApiKey config = Threw api_key_not_found) /\
  (forall k scraping' useApi' pacing',
      Js.falsy k = false ->
      getApiKey (updateConfig config
                   (mkPartialMapsConfig (Some (Some k)) useApi' scraping' pacing'))
      = Returned k).
Proof.
  unfold hasApiKey, getApiKey, updateConfig, truthy.
  repeat split.
  - destruct (googlePlacesApiKey config) as [k|]; [|discriminate].
    destruct (Js.falsy k); [discriminate | eauto].
  - intros (k & H). destruct (googlePlacesApiKey config) as [k'|]; [|discriminate].
    destruct (Js.falsy k'); [discriminate | reflexivity].
  - destruct (googlePlacesApiKey config) as [k'|]; [|discriminate].
    destruct (Js.falsy k') eqn:Hk; [discriminate|]. congruence.
  - destruct (googlePlacesApiKey config) as [k'|]; [|discriminate].
    destruct (Js.falsy k') eqn:Hk; [discriminate|]. congruence.
  - destruct (googlePlacesApiKey config) as [k'|]; [|reflexivity].
    destruct (Js.falsy k'); [reflexivity | discriminate].
  - intros k sc ua pc Hk. cbn. rewrite Hk. reflexivity.
Qed.

(** ** The structured client *)

Lemma mapSearchResults_complete {E} (env : Env (E := E)) (l : list RawPlace) :
  Forall complete_result (mapSearchResults l).
Proof.
  unfold mapSearchResults. apply Forall_map, Forall_forall.
  intros p Hp. apply filter_In in Hp as [_ Hvalid].
  unfold isValidSearchResult in Hvalid.
  destruct (geometry_location p) as [loc|]; [|rewrite andb_false_r in Hvalid; discriminate].
  apply andb_true_iff in Hvalid as [Hvalid Hloc].
  apply andb_true_iff in Hvalid as [Hvalid Haddr].
  apply andb_true_iff in Hvalid as [Hid Hname].
  apply andb_true_iff in Hloc as [Hlat Hlng].
  unfold complete_result. cbn.
  repeat split; try assumption.
  - destruct (lat loc); [discriminate Hlat | discriminate | discriminate].
  - destruct (lng loc); [discriminate Hlng | discriminate | discriminate].
Qed.

Section StructuredClient.

Context {E : Type}.
Variable env : Env (E := E).
Variable denv : DetailsEnv (E := E).

Lemma outcome_bind_returned {A B} (m : M E A) (k : A -> M E B) w b :
  outcome (bind m k w) = Returned b ->
  exists a, outcome (m w) = Returned a /\
            outcome (k a (world (m w))) = Returned b.
Proof.
  rewrite outcome_bind. destruct (outcome (m w)) as [a|e]; [eauto | discriminate].
Qed.

(** The structured search returns complete entries only. *)
Lemma places_results_complete (pc : GooglePlacesClient)
    (query location : string) (w : World E) (found : list BusinessSearchResult) :
  outcome (places_searchBusinesses env pc query location w) = Returned found ->
  Forall complete_result found.
Proof.
  unfold places_searchBusinesses.
  destruct (Js.blank query); [discriminate|].
  destruct (Js.blank location); [discriminate|].
  intro H. apply outcome_bind_returned in H as (u & _ & H).
  rewrite outcome_try_catch, outcome_bind in H.
  destruct (outcome (call "axios.get" textsearch_url _ _)) as [data|e].
  - destruct (opt_eqb (status data) "REQUEST_DENIED"); [discriminate|].
    destruct (opt_eqb (status data) "ZERO_RESULTS");
      [inversion H; constructor|].
    destruct (opt_eqb (status data) "OK"); [|discriminate].
    cbn in H. inversion H. apply (mapSearchResults_complete env).
  - destruct (Js.isAxiosError e && status_is (Js.response_status e) 429);
      discriminate.
Qed.

(** X9. Every entry of a list the structured search returns carries an
    identifier, a name and an address that are not empty, and a latitude
    and a longitude that are not [undefined]: entries of the response that
    lack one of them never reach the caller.  The test on the coordinates
    is [!== undefined], so a coordinate that is [null] passes and is
    returned as [null]. *)
Theorem X9_structured_results_complete (pc : GooglePlacesClient)
    (query location : string) (w : World E) (found : list BusinessSearchResult) :
  outcome (places_searchBusinesses env pc query location w) = Returned found ->
  Forall complete_result found.
Proof. exact (places_results_complete pc query location w found). Qed.

(** A transport failure other than an axios 429 leaves the structured
    search as it came. *)
Lemma places_rethrows (pc : GooglePlacesClient) query location (w : World E)
    (error : Js.Error) :
  Js.blank query = false ->
  Js.blank location = false ->
  let waited :=
    call "rateLimiter.waitForNextRequest" ""
      (waitForNextRequest (pc_rateLimiter pc)) w in
  outcome waited = Returned tt ->
  outcome (axios_get_textsearch env (query ++ " in " ++ location) (apiKey pc)
             (world waited)) = Threw error ->
  Js.isAxiosError error && status_is (Js.response_status error) 429 = false ->
  outcome (places_searchBusinesses env pc query location w) = Threw error.
Proof.
  intros Hq Hl waited Hwait Hget Hnot. subst waited.
  unfold places_searchBusinesses. rewrite Hq, Hl.
  rewrite outcome_bind, Hwait.
  rewrite outcome_try_catch, outcome_bind, outcome_call, Hget, Hnot.
  reflexivity.
Qed.

(** X10. On the structured path of the orchestrator, a transport that
    fails every request with a retryable error other than an axios 429
    (a 503 or 504 response, a connection reset, a timeout) is tried
    [maxRetries + 1] times, with the backoff delays in between, before the
    failure leaves the path. *)
Theorem X10_structured_path_retries_transport (mc : MapsClient)
    (pc : GooglePlacesClient) (query location : string) (w : World E) :
  Js.blank query = false ->
  Js.blank location = false ->
  placesClient mc = Some pc ->
  0 <= maxRetries (rateLimiter mc) ->
  (forall w0, outcome (waitForNextRequest (pc_rateLimiter pc) w0) = Returned tt) ->
  (forall w0, exists error,
      outcome (axios_get_textsearch env (query ++ " in " ++ location)
                 (apiKey pc) w0) = Threw error /\
      isRetryableError error = true /\
      Js.isAxiosError error && status_is (Js.response_status error) 429 = false) ->
  let r := searchWithApi env mc query location w in
  invocations "operation" (trace r) = Z.to_nat (maxRetries (rateLimiter mc) + 1) /\
  delays_of (trace r) =
    map (fun k => backoffDelay (rateLimiter mc) (Z.of_nat k))
        (seq 0 (Z.to_nat (maxRetries (rateLimiter mc)))) /\
  exists error, outcome r = Threw error /\ isRetryableError error = true.
Proof.
  intros Hq Hl Hpc Hmax Hwait Hfail r. subst r.
  unfold searchWithApi. rewrite Hpc.
  set (operation := call "placesClient.searchBusinesses" query
                      (places_searchBusinesses env pc query location)).
  assert (Hop : forall w0, exists error,
             outcome (operation w0) = Threw error /\ isRetryableError error = true).
  { intro w0.
    destruct (Hfail (world (call "rateLimiter.waitForNextRequest" ""
                              (waitForNextRequest (pc_rateLimiter pc)) w0)))
      as (error & Hget & Hretry & Hnot).
    exists error. split; [|exact Hretry].
    unfold operation. rewrite outcome_call.
    apply places_rethrows; auto. rewrite outcome_call. apply Hwait. }
  destruct (retry_exhausted_shape (rateLimiter mc) operation Hop
              (Z.to_nat (maxRetries (rateLimiter mc))) 0 w)
    as (Hsk & Herr); [lia | f_equal; lia |].
  split; [|split; [|exact Herr]].
  - rewrite <- invocations_skeleton, Hsk, invocations_exhausted. lia.
  - rewrite <- delays_of_skeleton, Hsk, delays_of_exhausted. reflexivity.
Qed.


(** X12. The two details operations refuse a blank argument before doing
    anything: no rate-limiter wait, no request, no browser activity, and
    the world is as it was. *)
Theorem X12_details_blank_argument_fails_first (pc : GooglePlacesClient)
    (sc : GoogleMapsScraper) (argument : string) (w : World E) :
  Js.whitespace_only argument = true ->
  places_getBusinessDetails denv pc argument w
    = mkRun (Threw (Js.newError "Place ID is required")) w [] /\
  scraper_getBusinessDetails env denv sc argument w
    = mkRun (Threw (Js.newError "Business URL is required")) w [].
Proof.
  intro H. apply blank_whitespace_only in H.
  unfold places_getBusinessDetails, scraper_getBusinessDetails. rewrite H.
  split; reflexivity.
Qed.

End StructuredClient.

(** ** The scraper: pages and the browser session *)

Lemma invocations_none t :
  forallb not_page_close t = true -> invocations "page.close" t = 0%nat.
Proof.
  unfold invocations. induction t as [|e t IH]; [reflexivity|].
  cbn [forallb filter]. intro H. apply andb_true_iff in H as [He Ht].
  destruct e as [callee arg sub| |]; cbn in He |- *; auto.
  apply negb_true_iff in He. rewrite He. auto.
Qed.

Lemma closes_page_once t :
  closes_page_last t -> invocations "page.close" t = 1%nat.
Proof.
  intros (front & sub & -> & Hfront).
  rewrite invocations_app, (invocations_none _ Hfront). reflexivity.
Qed.

Section PageSessions.

Context {E : Type}.
Variable env : Env (E := E).
Variable denv : DetailsEnv (E := E).

Lemma quiet_bind {A B} (m : M E A) (k : A -> M E B) w :
  forallb not_page_close (trace (m w)) = true ->
  (forall a w', forallb not_page_close (trace (k a w')) = true) ->
  forallb not_page_close (trace (bind m k w)) = true.
Proof.
  intros Hm Hk. unfold bind. destruct (outcome (m w)); cbn [trace after]; auto.
  rewrite forallb_app, Hm, Hk. reflexivity.
Qed.

Lemma quiet_page_call page method arg w :
  String.eqb ("page." ++ method) "page.close" = false ->
  forallb not_page_close (trace (page_call env page method arg w)) = true.
Proof.
  intro H. unfold page_call. rewrite trace_call.
  cbn [forallb not_page_close]. rewrite H. reflexivity.
Qed.

Lemma quiet_setupPage sc page w :
  forallb not_page_close (trace (setupPage env sc page w)) = true.
Proof.
  unfold setupPage.
  repeat (apply quiet_bind; [apply quiet_page_call; reflexivity | intros _ ?]).
  apply quiet_page_call. reflexivity.
Qed.

Lemma quiet_launchBrowser sc w :
  forallb not_page_close (trace (launchBrowser env sc w)) = true.
Proof.
  unfold launchBrowser. apply quiet_bind; [reflexivity|].
  intros [b|] w'; [reflexivity|].
  apply quiet_bind; [reflexivity|]. intros b w''.
  apply quiet_bind; reflexivity.
Qed.

(** What [try { body } finally { await page.close() }] does last. *)
Lemma finally_closes {A} (body : M E A) page w :
  forallb not_page_close (trace (body w)) = true ->
  closes_page_last (trace (try_finally body (page_call env page "close" "") w)).
Proof.
  intro Hbody. unfold try_finally.
  set (closing := page_call env page "close" "" (world (body w))).
  assert (Hclosing : trace closing
                     = [EvCall "page.close" ""
                          (trace (page_method env page "close" "" (world (body w))))])
    by reflexivity.
  exists (trace (body w)), (trace (page_method env page "close" "" (world (body w)))).
  split; [|exact Hbody].
  destruct (outcome closing); cbn [trace]; rewrite Hclosing; reflexivity.
Qed.

Lemma session_closes {A} (sc : GoogleMapsScraper) (body : Page -> M E A) w :
  (forall page w', forallb not_page_close (trace (body page w')) = true) ->
  let r := bind (launchBrowser env sc)
             (fun b => bind (call "browser.newPage" "" (browser_newPage env b))
                         (fun page => try_finally (body page)
                                        (page_call env page "close" ""))) w in
  (forall b page,
      outcome (launchBrowser env sc w) = Returned b ->
      outcome (browser_newPage env b (world (launchBrowser env sc w)))
        = Returned page ->
      closes_page_last (trace r)) /\
  ((exists e, outcome (launchBrowser env sc w) = Threw e) \/
   (exists b e, outcome (launchBrowser env sc w) = Returned b /\
                outcome (browser_newPage env b (world (launchBrowser env sc w)))
                  = Threw e) ->
   invocations "page.close" (trace r) = 0%nat).
Proof.
  intros Hbody r. subst r. split.
  - intros b page Hlaunch Hpage.
    rewrite (bind_returned _ _ _ _ Hlaunch).
    assert (Hcall : outcome (call "browser.newPage" "" (browser_newPage env b)
                               (world (launchBrowser env sc w))) = Returned page)
      by (rewrite outcome_call; exact Hpage).
    rewrite (bind_returned _ _ _ _ Hcall). cbn [after trace].
    destruct (finally_closes (body page) page
                (world (call "browser.newPage" "" (browser_newPage env b)
                          (world (launchBrowser env sc w))))
                (Hbody _ _)) as (front & sub & -> & Hfront).
    exists (trace (launchBrowser env sc w)
            ++ trace (call "browser.newPage" "" (browser_newPage env b)
                        (world (launchBrowser env sc w)))
            ++ front)%list, sub.
    split; [rewrite <- !app_assoc; reflexivity|].
    rewrite !forallb_app, quiet_launchBrowser, Hfront. reflexivity.
  - intros [(e & Hlaunch) | (b & e & Hlaunch & Hpage)]; apply invocations_none.
    + rewrite (bind_threw _ _ _ _ Hlaunch). apply quiet_launchBrowser.
    + rewrite (bind_returned _ _ _ _ Hlaunch). cbn [after trace].
      rewrite forallb_app, quiet_launchBrowser.
      assert (Hcall : outcome (call "browser.newPage" "" (browser_newPage env b)
                                 (world (launchBrowser env sc w))) = Threw e)
        by (rewrite outcome_call; exact Hpage).
      rewrite (bind_threw _ _ _ _ Hcall). reflexivity.
Qed.

(** X13. A page the scraper has opened is closed: in a search and in a
    details fetch alike, once [browser.newPage] has returned, the call to
    [page.close] is made exactly once and is the last thing the operation
    does, whether navigation, waiting or extraction failed or not. *)
Theorem X13_opened_page_is_closed (sc : GoogleMapsScraper)
    (query location businessUrl : string) (w : World E) (b : Browser) (page : Page) :
  Js.blank businessUrl = false ->
  outcome (launchBrowser env sc w) = Returned b ->
  outcome (browser_newPage env b (world (launchBrowser env sc w))) = Returned page ->
  closes_page_last (trace (scrape env sc query location w)) /\
  invocations "page.close" (trace (scrape env sc query location w)) = 1%nat /\
  closes_page_last (trace (scraper_getBusinessDetails env denv sc businessUrl w)) /\
  invocations "page.close"
    (trace (scraper_getBusinessDetails env denv sc businessUrl w)) = 1%nat.
Proof.
  intros Hurl Hlaunch Hpage.
  assert (Hsearch : closes_page_last (trace (scrape env sc query location w))).
  { unfold scrape.
    refine (proj1 (session_closes sc
                     (fun page =>
                        setupPage env sc page ;;;
                        page_call env page "goto" (buildSearchUrl query location) ;;;
                        page_call env page "waitForSelector" results_selector ;;;
                        businesses <- call "page.evaluate" "" (page_evaluate env page) ;;
                        ret (mapScrapedResults env businesses)) w _) b page Hlaunch Hpage).
    intros p w'.
    apply quiet_bind; [apply quiet_setupPage | intros _ ?].
    apply quiet_bind; [apply quiet_page_call; reflexivity | intros _ ?].
    apply quiet_bind; [apply quiet_page_call; reflexivity | intros _ ?].
    apply quiet_bind; [reflexivity | intros ? ?; reflexivity]. }
  assert (Hdetails :
    closes_page_last (trace (scraper_getBusinessDetails env denv sc businessUrl w))).
  { unfold scraper_getBusinessDetails. rewrite Hurl.
    refine (proj1 (session_closes sc
                     (fun page =>
                        setupPage env sc page ;;;
                        page_call env page "goto" businessUrl ;;;
                        page_call env page "waitForSelector" name_selector ;;;
                        details <- call "page.evaluate" ""
                                     (page_evaluate_details denv page) ;;
                        match details with
                        | None => throw (Js.newError "Business details not found")
                        | Some d => ret (mapScrapedDetails env d)
                        end) w _) b page Hlaunch Hpage).
    intros p w'.
    apply quiet_bind; [apply quiet_setupPage | intros _ ?].
    apply quiet_bind; [apply quiet_page_call; reflexivity | intros _ ?].
    apply quiet_bind; [apply quiet_page_call; reflexivity | intros _ ?].
    apply quiet_bind; [reflexivity | intros [d|] ?; reflexivity]. }
  repeat split; try assumption; apply closes_page_once; assumption.
Qed.

(** X14. The browser session is created once: after a launch that
    succeeded the session is recorded, and launching again starts no
    browser and gives the same session; with a session recorded, a launch
    does nothing at all. *)
Theorem X14_browser_session_reused (sc : GoogleMapsScraper) (w : World E)
    (b : Browser) :
  outcome (launchBrowser env sc w) = Returned b ->
  let w' := world (launchBrowser env sc w) in
  browser w' = Some b /\
  launchBrowser env sc w' = mkRun (Returned b) w' [] /\
  (forall b0, browser w = Some b0 ->
              launchBrowser env sc w = mkRun (Returned b0) w []).
Proof.
  intros Hlaunch w'. subst w'.
  assert (Hreuse : forall w0 b0, browser w0 = Some b0 ->
                     launchBrowser env sc w0 = mkRun (Returned b0) w0 []).
  { intros w0 b0 H0. unfold launchBrowser, bind, getBrowser.
    cbn [outcome world trace]. rewrite H0. reflexivity. }
  assert (Hset : browser (world (launchBrowser env sc w)) = Some b).
  { revert Hlaunch. unfold launchBrowser, bind, getBrowser.
    cbn [outcome world trace].
    destruct (browser w) as [b0|] eqn:Hb.
    - cbn. intro H; inversion H; subst. exact Hb.
    - destruct (outcome (call "chromium.launch" "" _ w)) as [b1|e];
        cbn; [|discriminate].
      intro H; inversion H; subst. reflexivity. }
  split; [exact Hset|]. split; [apply Hreuse; exact Hset | apply Hreuse].
Qed.

(** X15. [cleanup] forgets the session it has closed: after a cleanup
    that succeeded no session is recorded, and a further cleanup does
    nothing; without a session, cleanup does nothing at all.  When
    [browser.close] fails, the failure reaches the caller. *)
Theorem X15_cleanup_is_idempotent (w : World E) :
  (outcome (scraper_cleanup denv w) = Returned tt ->
   let w' := world (scraper_cleanup denv w) in
   browser w' = None /\
   scraper_cleanup denv w' = mkRun (Returned tt) w' []) /\
  (browser w = None -> scraper_cleanup denv w = mkRun (Returned tt) w []) /\
  (forall b e, browser w = Some b ->
               outcome (browser_close denv b w) = Threw e ->
               outcome (scraper_cleanup denv w) = Threw e).
Proof.
  assert (Hnone : forall w0, browser w0 = None ->
                    scraper_cleanup denv w0 = mkRun (Returned tt) w0 []).
  { intros w0 H0. unfold scraper_cleanup, bind, getBrowser.
    cbn [outcome world trace]. rewrite H0. reflexivity. }
  split; [|split; [apply Hnone|]].
  - intros Hout w'. subst w'.
    assert (Hset : browser (world (scraper_cleanup denv w)) = None).
    { revert Hout. unfold scraper_cleanup, bind, getBrowser.
      cbn [outcome world trace].
      destruct (browser w) as [b|] eqn:Hb; [|cbn; intros _; exact Hb].
      destruct (outcome (call "browser.close" "" _ w)); cbn; [|discriminate].
      reflexivity. }
    split; [exact Hset | apply Hnone; exact Hset].
  - intros b e Hb Hclose. unfold scraper_cleanup.
    rewrite outcome_bind. cbn [getBrowser outcome world]. rewrite Hb.
    rewrite outcome_bind, outcome_call, Hclose. reflexivity.
Qed.

Lemma mapScrapedResults_usable (l : list RawScraped) :
  Forall usable_scraped (mapScrapedResults env l).
Proof.
  unfold mapScrapedResults. apply Forall_map, Forall_forall.
  intros p Hp. apply filter_In in Hp as [_ Hvalid].
  unfold isValidScrapedResult in Hvalid.
  apply andb_true_iff in Hvalid as [Hname Haddr].
  assert (Hopt : forall o, absent_or_filled (or_undefined o)).
  { intro o. unfold absent_or_filled, or_undefined.
    destruct (truthy o) eqn:Ho; auto. }
  repeat split; cbn; auto.
Qed.

Lemma outcome_try_finally_returned {A} (m : M E A) (f : M E unit) w a :
  outcome (try_finally m f w) = Returned a -> outcome (m w) = Returned a.
Proof.
  unfold try_finally. destruct (outcome (f (world (m w)))); cbn; [auto | discriminate].
Qed.

(** The scraper search returns usable entries only. *)
Lemma scraper_results_usable (sc : GoogleMapsScraper)
    (query location : string) (w : World E) (found : list ScrapedBusinessResult) :
  outcome (scraper_searchBusinesses env sc query location w) = Returned found ->
  Forall usable_scraped found.
Proof.
  unfold scraper_searchBusinesses.
  destruct (Js.blank query); [discriminate|].
  destruct (Js.blank location); [discriminate|].
  intro H. apply outcome_bind_returned in H as (u & _ & H).
  unfold scrape in H.
  apply outcome_bind_returned in H as (b & _ & H).
  apply outcome_bind_returned in H as (page & _ & H).
  apply outcome_try_finally_returned in H.
  apply outcome_bind_returned in H as (u1 & _ & H).
  apply outcome_bind_returned in H as (u2 & _ & H).
  apply outcome_bind_returned in H as (u3 & _ & H).
  apply outcome_bind_returned in H as (businesses & _ & H).
  cbn in H. inversion H. apply mapScrapedResults_usable.
Qed.

(** X16. Every entry of a list the scraper search returns has a name and
    an address that are not empty, and its phone, website and link are
    absent or not empty: the scraper hands on no empty string. *)
Theorem X16_scraped_results_usable (sc : GoogleMapsScraper)
    (query location : string) (w : World E) (found : list ScrapedBusinessResult) :
  outcome (scraper_searchBusinesses env sc query location w) = Returned found ->
  Forall usable_scraped found.
Proof. exact (scraper_results_usable sc query location w found). Qed.

End PageSessions.

(** ** The orchestrator: the other paths of a search *)

Lemma retry_returned {E T} (rl : ExponentialBackoffRateLimiter) (operation : M E T)
    (fuel : nat) :
  forall retryCount (w : World E) (a : T),
    fuel = Z.to_nat (maxRetries rl - retryCount) ->
    outcome (retryWithBackoff rl operation retryCount w) = Returned a ->
    exists w', outcome (operation w') = Returned a.
Proof.
  induction fuel as [|m IH]; intros retryCount w a Hm;
    rewrite retryWithBackoff_once; cbv zeta.
  - destruct (outcome (call "operation" "" operation w)) as [x|e] eqn:Hcall.
    + rewrite Hcall. intro H; inversion H; subst. exists w. exact Hcall.
    + destruct (Z.geb_spec retryCount (maxRetries rl)); [|lia].
      rewrite Hcall. discriminate.
  - destruct (outcome (call "operation" "" operation w)) as [x|e] eqn:Hcall.
    + rewrite Hcall. intro H; inversion H; subst. exists w. exact Hcall.
    + destruct (Z.geb_spec retryCount (maxRetries rl));
        [rewrite Hcall; discriminate|].
      destruct (isRetryableError e); [|rewrite Hcall; discriminate].
      cbn [after outcome]. apply IH. lia.
Qed.

Lemma Forall_slice0 {A} (P : A -> Prop) (l : list A) (n : Z) :
  Forall P l -> Forall P (Js.slice0 l n).
Proof.
  intro H. unfold Js.slice0.
  generalize (Z.to_nat (if n <? 0
                        then Z.max (Z.of_nat (List.length l) + n) 0
                        else Z.min n (Z.of_nat (List.length l)))).
  intro k. revert k. induction H as [|x l Hx Hl IH]; intros [|k]; cbn; auto.
Qed.

Section OrchestratorPaths.

Context {E : Type}.
Variable env : Env (E := E).
Variable mc : MapsClient (E := E).
Variables query location : string.
Variable options : SearchOptions.

Let limit : Z := nullish (maxResults options) 20.
Let prefer : bool := nullish (preferApi options) (useApiFirst (config mc)).

Hypothesis query_given : Js.blank query = false.
Hypothesis location_given : Js.blank location = false.

Lemma search_in_blocks (w : World E) :
  searchBusinesses env mc query location options w =
  bind (api_first env mc query location limit prefer)
       (fun early =>
          match early with
          | Some unifiedResults => ret unifiedResults
          | None => scraper_then_api env mc query location limit prefer
          end) w.
Proof.
  unfold searchBusinesses. rewrite query_given, location_given. reflexivity.
Qed.

(** When the first block does not apply, the search is its second block. *)
Lemma search_skips_api (w : World E) :
  prefer && defined (placesClient mc) = false ->
  searchBusinesses env mc query location options w
  = scraper_then_api env mc query location limit prefer w.
Proof.
  intro H. rewrite search_in_blocks. unfold api_first. rewrite H.
  unfold bind, ret. cbn. unfold after. cbn.
  destruct (scraper_then_api env mc query location limit prefer w). reflexivity.
Qed.

(** X17. With [preferApi] false and a scraping client, the scraping path
    runs first.  What it returns is returned, mapped and cut, also when it
    is the empty list, and the structured path is not invoked.  When it
    fails and a structured client exists, the structured path runs once as
    the last resort and its outcome, result or failure, is the outcome of
    the search; without a structured client the failure of the scraper is
    the failure of the search. *)
Theorem X17_scraper_first (sc : GoogleMapsScraper) (w : World E) :
  prefer = false ->
  scraperClient mc = Some sc ->
  let scraperRun := searchWithScraper env mc query location w in
  let apiRun := searchWithApi env mc query location (world scraperRun) in
  let r := searchBusinesses env mc query location options w in
  (forall found,
      outcome scraperRun = Returned found ->
      r = mkRun (Returned (Js.slice0 (mapScraperResults found) limit))
            (world scraperRun) (trace scraperRun)) /\
  (forall e pc,
      outcome scraperRun = Threw e ->
      placesClient mc = Some pc ->
      trace r = (trace scraperRun
                 ++ [EvWarn "Scraper search failed, falling back to API:"]
                 ++ trace apiRun)%list /\
      outcome r = match outcome apiRun with
                  | Returned apiResults =>
                      Returned (Js.slice0 (mapApiResults apiResults) limit)
                  | Threw e' => Threw e'
                  end) /\
  (forall e,
      outcome scraperRun = Threw e ->
      placesClient mc = None ->
      r = mkRun (Threw e) (world scraperRun) (trace scraperRun)).
Proof.
  intros Hprefer Hsc scraperRun apiRun r. subst r.
  rewrite search_skips_api by (rewrite Hprefer; reflexivity).
  unfold scraper_then_api. rewrite Hsc, Hprefer. cbn [defined negb andb].
  split; [|split].
  - intros found Hout.
    erewrite try_catch_returned;
      rewrite (bind_returned _ _ _ _ Hout); fold scraperRun;
      unfold after, ret; cbn -[Js.slice0]; rewrite ?app_nil_r; reflexivity.
  - intros e pc Hout Hpc. rewrite Hpc. cbn [defined].
    erewrite try_catch_threw by (rewrite (bind_threw _ _ _ _ Hout); reflexivity).
    rewrite (bind_threw _ _ _ _ Hout). fold scraperRun. cbn [world trace after outcome].
    subst apiRun. split.
    + unfold bind at 1. cbn [warn emit outcome world trace after].
      f_equal. cbn [app]. f_equal.
      destruct (outcome (searchWithApi env mc query location (world scraperRun)))
        as [apiResults|e'] eqn:Hapi.
      * rewrite (bind_returned _ _ _ _ Hapi). cbn -[Js.slice0].
        rewrite ?app_nil_r. reflexivity.
      * rewrite (bind_threw _ _ _ _ Hapi). reflexivity.
    + rewrite outcome_bind. cbn [warn emit outcome world].
      rewrite outcome_bind.
      destruct (outcome (searchWithApi env mc query location (world scraperRun)));
        reflexivity.
  - intros e Hout Hpc. rewrite Hpc. cbn [defined].
    erewrite try_catch_threw by (rewrite (bind_threw _ _ _ _ Hout); reflexivity).
    rewrite (bind_threw _ _ _ _ Hout). fold scraperRun.
    unfold after, throw. cbn. rewrite app_nil_r. reflexivity.
Qed.

(** After a structured path that failed or found nothing, the search is
    its second block. *)
Lemma search_after_api (pc : GooglePlacesClient) (w : World E) :
  prefer = true ->
  placesClient mc = Some pc ->
  let apiRun := searchWithApi env mc query location w in
  (outcome apiRun = Returned [] \/ exists e, outcome apiRun = Threw e) ->
  exists said,
    searchBusinesses env mc query location options w
    = after (trace apiRun ++ said)
        (scraper_then_api env mc query location limit true (world apiRun)) /\
    forallb (fun e => match e with EvWarn _ => true | _ => false end) said = true.
Proof.
  intros Hprefer Hpc apiRun Hapi.
  rewrite search_in_blocks. unfold api_first.
  rewrite Hprefer, Hpc. cbn [defined andb].
  destruct Hapi as [Hout | (e & Hout)].
  - exists []. split; [|reflexivity].
    unfold bind at 1, try_catch. rewrite (bind_returned _ _ _ _ Hout).
    fold apiRun. cbn. rewrite ?app_nil_r. reflexivity.
  - exists [EvWarn "API search failed, falling back to scraper:"].
    split; [|reflexivity].
    unfold bind at 1, try_catch. rewrite (bind_threw _ _ _ _ Hout).
    fold apiRun. cbn. rewrite ?app_nil_r. reflexivity.
Qed.

(** X18. With [preferApi] true, after a structured path that failed or
    found nothing, the scraping path decides: its results, mapped and cut,
    or its failure are the outcome of the search, and the structured path
    is not invoked a second time. *)
Theorem X18_no_second_structured_attempt (pc : GooglePlacesClient)
    (sc : GoogleMapsScraper) (w : World E) :
  prefer = true ->
  placesClient mc = Some pc ->
  scraperClient mc = Some sc ->
  let apiRun := searchWithApi env mc query location w in
  let scraperRun := searchWithScraper env mc query location (world apiRun) in
  let r := searchBusinesses env mc query location options w in
  (outcome apiRun = Returned [] \/ exists e, outcome apiRun = Threw e) ->
  outcome r = match outcome scraperRun with
              | Returned found =>
                  Returned (Js.slice0 (mapScraperResults found) limit)
              | Threw e => Threw e
              end /\
  world r = world scraperRun /\
  exists said,
    trace r = (trace apiRun ++ said ++ trace scraperRun)%list /\
    forallb (fun e => match e with EvWarn _ => true | _ => false end) said = true.
Proof.
  intros Hprefer Hpc Hsc apiRun scraperRun r Hapi. subst r.
  destruct (search_after_api pc w Hprefer Hpc Hapi) as (said & -> & Hsaid).
  fold apiRun.
  assert (Hblock :
    scraper_then_api env mc query location limit true (world apiRun)
    = mkRun (match outcome scraperRun with
             | Returned found => Returned (Js.slice0 (mapScraperResults found) limit)
             | Threw e => Threw e
             end) (world scraperRun) (trace scraperRun)).
  { unfold scraper_then_api. rewrite Hsc. cbn [defined negb andb].
    destruct (outcome scraperRun) as [found|e] eqn:Hout.
    - erewrite try_catch_returned;
        rewrite (bind_returned _ _ _ _ Hout); fold scraperRun;
        unfold after, ret; cbn -[Js.slice0]; rewrite ?app_nil_r; reflexivity.
    - erewrite try_catch_threw by (rewrite (bind_threw _ _ _ _ Hout); reflexivity).
      rewrite (bind_threw _ _ _ _ Hout). fold scraperRun.
      unfold after, throw. cbn. rewrite app_nil_r. reflexivity. }
  rewrite Hblock. cbn [after outcome world trace].
  split; [reflexivity|]. split; [reflexivity|].
  exists said. split; [rewrite app_assoc; reflexivity | exact Hsaid].
Qed.

(** X19. A client without scraper reports every failure of a search as
    "No search methods available": the failure of the structured source is
    not passed on, and an empty answer of the structured source is a
    failure too.  What such a client returns is the cut of an answer of the
    structured source that is not empty, and without structured client it
    fails without doing anything. *)
Theorem X19_scraperless_search (w : World E) :
  scraperClient mc = None ->
  let r := searchBusinesses env mc query location options w in
  (forall e, outcome r = Threw e -> e = no_search_methods) /\
  (forall found,
      outcome r = Returned found ->
      exists apiResults,
        apiResults <> [] /\
        outcome (searchWithApi env mc query location w) = Returned apiResults /\
        found = Js.slice0 (mapApiResults apiResults) limit) /\
  (outcome (searchWithApi env mc query location w) = Returned [] ->
   prefer = true -> defined (placesClient mc) = true ->
   outcome r = Threw no_search_methods) /\
  (placesClient mc = None -> r = mkRun (Threw no_search_methods) w []).
Proof.
  intros Hsc r. subst r.
  assert (Hblock : forall p w0,
             scraper_then_api env mc query location limit p w0
             = mkRun (Threw no_search_methods) w0 []).
  { intros p w0. unfold scraper_then_api. rewrite Hsc. reflexivity. }
  rewrite search_in_blocks, outcome_bind. unfold api_first.
  destruct (prefer && defined (placesClient mc)) eqn:Hfirst.
  - rewrite outcome_try_catch, outcome_bind.
    destruct (outcome (searchWithApi env mc query location w)) as [apiResults|e0] eqn:Hout.
    + destruct (mapApiResults apiResults) as [|u us] eqn:Hmap.
      * cbn. rewrite Hblock. cbn.
        split; [intros e H; inversion H; reflexivity|].
        split; [discriminate|]. split; [reflexivity|].
        intro Hpc. rewrite Hpc in Hfirst. rewrite andb_false_r in Hfirst. discriminate.
      * cbn -[Js.slice0].
        split; [discriminate|].
        split.
        -- intros found H. inversion H. exists apiResults.
           split; [intros ->; discriminate|]. rewrite Hmap. auto.
        -- split; [intro H; inversion H; subst; discriminate|].
           intro Hpc. rewrite Hpc in Hfirst. rewrite andb_false_r in Hfirst. discriminate.
    + rewrite outcome_bind. cbn. rewrite Hblock. cbn.
      split; [intros e H; inversion H; reflexivity|].
      split; [discriminate|]. split; [discriminate|].
      intro Hpc. rewrite Hpc in Hfirst. rewrite andb_false_r in Hfirst. discriminate.
  - cbn. rewrite Hblock. cbn.
    split; [intros e H; inversion H; reflexivity|].
    split; [discriminate|].
    split.
    + intros _ Hp Hd. rewrite Hp, Hd in Hfirst. discriminate.
    + intros _. unfold bind. cbn. rewrite ?Hblock. reflexivity.
Qed.

End OrchestratorPaths.

(** ** What a search returns *)

Section SearchResults.

Context {E : Type}.
Variable env : Env (E := E).
Variable mc : MapsClient (E := E).

Lemma api_results_well_formed (l : list BusinessSearchResult) :
  Forall complete_result l ->
  Forall (fun u => well_formed_result u /\ source u = api) (mapApiResults l).
Proof.
  intro H. unfold mapApiResults. apply Forall_map.
  eapply Forall_impl; [|exact H].
  intros r (Hid & Hname & Haddr & Hlat & Hlng).
  split; [|reflexivity]. unfold well_formed_result. cbn.
  repeat split; try assumption. eauto.
Qed.

Lemma scraper_results_well_formed (l : list ScrapedBusinessResult) :
  Forall usable_scraped l ->
  Forall (fun u => well_formed_result u /\ source u = scraper)
    (mapScraperResults l).
Proof.
  intro H. unfold mapScraperResults. apply Forall_map.
  eapply Forall_impl; [|exact H].
  intros r (Hname & Haddr & _).
  split; [|reflexivity]. unfold well_formed_result. cbn.
  repeat split; try assumption; discriminate.
Qed.

Lemma searchWithApi_complete query location (w : World E) apiResults :
  outcome (searchWithApi env mc query location w) = Returned apiResults ->
  Forall complete_result apiResults.
Proof.
  unfold searchWithApi. destruct (placesClient mc) as [pc|]; [|discriminate].
  intro H.
  apply (retry_returned _ _ _ 0 w apiResults eq_refl) in H as (w' & H).
  rewrite outcome_call in H.
  exact (places_results_complete env pc query location w' apiResults H).
Qed.

Lemma searchWithScraper_usable query location (w : World E) found :
  outcome (searchWithScraper env mc query location w) = Returned found ->
  Forall usable_scraped found.
Proof.
  unfold searchWithScraper. destruct (scraperClient mc) as [sc|]; [|discriminate].
  intro H.
  apply (retry_returned _ _ _ 0 w found eq_refl) in H as (w' & H).
  rewrite outcome_call in H.
  exact (scraper_results_usable env sc query location w' found H).
Qed.

(** X20. Whatever the two sources answer, every entry of a list a search
    returns has a name and an address that are not empty; the entries of
    one list all come from the same source, and those of the structured
    source carry an identifier that is not empty and a location whose
    latitude and longitude are not [undefined] (they may be [null]). *)
Theorem X20_results_well_formed (query location : string)
    (options : SearchOptions) (w : World E) (found : list UnifiedBusinessResult) :
  outcome (searchBusinesses env mc query location options w) = Returned found ->
  Forall well_formed_result found /\
  (Forall (fun u => source u = api) found \/
   Forall (fun u => source u = scraper) found).
Proof.
  intro Hout.
  assert (Hone :
    Forall (fun u => well_formed_result u /\ source u = api) found \/
    Forall (fun u => well_formed_result u /\ source u = scraper) found).
  { revert Hout. unfold searchBusinesses.
    destruct (Js.blank query); [discriminate|].
    destruct (Js.blank location); [discriminate|].
    rewrite outcome_bind. unfold api_first.
    set (limit := nullish (maxResults options) 20).
    set (prefer := nullish (preferApi options) (useApiFirst (config mc))).
    assert (Hblock : forall w0,
      outcome (scraper_then_api env mc query location limit prefer w0)
        = Returned found ->
      Forall (fun u => well_formed_result u /\ source u = api) found \/
      Forall (fun u => well_formed_result u /\ source u = scraper) found).
    { intro w0. unfold scraper_then_api.
      destruct (defined (scraperClient mc)); [|discriminate].
      rewrite outcome_try_catch, outcome_bind.
      destruct (outcome (searchWithScraper env mc query location w0))
        as [scraped|e] eqn:Hscraper.
      - cbn -[Js.slice0]. intro H; inversion H. right.
        apply Forall_slice0, scraper_results_well_formed.
        exact (searchWithScraper_usable _ _ _ _ Hscraper).
      - destruct (negb prefer && defined (placesClient mc)); [|discriminate].
        rewrite outcome_bind. cbn [warn emit outcome world].
        rewrite outcome_bind.
        destruct (outcome (searchWithApi env mc query location _))
          as [apiResults|e'] eqn:Hapi; [|discriminate].
        cbn -[Js.slice0]. intro H; inversion H. left.
        apply Forall_slice0, api_results_well_formed.
        exact (searchWithApi_complete _ _ _ _ Hapi). }
    destruct (prefer && defined (placesClient mc)).
    - rewrite outcome_try_catch, outcome_bind.
      destruct (outcome (searchWithApi env mc query location w))
        as [apiResults|e] eqn:Hapi.
      + destruct (0 <? _).
        * cbn -[Js.slice0]. intro H; inversion H. left.
          apply Forall_slice0, api_results_well_formed.
          exact (searchWithApi_complete _ _ _ _ Hapi).
        * cbn [ret outcome world]. apply Hblock.
      + rewrite outcome_bind. cbn [warn emit ret outcome world]. apply Hblock.
    - cbn [ret outcome world]. apply Hblock. }
  split.
  - destruct Hone as [H|H]; eapply Forall_impl; try exact H; intros u [Hu _]; exact Hu.
  - destruct Hone as [H|H]; [left | right];
      eapply Forall_impl; try exact H; intros u [_ Hu]; exact Hu.
Qed.

End SearchResults.

(** ** The details of a business *)

Section DetailsPaths.

Context {E : Type}.
Variable env : Env (E := E).
Variable denv : DetailsEnv (E := E).
Variable mc : MapsClient (E := E).
Variable businessId : string.
Variable businessUrl : option string.

(** X21. [getBusinessDetails] with a structured client and an identifier
    that is not empty asks the structured client first.  Its answer is
    returned, tagged [api], and the scraper is not touched.  When it fails
    the failure is dropped: with a URL and a scraper the scraper decides,
    and otherwise the caller gets "Unable to fetch business details", not
    the failure of the structured source. *)
Theorem X21_details_structured_first (pc : GooglePlacesClient) (w : World E) :
  placesClient mc = Some pc ->
  Js.falsy businessId = false ->
  let apiRun := call "placesClient.getBusinessDetails" businessId
                  (places_getBusinessDetails denv pc businessId) w in
  let r := getBusinessDetails env denv mc businessId businessUrl w in
  (forall details,
      outcome apiRun = Returned details ->
      r = mkRun (Returned (mapApiDetails details)) (world apiRun) (trace apiRun) /\
      ud_source (mapApiDetails details) = api) /\
  (forall e,
      outcome apiRun = Threw e ->
      r = after (trace apiRun ++ [EvWarn "API details fetch failed, trying scraper:"])
            (details_scraper env denv mc businessUrl (world apiRun))) /\
  (forall e,
      outcome apiRun = Threw e ->
      truthy businessUrl = false \/ scraperClient mc = None ->
      outcome r = Threw unable_to_fetch).
Proof.
  intros Hpc Hid apiRun r. subst r.
  assert (Hfail : forall e,
      outcome apiRun = Threw e ->
      getBusinessDetails env denv mc businessId businessUrl w
      = after (trace apiRun ++ [EvWarn "API details fetch failed, trying scraper:"])
          (details_scraper env denv mc businessUrl (world apiRun))).
  { intros e Hout. unfold getBusinessDetails, details_api_first.
    rewrite Hpc, Hid. cbn [negb].
    unfold bind at 1, try_catch. rewrite (bind_threw _ _ _ _ Hout).
    fold apiRun. cbn. rewrite ?app_nil_r. reflexivity. }
  split; [|split].
  - intros details Hout. split; [|reflexivity].
    unfold getBusinessDetails, details_api_first.
    rewrite Hpc, Hid. cbn [negb].
    unfold bind at 1, try_catch. rewrite (bind_returned _ _ _ _ Hout).
    fold apiRun. unfold after, ret. cbn. rewrite ?app_nil_r. reflexivity.
  - exact Hfail.
  - intros e Hout Hno. rewrite (Hfail e Hout). cbn [after outcome].
    unfold details_scraper.
    destruct (scraperClient mc) as [sc|]; [|reflexivity].
    destruct Hno as [Hno|Hno]; [rewrite Hno; reflexivity | discriminate].
Qed.

Let api_event : Event := EvCall "placesClient.getBusinessDetails" businessId [].
Let scraper_event : Event :=
  EvCall "scraper.getBusinessDetails" (Js.display businessUrl) [].
Let api_warning : Event := EvWarn "API details fetch failed, trying scraper:".
Let scraper_warning : Event := EvWarn "Scraper details fetch failed:".

Lemma trace_bind {A B} (m : M E A) (k : A -> M E B) w :
  trace (bind m k w) =
  (trace (m w) ++ match outcome (m w) with
                  | Returned a => trace (k a (world (m w)))
                  | Threw _ => []
                  end)%list.
Proof.
  unfold bind. destruct (outcome (m w)); cbn [after trace].
  - reflexivity.
  - rewrite app_nil_r. reflexivity.
Qed.

(** [try { const x = await callee(arg); return f(x) } catch (e) { h e }] *)
Lemma guarded_call_trace {A B} callee arg (m : M E A) (f : A -> B) h w :
  trace (try_catch (x <- call callee arg m ;; ret (f x)) h w) =
  (EvCall callee arg (trace (m w)) ::
   match outcome (m w) with
   | Returned _ => []
   | Threw e => trace (h e (world (m w)))
   end)%list.
Proof.
  unfold try_catch, bind, call. cbn [outcome world trace].
  destruct (outcome (m w)); reflexivity.
Qed.

Lemma guarded_call_outcome {A B} callee arg (m : M E A) (f : A -> B) h w :
  outcome (try_catch (x <- call callee arg m ;; ret (f x)) h w) =
  match outcome (m w) with
  | Returned x => Returned (f x)
  | Threw e => outcome (h e (world (m w)))
  end.
Proof.
  unfold try_catch, bind, call. cbn [outcome world trace].
  destruct (outcome (m w)); reflexivity.
Qed.

Lemma details_scraper_shape (w : World E) :
  In (skeleton (trace (details_scraper env denv mc businessUrl w)))
     [[]; [scraper_event]; [scraper_event; scraper_warning]].
Proof.
  unfold details_scraper.
  destruct (scraperClient mc) as [sc|]; [|left; reflexivity].
  destruct (truthy businessUrl); [|left; reflexivity].
  rewrite guarded_call_trace.
  destruct (outcome _); [right; left | right; right; left]; reflexivity.
Qed.

Lemma details_api_first_shape (w : World E) :
  let r := details_api_first denv mc businessId w in
  (outcome r = Returned None /\
   (skeleton (trace r) = [] \/ skeleton (trace r) = [api_event; api_warning])) \/
  (exists d, outcome r = Returned (Some d) /\ skeleton (trace r) = [api_event]).
Proof.
  intro r. subst r. unfold details_api_first.
  destruct (placesClient mc) as [pc|]; [|left; split; [|left]; reflexivity].
  destruct (Js.falsy businessId); cbn [negb];
    [left; split; [|left]; reflexivity|].
  rewrite guarded_call_trace, guarded_call_outcome.
  destruct (outcome _) as [d|e].
  - right. eexists. split; reflexivity.
  - left. split; [|right]; reflexivity.
Qed.

Lemma details_shape (w : World E) :
  In (skeleton (trace (getBusinessDetails env denv mc businessId businessUrl w)))
     [[]; [scraper_event]; [scraper_event; scraper_warning];
      [api_event];
      [api_event; api_warning];
      [api_event; api_warning; scraper_event];
      [api_event; api_warning; scraper_event; scraper_warning]].
Proof.
  unfold getBusinessDetails. rewrite trace_bind, skeleton_app.
  destruct (details_api_first_shape w) as [[Hout Hskel] | (d & Hout & Hskel)];
    cbv zeta in *; rewrite Hout.
  - match goal with
    | |- context [details_scraper env denv mc businessUrl ?w0] =>
        destruct (details_scraper_shape w0) as [H | [H | [H | []]]]
    end; rewrite <- H; destruct Hskel as [-> | ->]; cbn; auto 10.
  - rewrite Hskel. cbn. auto 10.
Qed.

(** X22. A details fetch is never retried and never paced by a backoff
    delay: whatever the sources do, the orchestrator calls each of them at
    most once and waits for nothing.  Without an identifier and without a
    URL it fails with "Unable to fetch business details" and does
    nothing. *)
Theorem X22_details_not_retried (w : World E) :
  let r := getBusinessDetails env denv mc businessId businessUrl w in
  (invocations "placesClient.getBusinessDetails" (trace r) <= 1)%nat /\
  (invocations "scraper.getBusinessDetails" (trace r) <= 1)%nat /\
  invocations "operation" (trace r) = 0%nat /\
  delays_of (trace r) = [] /\
  (Js.falsy businessId = true -> truthy businessUrl = false ->
   r = mkRun (Threw unable_to_fetch) w []).
Proof.
  intro r. subst r.
  rewrite <- !(invocations_skeleton _ (trace _)), <- delays_of_skeleton.
  split; [|split; [|split; [|split]]];
    try (destruct (details_shape w) as [H | [H | [H | [H | [H | [H | [H | []]]]]]]];
         rewrite <- H; cbn; lia || reflexivity).
  intros Hid Hurl.
  unfold getBusinessDetails, details_api_first, details_scraper.
  rewrite Hid, Hurl.
  destruct (placesClient mc), (scraperClient mc); reflexivity.
Qed.

End DetailsPaths.

(** ** The pacing queue, further *)

Lemma pacing_idle_step a s s' :
  (Pacing.processing s = false -> Pacing.requestQueue s = []) ->
  Pacing.step a s = Some s' ->
  Pacing.processing s' = false -> Pacing.requestQueue s' = [].
Proof.
  intros Hidle Hstep.
  destruct a as [caller now|]; cbn in Hstep.
  - injection Hstep as <-.
    unfold Pacing.waitForNextRequest. cbn.
    destruct (Pacing.processing s) eqn:Hp; cbn.
    + discriminate.
    + rewrite (Hidle eq_refl). cbn. discriminate.
  - destruct (Pacing.suspended s); [discriminate|].
    injection Hstep as <-.
    unfold Pacing.loop. cbn.
    destruct (Pacing.requestQueue s); cbn; [reflexivity|].
    intro Hp. discriminate (Hidle Hp).
Qed.

Lemma pacing_idle_run schedule :
  forall s s',
    (Pacing.processing s = false -> Pacing.requestQueue s = []) ->
    Pacing.run schedule s = Some s' ->
    Pacing.processing s' = false -> Pacing.requestQueue s' = [].
Proof.
  induction schedule as [|a rest IH]; intros s s' Hidle Hrun; cbn in Hrun.
  - injection Hrun as <-. exact Hidle.
  - destruct (Pacing.step a s) as [s1|] eqn:Hstep; [|discriminate].
    apply (IH s1 s'); [|exact Hrun].
    exact (pacing_idle_step a s s1 Hidle Hstep).
Qed.

Lemma pacing_drain (q : list Pacing.QueueEntry) :
  forall rel,
    Pacing.run (timer_fires (S (List.length q)))
      (Pacing.mkState q true rel 1) =
    Some (Pacing.mkState [] false (rel ++ map Pacing.resolve q) 0).
Proof.
  induction q as [|request rest IH]; intro rel.
  - cbn. rewrite app_nil_r. reflexivity.
  - change (timer_fires (S (List.length (request :: rest))))
      with (Pacing.TimerFires :: timer_fires (S (List.length rest))).
    cbn [Pacing.run Pacing.step Pacing.suspended Pacing.loop Pacing.requestQueue
         Pacing.processing Pacing.released].
    rewrite IH. cbn [map]. rewrite <- app_assoc. reflexivity.
Qed.

(** X23. A caller that enters while the limiter is idle is released in the
    same step, without waiting for an interval, and starts the one
    activation of [processQueue]; a caller that enters while the limiter is
    busy is put at the end of the queue and nobody is released. *)
Theorem X23_entering_caller (schedule : list Pacing.Action) (s : Pacing.State)
    (caller : Pacing.Caller) (now : Z) :
  Pacing.run schedule Pacing.initial = Some s ->
  let s' := Pacing.waitForNextRequest caller now s in
  (Pacing.processing s = false ->
   Pacing.released s' = (Pacing.released s ++ [caller])%list /\
   Pacing.requestQueue s' = [] /\
   Pacing.processing s' = true /\
   Pacing.suspended s' = 1%nat) /\
  (Pacing.processing s = true ->
   Pacing.released s' = Pacing.released s /\
   Pacing.waiting s' = (Pacing.waiting s ++ [caller])%list /\
   Pacing.processing s' = true /\
   Pacing.suspended s' = 1%nat).
Proof.
  intros Hrun s'. subst s'.
  destruct (pacing_invariant_run schedule [] _ _ pacing_invariant_initial Hrun)
    as [_ Hdrain].
  assert (Hidle := pacing_idle_run schedule Pacing.initial s
                     (fun _ => eq_refl) Hrun).
  unfold Pacing.waitForNextRequest, Pacing.waiting. cbn.
  split; intro Hp; rewrite Hp in *; cbn.
  - rewrite (Hidle eq_refl). cbn. rewrite Hdrain. auto.
  - rewrite map_app. cbn. auto.
Qed.

(** X24. A busy limiter drains: when the timer fires once for every queued
    caller and once more, every queued caller has been released, in queue
    order and after the callers released before; the queue is empty, the
    [processing] flag is down, and no activation of [processQueue] is left
    for a further timer. *)
Theorem X24_queue_drains (schedule : list Pacing.Action) (s : Pacing.State) :
  Pacing.run schedule Pacing.initial = Some s ->
  Pacing.processing s = true ->
  exists s',
    Pacing.run (timer_fires (S (List.length (Pacing.requestQueue s)))) s = Some s' /\
    Pacing.released s' = (Pacing.released s ++ Pacing.waiting s)%list /\
    Pacing.requestQueue s' = [] /\
    Pacing.processing s' = false /\
    Pacing.step Pacing.TimerFires s' = None.
Proof.
  intros Hrun Hp.
  destruct (pacing_invariant_run schedule [] _ _ pacing_invariant_initial Hrun)
    as [_ Hdrain].
  rewrite Hp in Hdrain.
  destruct s as [q p rel n]. cbn in *. subst p n.
  eexists. split; [apply pacing_drain|].
  cbn. auto.
Qed.

(** X25. What [getQueueStatus] reports after any schedule: the queue length
    is the number of callers that entered less the number released, an idle
    limiter reports an empty queue, and the rate is the configured one. *)
Theorem X25_queue_status (schedule : list Pacing.Action) (s : Pacing.State)
    (requestsPerSecond : Z) :
  Pacing.run schedule Pacing.initial = Some s ->
  let status := Pacing.getQueueStatus requestsPerSecond s in
  let queueLength := fst (fst status) in
  (queueLength + List.length (Pacing.released s) =
   List.length (Pacing.entered schedule))%nat /\
  (snd (fst status) = false -> queueLength = 0%nat) /\
  snd status = requestsPerSecond.
Proof.
  intros Hrun status queueLength. subst status queueLength.
  destruct (pacing_invariant_run schedule [] _ _ pacing_invariant_initial Hrun)
    as [Hfifo _].
  assert (Hidle := pacing_idle_run schedule Pacing.initial s
                     (fun _ => eq_refl) Hrun).
  cbn in *.
  split; [|split; [|reflexivity]].
  - rewrite <- Hfifo, length_app. unfold Pacing.waiting.
    rewrite length_map. lia.
  - intro Hp. rewrite (Hidle Hp). reflexivity.
Qed.

(** ** The search URL *)

Lemma hex_digit_unreserved n : (n < 16)%nat -> is_unreserved (hex_digit n) = true.
Proof.
  intro H.
  do 16 (destruct n as [|n]; [reflexivity|]). lia.
Qed.

Lemma percent_byte_safe (p : ascii -> bool) n r :
  (forall c, is_unreserved c = true -> p c = true) ->
  p "%"%char = true ->
  (n < 256)%nat ->
  all_chars p (percent_byte n r) = all_chars p r.
Proof.
  intros Hun Hpct Hn. unfold percent_byte. cbn [all_chars].
  rewrite Hpct, !Hun; [reflexivity | |].
  - apply hex_digit_unreserved. apply Nat.mod_upper_bound. lia.
  - apply hex_digit_unreserved. apply Nat.Div0.div_lt_upper_bound. lia.
Qed.

Lemma encodeURIComponent_safe (p : ascii -> bool) s :
  (forall c, is_unreserved c = true -> p c = true) ->
  p "%"%char = true ->
  all_chars p (encodeURIComponent s) = true.
Proof.
  intros Hun Hpct.
  induction s as [|c r IH]; [reflexivity|].
  cbn [encodeURIComponent].
  assert (Hc := nat_ascii_bounded c).
  destruct (is_unreserved c) eqn:Hc0.
  - cbn [all_chars]. rewrite (Hun c Hc0), IH. reflexivity.
  - destruct (nat_of_ascii c <? 128)%nat eqn:Hlow.
    + rewrite percent_byte_safe by (auto; lia). exact IH.
    + assert (nat_of_ascii c / 64 < 4)%nat
        by (apply Nat.Div0.div_lt_upper_bound; lia).
      assert (nat_of_ascii c mod 64 < 64)%nat
        by (apply Nat.mod_upper_bound; lia).
      rewrite !percent_byte_safe by (auto; lia). exact IH.
Qed.

Lemma replace_pct20_cases c r :
  (c = "%"%char /\
   exists r', r = String "2" (String "0" r') /\
              replace_pct20 (String c r) = String "+" (replace_pct20 r')) \/
  replace_pct20 (String c r) = String c (replace_pct20 r).
Proof.
  destruct (Ascii.eqb_spec c "%") as [-> | Hc].
  - destruct r as [|c1 r1]; [right; reflexivity|].
    destruct (Ascii.eqb_spec c1 "2") as [-> | Hc1].
    + destruct r1 as [|c2 r2]; [right; reflexivity|].
      destruct (Ascii.eqb_spec c2 "0") as [-> | Hc2].
      * left. split; [reflexivity|]. eexists. split; reflexivity.
      * right.
        destruct c2 as [[] [] [] [] [] [] [] []]; try reflexivity; congruence.
    + right.
      destruct c1 as [[] [] [] [] [] [] [] []]; try reflexivity; congruence.
  - right.
    destruct c as [[] [] [] [] [] [] [] []]; try reflexivity; congruence.
Qed.

Lemma replace_pct20_safe (p q : ascii -> bool) s :
  (forall c, p c = true -> q c = true) ->
  q "+"%char = true ->
  all_chars p s = true ->
  all_chars q (replace_pct20 s) = true.
Proof.
  intros Hpq Hplus.
  induction s as [|c r IH]; [reflexivity|].
  cbn [all_chars]. intro H. apply andb_prop in H as [Hc Hr].
  specialize (IH Hr).
  destruct (replace_pct20_cases c r) as [(-> & r' & -> & ->) | ->].
  - cbn in IH. cbn [all_chars]. rewrite Hplus.
    apply andb_prop in IH as [_ IH]. apply andb_prop in IH as [_ IH].
    exact IH.
  - cbn [all_chars]. rewrite (Hpq c Hc), IH. reflexivity.
Qed.

Lemma all_chars_includes_false (p : ascii -> bool) (c : ascii) s :
  p c = false -> all_chars p s = true ->
  Js.includes s (String c EmptyString) = false.
Proof.
  intros Hc.
  induction s as [|d r IH]; [reflexivity|].
  cbn [all_chars]. intro H. apply andb_prop in H as [Hd Hr].
  cbn [Js.includes String.prefix].
  destruct (Ascii.ascii_dec c d) as [-> | _]; [congruence|].
  exact (IH Hr).
Qed.

Lemma encode_plain_words (q rest : string) :
  all_chars is_unreserved q = true ->
  replace_pct20 (encodeURIComponent (q ++ rest)) =
  q ++ replace_pct20 (encodeURIComponent rest).
Proof.
  induction q as [|c r IH]; [reflexivity|].
  cbn [all_chars]. intro H. apply andb_prop in H as [Hc Hr].
  cbn [append encodeURIComponent]. rewrite Hc.
  destruct (replace_pct20_cases c (encodeURIComponent (r ++ rest)))
    as [(-> & _) | ->].
  - discriminate Hc.
  - rewrite (IH Hr). reflexivity.
Qed.

Lemma encode_plain_word (s : string) :
  all_chars is_unreserved s = true ->
  replace_pct20 (encodeURIComponent s) = s.
Proof.
  induction s as [|c r IH]; [reflexivity|].
  cbn [all_chars]. intro H. apply andb_prop in H as [Hc Hr].
  cbn [encodeURIComponent]. rewrite Hc.
  destruct (replace_pct20_cases c (encodeURIComponent r)) as [(-> & _) | ->].
  - discriminate Hc.
  - rewrite (IH Hr). reflexivity.
Qed.

(** X26. The address the scraper navigates to is the maps search prefix
    followed by a path of unreserved characters, [%] escapes and plus signs
    only: whatever the query and the location hold (strings of characters
    up to code 255, as the embedding has them), the path has no space, no
    slash, no question mark, no ampersand and no hash sign. *)
Theorem X26_search_url_is_safe (query location : string) :
  exists path,
    buildSearchUrl query location = "https://www.google.com/maps/search/" ++ path /\
    all_chars url_safe path = true /\
    Js.includes path " " = false /\
    Js.includes path "/" = false /\
    Js.includes path "?" = false /\
    Js.includes path "&" = false /\
    Js.includes path "#" = false.
Proof.
  exists (replace_pct20 (encodeURIComponent (query ++ " " ++ location))).
  assert (Hsafe : all_chars url_safe
            (replace_pct20 (encodeURIComponent (query ++ " " ++ location))) = true).
  { apply (replace_pct20_safe (fun c => is_unreserved c || Ascii.eqb c "%")).
    - intros c Hc. unfold url_safe. rewrite Hc. reflexivity.
    - reflexivity.
    - apply encodeURIComponent_safe.
      + intros c Hc. rewrite Hc. reflexivity.
      + reflexivity. }
  split; [reflexivity|].
  split; [exact Hsafe|].
  repeat split;
    (eapply all_chars_includes_false; [|exact Hsafe]); reflexivity.
Qed.

(** X27. For a query and a location of unreserved characters only, the
    address is the prefix, the query, a plus sign and the location: the
    space between the two is what becomes the plus sign. *)
Theorem X27_search_url_of_plain_words (query location : string) :
  all_chars is_unreserved query = true ->
  all_chars is_unreserved location = true ->
  buildSearchUrl query location =
  "https://www.google.com/maps/search/" ++ query ++ "+" ++ location.
Proof.
  intros Hq Hl. unfold buildSearchUrl. f_equal.
  rewrite (encode_plain_words query _ Hq). f_equal.
  change (" " ++ location) with (String " " location).
  cbn [encodeURIComponent].
  change (is_unreserved " ") with false. cbv iota.
  change (nat_of_ascii " " <? 128)%nat with true. cbv iota.
  change (percent_byte (nat_of_ascii " ") (encodeURIComponent location))
    with (String "%" (String "2" (String "0" (encodeURIComponent location)))).
  change (replace_pct20
            (String "%" (String "2" (String "0" (encodeURIComponent location)))))
    with (String "+" (replace_pct20 (encodeURIComponent location))).
  cbn [append]. f_equal.
  exact (encode_plain_word location Hl).
Qed.

(** ** The further properties at work *)

Lemma X2_witness :
  maxRetries capped_limiter * maxDelay capped_limiter = 15000 /\
  total_delay
    (trace (retryWithBackoff capped_limiter (always_rejects (axios_http_error 429)) 0
              fresh_world))
  <= maxRetries capped_limiter * maxDelay capped_limiter.
Proof.
  split; [reflexivity|].
  apply (X2_total_backoff_bounded capped_limiter
           (always_rejects (axios_http_error 429)) fresh_world); cbn; lia.
Defined.

Lemma X3_witness :
  isRetryableError (axios_http_error 429) = true /\
  invocations "operation"
    (trace (retryWithBackoff capped_limiter (always_rejects (axios_http_error 429)) 0
              fresh_world))
  = S (Z.to_nat (maxRetries capped_limiter)).
Proof.
  split; [reflexivity|].
  apply (X3_retryable_failure_means_exhausted capped_limiter
           (always_rejects (axios_http_error 429)) fresh_world (axios_http_error 429)).
  - vm_compute. reflexivity.
  - reflexivity.
Defined.

Lemma X4_witness :
  let r := retryWithBackoff capped_limiter (fails_first 2) 0 counting_world in
  outcome r = Returned "success" /\
  world r = world (fails_first 2 (world_of_attempt (fails_first 2) 2 counting_world)) /\
  invocations "operation" (trace r) = 3%nat /\
  skeleton (trace r) = exhausted_retries capped_limiter 0 2.
Proof.
  apply (X4_retry_recovers capped_limiter (fails_first 2) 2 counting_world "success").
  - cbn. lia.
  - intros i Hi. exists (axios_http_error 503).
    destruct i as [|[|i]]; [split; reflexivity | split; reflexivity | lia].
  - reflexivity.
Defined.

Lemma X5_witness :
  backoffDelay capped_limiter 0
    = Z.min (baseDelay capped_limiter) (maxDelay capped_limiter) /\
  backoffDelay capped_limiter 0 <= backoffDelay capped_limiter 1 /\
  backoffDelay capped_limiter 1 <= backoffDelay capped_limiter 3 /\
  backoffDelay capped_limiter 3 <= maxDelay capped_limiter.
Proof.
  apply (X5_backoff_delay_monotone capped_limiter 1 3); cbn; lia.
Defined.

Lemma X7_witness :
  well_configured test_config /\
  config test_client = test_config /\
  (defined (placesClient test_client) = truthy (googlePlacesApiKey test_config)) /\
  (defined (scraperClient test_client) = enabled (scraping test_config)) /\
  (defined (placesClient test_client) = true \/
   defined (scraperClient test_client) = true) /\
  requestsPerSecond (rateLimiter test_client)
    = rl_requestsPerSecond (rateLimiting test_config) /\
  baseDelay (rateLimiter test_client) = rl_baseDelay (rateLimiting test_config) /\
  maxDelay (rateLimiter test_client) = rl_maxDelay (rateLimiting test_config) /\
  backoffMultiplier (rateLimiter test_client)
    = rl_backoffMultiplier (rateLimiting test_config) /\
  maxRetries (rateLimiter test_client) =
    (if rl_maxRetries (rateLimiting test_config) =? 0 then 3
     else rl_maxRetries (rateLimiting test_config)) /\
  0 < requestsPerSecond (rateLimiter test_client) /\
  0 < maxRetries (rateLimiter test_client).
Proof.
  exact (X7_built_client_is_usable test_config test_client eq_refl).
Defined.

Lemma X8_witness :
  hasApiKey no_source_config = false /\
  getApiKey (updateConfig no_source_config key_override) = Returned "test-key".
Proof.
  split; [reflexivity|].
  exact (proj2 (proj2 (proj2 (X8_api_key_access no_source_config)))
           "test-key" None None None eq_refl).
Defined.

Lemma X9_witness :
  exists found,
    outcome (places_searchBusinesses mixed_places_env test_places_client
               "cleaning services" "Tampa, FL" fresh_world) = Returned found /\
    map bs_id found = [Some "place123"; Some "place456"] /\
    map (fun r => latitude (bs_location r)) found
      = [JsonNumberOf "27.9506"; JsonNull] /\
    Forall complete_result found.
Proof.
  eexists. split; [vm_compute; reflexivity|].
  split; [reflexivity|]. split; [reflexivity|].
  apply (X9_structured_results_complete mixed_places_env test_places_client
           "cleaning services" "Tampa, FL" fresh_world).
  vm_compute. reflexivity.
Defined.

Lemma X10_witness :
  let r := searchWithApi (http_status_env 503) test_client "cleaning services"
             "Tampa, FL" fresh_world in
  invocations "operation" (trace r)
    = Z.to_nat (maxRetries (rateLimiter test_client) + 1) /\
  delays_of (trace r) =
    map (fun k => backoffDelay (rateLimiter test_client) (Z.of_nat k))
        (seq 0 (Z.to_nat (maxRetries (rateLimiter test_client)))) /\
  exists error, outcome r = Threw error /\ isRetryableError error = true.
Proof.
  apply (X10_structured_path_retries_transport (http_status_env 503) test_client
           test_places_client "cleaning services" "Tampa, FL" fresh_world).
  - reflexivity.
  - reflexivity.
  - reflexivity.
  - cbn. lia.
  - intro w0. reflexivity.
  - intro w0. exists (axios_http_error 503). repeat split; reflexivity.
Defined.


Lemma X12_witness :
  places_getBusinessDetails details_env test_places_client "  " fresh_world
    = mkRun (Threw (Js.newError "Place ID is required")) fresh_world [] /\
  scraper_getBusinessDetails one_place_env details_env default_scraper "  " fresh_world
    = mkRun (Threw (Js.newError "Business URL is required")) fresh_world [].
Proof.
  exact (X12_details_blank_argument_fails_first one_place_env details_env
           test_places_client default_scraper "  " fresh_world eq_refl).
Defined.

Lemma X13_witness :
  let url := "https://maps.google.com/place/456" in
  closes_page_last
    (trace (scrape one_place_env default_scraper "cleaning services" "Tampa, FL"
              fresh_world)) /\
  invocations "page.close"
    (trace (scrape one_place_env default_scraper "cleaning services" "Tampa, FL"
              fresh_world)) = 1%nat /\
  closes_page_last
    (trace (scraper_getBusinessDetails one_place_env details_env default_scraper url
              fresh_world)) /\
  invocations "page.close"
    (trace (scraper_getBusinessDetails one_place_env details_env default_scraper url
              fresh_world)) = 1%nat.
Proof.
  exact (X13_opened_page_is_closed one_place_env details_env default_scraper
           "cleaning services" "Tampa, FL" "https://maps.google.com/place/456"
           fresh_world 1%nat 1%nat eq_refl eq_refl eq_refl).
Defined.

Lemma X14_witness :
  let w' := world (launchBrowser one_place_env default_scraper fresh_world) in
  browser w' = Some 1%nat /\
  launchBrowser one_place_env default_scraper w' = mkRun (Returned 1%nat) w' [] /\
  (forall b0, browser fresh_world = Some b0 ->
              launchBrowser one_place_env default_scraper fresh_world
              = mkRun (Returned b0) fresh_world []).
Proof.
  exact (X14_browser_session_reused one_place_env default_scraper fresh_world 1%nat
           eq_refl).
Defined.

Lemma X15_witness :
  let w' := world (scraper_cleanup details_env browsing_world) in
  browser browsing_world = Some 1%nat /\
  browser w' = None /\
  scraper_cleanup details_env w' = mkRun (Returned tt) w' [].
Proof.
  split; [reflexivity|].
  exact (proj1 (X15_cleanup_is_idempotent details_env browsing_world) eq_refl).
Defined.

Lemma X16_witness :
  exists found,
    outcome (scraper_searchBusinesses one_place_env default_scraper
               "cleaning services" "Tampa, FL" fresh_world) = Returned found /\
    found <> [] /\
    Forall usable_scraped found.
Proof.
  eexists. split; [vm_compute; reflexivity|]. split; [discriminate|].
  apply (X16_scraped_results_usable one_place_env default_scraper
           "cleaning services" "Tampa, FL" fresh_world).
  vm_compute. reflexivity.
Defined.

Lemma X17_witness :
  let options := mkSearchOptions None (Some false) in
  let scraperRun := searchWithScraper one_place_env test_client "cleaning services"
                      "Tampa, FL" fresh_world in
  let apiRun := searchWithApi one_place_env test_client "cleaning services"
                  "Tampa, FL" (world scraperRun) in
  let r := searchBusinesses one_place_env test_client "cleaning services"
             "Tampa, FL" options fresh_world in
  (forall found,
      outcome scraperRun = Returned found ->
      r = mkRun (Returned (Js.slice0 (mapScraperResults found) 20))
            (world scraperRun) (trace scraperRun)) /\
  (forall e pc,
      outcome scraperRun = Threw e ->
      placesClient test_client = Some pc ->
      trace r = (trace scraperRun
                 ++ [EvWarn "Scraper search failed, falling back to API:"]
                 ++ trace apiRun)%list /\
      outcome r = match outcome apiRun with
                  | Returned apiResults =>
                      Returned (Js.slice0 (mapApiResults apiResults) 20)
                  | Threw e' => Threw e'
                  end) /\
  (forall e,
      outcome scraperRun = Threw e ->
      placesClient test_client = None ->
      r = mkRun (Threw e) (world scraperRun) (trace scraperRun)).
Proof.
  exact (X17_scraper_first one_place_env test_client "cleaning services" "Tampa, FL"
           (mkSearchOptions None (Some false)) eq_refl eq_refl
           test_scraper fresh_world eq_refl eq_refl).
Defined.

Lemma X18_witness :
  let options := mkSearchOptions None None in
  let apiRun := searchWithApi zero_results_env test_client "cleaning services"
                  "Tampa, FL" fresh_world in
  let scraperRun := searchWithScraper zero_results_env test_client
                      "cleaning services" "Tampa, FL" (world apiRun) in
  let r := searchBusinesses zero_results_env test_client "cleaning services"
             "Tampa, FL" options fresh_world in
  outcome apiRun = Returned [] /\
  outcome r = match outcome scraperRun with
              | Returned found =>
                  Returned (Js.slice0 (mapScraperResults found) 20)
              | Threw e => Threw e
              end /\
  world r = world scraperRun /\
  exists said,
    trace r = (trace apiRun ++ said ++ trace scraperRun)%list /\
    forallb (fun e => match e with EvWarn _ => true | _ => false end) said = true.
Proof.
  assert (Hempty : outcome (searchWithApi zero_results_env test_client
                              "cleaning services" "Tampa, FL" fresh_world)
                   = Returned []) by (vm_compute; reflexivity).
  split; [exact Hempty|].
  exact (X18_no_second_structured_attempt zero_results_env test_client
           "cleaning services" "Tampa, FL" (mkSearchOptions None None)
           eq_refl eq_refl test_places_client test_scraper fresh_world
           eq_refl eq_refl eq_refl (or_introl Hempty)).
Defined.

Lemma X19_witness :
  let options := mkSearchOptions None None in
  let r := searchBusinesses zero_results_env api_only_client "cleaning services"
             "Tampa, FL" options fresh_world in
  (forall e, outcome r = Threw e -> e = no_search_methods) /\
  (forall found,
      outcome r = Returned found ->
      exists apiResults,
        apiResults <> [] /\
        outcome (searchWithApi zero_results_env api_only_client "cleaning services"
                   "Tampa, FL" fresh_world) = Returned apiResults /\
        found = Js.slice0 (mapApiResults apiResults) 20) /\
  (outcome (searchWithApi zero_results_env api_only_client "cleaning services"
              "Tampa, FL" fresh_world) = Returned [] ->
   nullish (preferApi options) (useApiFirst (config api_only_client)) = true ->
   defined (placesClient api_only_client) = true ->
   outcome r = Threw no_search_methods) /\
  (placesClient api_only_client = None ->
   r = mkRun (Threw no_search_methods) fresh_world []).
Proof.
  exact (X19_scraperless_search zero_results_env api_only_client "cleaning services"
           "Tampa, FL" (mkSearchOptions None None) eq_refl eq_refl fresh_world
           eq_refl).
Defined.

Lemma X20_witness :
  exists found,
    outcome (searchBusinesses mixed_places_env test_client "cleaning services"
               "Tampa, FL" (mkSearchOptions None None) fresh_world)
    = Returned found /\
    map id found = [Some "place123"; Some "place456"] /\
    map (fun u => option_map latitude (location u)) found
      = [Some (JsonNumberOf "27.9506"); Some JsonNull] /\
    Forall well_formed_result found /\
    (Forall (fun u => source u = api) found \/
     Forall (fun u => source u = scraper) found).
Proof.
  eexists. split; [vm_compute; reflexivity|].
  split; [reflexivity|]. split; [reflexivity|].
  apply (X20_results_well_formed mixed_places_env test_client "cleaning services"
           "Tampa, FL" (mkSearchOptions None None) fresh_world).
  vm_compute. reflexivity.
Defined.

Lemma X21_witness :
  let apiRun := call "placesClient.getBusinessDetails" "place123"
                  (places_getBusinessDetails details_env test_places_client
                     "place123") fresh_world in
  let r := getBusinessDetails one_place_env details_env test_client "place123" None
             fresh_world in
  (forall details,
      outcome apiRun = Returned details ->
      r = mkRun (Returned (mapApiDetails details)) (world apiRun) (trace apiRun) /\
      ud_source (mapApiDetails details) = api) /\
  (forall e,
      outcome apiRun = Threw e ->
      r = after (trace apiRun ++ [EvWarn "API details fetch failed, trying scraper:"])
            (details_scraper one_place_env details_env test_client None
               (world apiRun))) /\
  (forall e,
      outcome apiRun = Threw e ->
      truthy (@None string) = false \/ scraperClient test_client = None ->
      outcome r = Threw unable_to_fetch).
Proof.
  exact (X21_details_structured_first one_place_env details_env test_client
           "place123" None test_places_client fresh_world eq_refl eq_refl).
Defined.

Lemma X22_witness :
  Js.falsy "" = true /\
  getBusinessDetails one_place_env details_env test_client "" None fresh_world
  = mkRun (Threw unable_to_fetch) fresh_world [].
Proof.
  split; [reflexivity|].
  exact (proj2 (proj2 (proj2 (proj2
           (X22_details_not_retried one_place_env details_env test_client "" None
              fresh_world)))) eq_refl eq_refl).
Defined.

Lemma X23_witness :
  Pacing.run three_enter Pacing.initial = Some busy /\
  let s' := Pacing.waitForNextRequest 3%nat 0 busy in
  (Pacing.processing busy = false ->
   Pacing.released s' = (Pacing.released busy ++ [3%nat])%list /\
   Pacing.requestQueue s' = [] /\
   Pacing.processing s' = true /\
   Pacing.suspended s' = 1%nat) /\
  (Pacing.processing busy = true ->
   Pacing.released s' = Pacing.released busy /\
   Pacing.waiting s' = (Pacing.waiting busy ++ [3%nat])%list /\
   Pacing.processing s' = true /\
   Pacing.suspended s' = 1%nat).
Proof.
  split; [reflexivity|].
  exact (X23_entering_caller three_enter busy 3%nat 0 eq_refl).
Defined.

Lemma X24_witness :
  exists s',
    Pacing.run (timer_fires 3) busy = Some s' /\
    Pacing.released s' = [0; 1; 2]%nat /\
    Pacing.requestQueue s' = [] /\
    Pacing.processing s' = false /\
    Pacing.step Pacing.TimerFires s' = None.
Proof.
  exact (X24_queue_drains three_enter busy eq_refl eq_refl).
Defined.

Lemma X25_witness :
  let status := Pacing.getQueueStatus 10 busy in
  (fst (fst status) + List.length (Pacing.released busy) =
   List.length (Pacing.entered three_enter))%nat /\
  (snd (fst status) = false -> fst (fst status) = 0%nat) /\
  snd status = 10.
Proof.
  exact (X25_queue_status three_enter busy 10 eq_refl).
Defined.

Lemma X27_witness :
  all_chars is_unreserved "plumbers" = true /\
  buildSearchUrl "plumbers" "Tampa"
  = "https://www.google.com/maps/search/plumbers+Tampa".
Proof.
  split; [reflexivity|].
  exact (X27_search_url_of_plain_words "plumbers" "Tampa" eq_refl eq_refl).
Defined.
